(** * Webhook distribution and consumption pipeline

    A shallow embedding of the two services that make up the pipeline:

    - [Broker]: [webhook-service/server.js], the subscription registry, the
      fan-out of an inbound event to the matching subscribers, the health
      counters and the replay endpoint;
    - [Sync]: [solutions/webhook-sync/index.js], the consumer that receives a
      delivery, queues a job and later pushes the object to the sink;
    - [Registry], [Trace], [Mapping], [Batch], [Subscribe]: the rest of the
      two services (listing and start-up load, the field mapping, batch
      jobs, the consumer's own subscription);
    - [Simulator], [Pipeline]: the parts of [hubspot-simulator/server.js]
      that feed the broker and answer the consumer.

    Request bodies are JSON, so the values the handlers inspect are modelled
    by [Js.value]; the answers of the outside world (subscriber endpoints,
    Redis, the CRM, the sink) are arguments of the handlers. *)

From Stdlib Require Import ZArith List String Ascii Bool Lia.
Import ListNotations.

Local Open Scope string_scope.
Local Open Scope Z_scope.

(** ** JavaScript values and the operations the handlers apply to them *)

Module Js.

Set Warnings "-register-all".

(** A parsed JSON document, plus [Undefined] for an absent member.  The
    numbers the handlers meet are only tested for truthiness or compared,
    so integers suffice. *)
Inductive value : Type :=
| Undefined
| Null
| Bool (b : bool)
| Num (z : Z)
| Str (s : string)
| Arr (items : list value)
| Obj (members : list (string * value)).

Inductive error : Type :=
| TypeError        (* a method called on a value that does not have it *)
| RedisError       (* a Redis command was rejected *)
| QueueError       (* the job queue rejected an [add] *)
| HttpError (status : option Z). (* axios rejected: a status, or no response *)

Inductive result (A : Type) : Type :=
| Ok (a : A)
| Throw (e : error).
Arguments Ok {A} a.
Arguments Throw {A} e.

Definition bind {A B} (r : result A) (k : A -> result B) : result B :=
  match r with
  | Ok a => k a
  | Throw e => Throw e
  end.

(** [!!v] of JavaScript. *)
Definition truthy (v : value) : bool :=
  match v with
  | Undefined | Null => false
  | Bool b => b
  | Num z => negb (z =? 0)
  | Str s => negb (s =? "")%string
  | Arr _ | Obj _ => true
  end.

(** [a || b] on values. *)
Definition or_else (a b : value) : value := if truthy a then a else b.

Fixpoint lookup (k : string) (ms : list (string * value)) : value :=
  match ms with
  | [] => Undefined
  | (k', v) :: ms' => if (k =? k')%string then v else lookup k ms'
  end.

(** [v.k] for a named member [k].  Request bodies are objects or arrays
    ([express.json] accepts nothing else); on an array or a primitive a
    named member is [undefined]. *)
Definition get (v : value) (k : string) : value :=
  match v with
  | Obj ms => lookup k ms
  | _ => Undefined
  end.

(** [a === b].  Two arrays or objects are equal only when they are the same
    reference; the operands compared by the handlers come from different
    parsed documents, so they never are. *)
Definition strict_eq (a b : value) : bool :=
  match a, b with
  | Undefined, Undefined => true
  | Null, Null => true
  | Bool x, Bool y => Bool.eqb x y
  | Num x, Num y => x =? y
  | Str x, Str y => (x =? y)%string
  | _, _ => false
  end.

Definition isArray (v : value) : bool :=
  match v with
  | Arr _ => true
  | _ => false
  end.

Definition lower_ascii (c : ascii) : ascii :=
  let n := nat_of_ascii c in
  if ((65 <=? n) && (n <=? 90))%nat then ascii_of_nat (n + 32) else c.

(** [String.prototype.toLowerCase] as it acts on ASCII text: the capitals
    [A] to [Z] become small letters and nothing else changes.  The method
    itself follows the Unicode case mapping, so outside ASCII text this
    function is not the method; a statement that depends on the value of
    the conversion is made for [ascii_text] only. *)
Fixpoint lower (s : string) : string :=
  match s with
  | EmptyString => EmptyString
  | String c s' => String (lower_ascii c) (lower s')
  end.

(** Every character of the text is in the ASCII range. *)
Fixpoint ascii_text (s : string) : bool :=
  match s with
  | EmptyString => true
  | String c s' => (nat_of_ascii c <? 128)%nat && ascii_text s'
  end.

(** [v.toLowerCase()]: only strings have the method. *)
Definition toLowerCase (v : value) : result string :=
  match v with
  | Str s => Ok (lower s)
  | _ => Throw TypeError
  end.

(** [v.startsWith(x)] for a string [x]: only strings have the method. *)
Definition startsWith (v : value) (x : string) : result bool :=
  match v with
  | Str s => Ok (prefix x s)
  | _ => Throw TypeError
  end.

(** [needle] occurs somewhere in [hay]. *)
Fixpoint occurs (needle hay : string) : bool :=
  match hay with
  | EmptyString => prefix needle EmptyString
  | String _ hay' => prefix needle hay || occurs needle hay'
  end.

(** [v.includes(x)] for a string [x]: a substring test on a string, a
    membership test on an array, and no such method elsewhere. *)
Definition includes (v : value) (x : string) : result bool :=
  match v with
  | Str s => Ok (occurs x s)
  | Arr items => Ok (existsb (strict_eq (Str x)) items)
  | _ => Throw TypeError
  end.

End Js.

Import Js.


(** ** The broker: [webhook-service/server.js] *)

Module Broker.

(** *** Data *)

(** A subscription object as [POST /subscriptions] builds it.  [url],
    [events] and [secret] are stored as they arrive in the request body. *)
Record subscription : Type := mkSubscription {
  id : string;
  url : value;
  events : value;
  secret : value;
  active : bool;
  createdAt : string;
  lastNotified : option string;
  successCount : Z;
  errorCount : Z
}.

(** The [subscribers] Map: keys are unique and iteration follows insertion
    order. *)
Definition registry : Type := list (string * subscription).

Fixpoint map_get (k : string) (m : registry) : option subscription :=
  match m with
  | [] => None
  | (k', s) :: m' => if (k =? k')%string then Some s else map_get k m'
  end.

Definition map_has (k : string) (m : registry) : bool :=
  match map_get k m with
  | Some _ => true
  | None => false
  end.

(** [Map.prototype.set]: an existing key keeps its place. *)
Fixpoint map_set (k : string) (s : subscription) (m : registry) : registry :=
  match m with
  | [] => [(k, s)]
  | (k', s') :: m' =>
      if (k =? k')%string then (k, s) :: m' else (k', s') :: map_set k s m'
  end.

Fixpoint map_delete (k : string) (m : registry) : registry :=
  match m with
  | [] => []
  | (k', s') :: m' =>
      if (k =? k')%string then m' else (k', s') :: map_delete k m'
  end.

(** What the service keeps in Redis: the recorded events under their
    [webhook:events:*] keys (in the order [KEYS] lists them), the
    processing queue of event keys, and the [webhook:subscriptions] hash
    holding the snapshot taken at registration. *)
Record redis : Type := mkRedis {
  recorded : list (string * value);
  processing_queue : list string;
  subscriptions_hash : registry
}.

Record state : Type := mkState {
  subscribers : registry;
  redisClient : option redis
}.

(** The answer of a subscriber endpoint to one POST. *)
Inductive post_outcome : Type :=
| Responded (status : Z)   (* an HTTP response arrived *)
| NoResponse.              (* connection failure, or the 30 s timeout *)

(** What the outside world contributes to one handler run. *)
Record io : Type := mkIo {
  redis_up : bool;                  (* Redis commands succeed *)
  randomUUID : string;              (* [crypto.randomUUID()] *)
  now : string;                     (* the clock reading *)
  post : string -> post_outcome     (* answer of the endpoint of the
                                       subscription stored under a key *)
}.

(** How a handler ends: a response is sent, or its promise rejects; or
    the request is still being passed on and no response has been sent. *)
Inductive outcome : Type :=
| Sent (status : Z) (body : value)
| Rejected (e : error)
| Unanswered.

(** A settled promise, as [Promise.allSettled] reports it. *)
Inductive settled : Type :=
| Fulfilled
| Failed.

(** *** Registration: [app.post('/subscriptions')] *)

Definition new_subscription (io_ : io) (body : value) : subscription :=
  {| id := randomUUID io_;
     url := get body "url";
     events := get body "events";
     secret := get body "secret";
     active := true;
     createdAt := now io_;
     lastNotified := None;
     successCount := 0;
     errorCount := 0 |}.

Definition hSet (k : string) (s : subscription) (r : redis) : redis :=
  {| recorded := recorded r;
     processing_queue := processing_queue r;
     subscriptions_hash := map_set k s (subscriptions_hash r) |}.

Definition hDel (k : string) (r : redis) : redis :=
  {| recorded := recorded r;
     processing_queue := processing_queue r;
     subscriptions_hash := map_delete k (subscriptions_hash r) |}.

Definition post_subscriptions (io_ : io) (body : value) (st : state) : outcome * state :=
  let url := get body "url" in
  let events := get body "events" in
  if negb (truthy url) || negb (truthy events) || negb (isArray events) then
    (Sent 400 (Obj [("error", Str "Missing required fields: url, events (array)")]), st)
  else
    let subscriptionId := randomUUID io_ in
    let subscription := new_subscription io_ body in
    let subs := map_set subscriptionId subscription (subscribers st) in
    let created :=
      Sent 201 (Obj [("subscriptionId", Str subscriptionId);
                     ("message", Str "Webhook subscription created successfully")]) in
    match redisClient st with
    | None => (created, mkState subs None)
    | Some r =>
        if redis_up io_
        then (created, mkState subs (Some (hSet subscriptionId subscription r)))
        else (Rejected RedisError, mkState subs (Some r))
    end.

(** *** Deregistration: [app.delete('/subscriptions/:id')] *)

Definition delete_subscription (io_ : io) (k : string) (st : state) : outcome * state :=
  if map_has k (subscribers st) then
    let subs := map_delete k (subscribers st) in
    let deleted := Sent 200 (Obj [("message", Str "Subscription deleted")]) in
    match redisClient st with
    | None => (deleted, mkState subs None)
    | Some r =>
        if redis_up io_
        then (deleted, mkState subs (Some (hDel k r)))
        else (Rejected RedisError, mkState subs (Some r))
    end
  else (Sent 404 (Obj [("error", Str "Subscription not found")]), st).

(** *** Matching: the [eventMatch] test of the fan-out loop *)

(** [Array.prototype.some]: stops at the first element accepted; an
    exception of the callback ends it. *)
Fixpoint some (f : value -> result bool) (items : list value) : result bool :=
  match items with
  | [] => Ok false
  | x :: items' => bind (f x) (fun b => if b then Ok true else some f items')
  end.

Definition array_some (f : value -> result bool) (v : value) : result bool :=
  match v with
  | Arr items => some f items
  | _ => Throw TypeError
  end.

(** The callback: [subscribedEvent === '*' || subscribedEvent ===
    event.eventType || subscribedEvent.startsWith(event.objectType.toLowerCase())]. *)
Definition subscribed (event subscribedEvent : value) : result bool :=
  if strict_eq subscribedEvent (Str "*") then Ok true
  else if strict_eq subscribedEvent (get event "eventType") then Ok true
  else bind (toLowerCase (get event "objectType")) (startsWith subscribedEvent).

Definition eventMatch (subscription_ : subscription) (event : value) : result bool :=
  array_some (subscribed event) (events subscription_).

(** The test a subscription must pass for a delivery to be started: the
    [active] guard of the loop, then [eventMatch]. *)
Definition matches (subscription_ : subscription) (event : value) : result bool :=
  if negb (active subscription_) then Ok false else eventMatch subscription_ event.

(** *** One delivery attempt: [notifySubscriber] *)

(** [axios.post] with [validateStatus: status < 500] resolves exactly on a
    response whose status is below 500. *)
Definition resolves (r : post_outcome) : bool :=
  match r with
  | Responded status => status <? 500
  | NoResponse => false
  end.

(** The key of the signature, [subscription.secret || 'default'];
    [crypto.createHmac] throws on a key that is not a string. *)
Definition signing_key (s : subscription) : result string :=
  match or_else (secret s) (Str "default") with
  | Str key => Ok key
  | _ => Throw TypeError
  end.

(** The [try] block runs to its end: the header is signed and the POST
    resolves. *)
Definition delivered (s : subscription) (r : post_outcome) : bool :=
  match signing_key s with
  | Ok _ => resolves r
  | Throw _ => false
  end.

(** The payload [{subscriptionId, event, timestamp}] and its signature header
    are data of the request; what decides the rest is whether the header
    could be signed and the answer [r] to the POST.  The subscription object
    is updated in place, so the updated object is returned next to the way
    the promise settles. *)
Definition notifySubscriber (s : subscription) (event : value)
    (r : post_outcome) (now_ : string) : settled * subscription :=
  if delivered s r then
    (Fulfilled,
     {| id := id s; url := url s; events := events s; secret := secret s;
        active := active s; createdAt := createdAt s;
        lastNotified := Some now_;
        successCount := successCount s + 1;
        errorCount := errorCount s |})
  else
    let errors := errorCount s + 1 in
    (Failed,
     {| id := id s; url := url s; events := events s; secret := secret s;
        active := if 10 <? errors then false else active s;
        createdAt := createdAt s;
        lastNotified := lastNotified s;
        successCount := successCount s;
        errorCount := errors |}).

(** *** Publication: [app.post('/webhook')] *)

(** [`webhook:events:${Date.now()}:${crypto.randomUUID()}`].  The field
    [now] stands for the reading of the clock in the rendering the place
    asks for (milliseconds here, an ISO date in the time stamps); nothing
    below relates the two. *)
Definition eventKey (io_ : io) : string :=
  "webhook:events:" ++ now io_ ++ ":" ++ randomUUID io_.

(** [SET key value]: an existing key is overwritten. *)
Fixpoint kv_set (k : string) (v : value) (kv : list (string * value)) : list (string * value) :=
  match kv with
  | [] => [(k, v)]
  | (k', v') :: kv' =>
      if (k =? k')%string then (k, v) :: kv' else (k', v') :: kv_set k v kv'
  end.

(** The event is kept under a fresh key (for 24 h) and the key is pushed on
    the processing queue; nothing is kept without a Redis client.  The two
    commands succeed or fail together here ([redis_up]): a [SET] that
    succeeds followed by an [LPUSH] that is rejected is not represented. *)
Definition store_event (io_ : io) (event : value) (rc : option redis) : result (option redis) :=
  match rc with
  | None => Ok None
  | Some r =>
      if redis_up io_ then
        Ok (Some {| recorded := kv_set (eventKey io_) event (recorded r);
                    processing_queue := eventKey io_ :: processing_queue r;
                    subscriptions_hash := subscriptions_hash r |})
      else Throw RedisError
  end.

(** The 24 h expiry of a recorded event removes its key. *)
Definition expire (k : string) (r : redis) : redis :=
  {| recorded := filter (fun e => negb (fst e =? k)%string) (recorded r);
     processing_queue := processing_queue r;
     subscriptions_hash := subscriptions_hash r |}.

(** The [for] loop over [subscribers.entries()]: the entries for which
    [notifySubscriber] is called, in order, and the exception that ended
    the loop early, if one did. *)
Fixpoint select (event : value) (entries : registry) : registry * option error :=
  match entries with
  | [] => ([], None)
  | (k, s) :: rest =>
      if negb (active s) then select event rest
      else
        match eventMatch s event with
        | Throw e => ([], Some e)
        | Ok true => let (ns, e) := select event rest in ((k, s) :: ns, e)
        | Ok false => select event rest
        end
  end.

(** All started attempts run to their end, each with the answer of its own
    endpoint. *)
Definition settle (io_ : io) (event : value) (notifications : registry)
    : list (string * (settled * subscription)) :=
  map (fun e => (fst e, notifySubscriber (snd e) event (post io_ (fst e)) (now io_)))
      notifications.

Fixpoint settled_get (k : string) (done : list (string * (settled * subscription)))
    : option subscription :=
  match done with
  | [] => None
  | (k', (_, s')) :: done' => if (k =? k')%string then Some s' else settled_get k done'
  end.

(** The attempts update the subscription objects held by the Map. *)
Definition write_back (done : list (string * (settled * subscription)))
    (entries : registry) : registry :=
  map (fun e => match settled_get (fst e) done with
                | Some s' => (fst e, s')
                | None => e
                end) entries.

Definition is_fulfilled (r : settled) : bool :=
  match r with Fulfilled => true | Failed => false end.

Definition is_rejected (r : settled) : bool :=
  match r with Fulfilled => false | Failed => true end.

Definition count (p : settled -> bool) (done : list (string * (settled * subscription))) : Z :=
  Z.of_nat (List.length (filter (fun d => p (fst (snd d))) done)).

Definition webhook (io_ : io) (event : value) (st : state) : outcome * state :=
  if negb (truthy (get event "eventType"))
     || negb (truthy (get event "objectType"))
     || negb (truthy (get event "objectId"))
  then (Sent 400 (Obj [("error", Str "Invalid webhook payload")]), st)
  else
    match store_event io_ event (redisClient st) with
    | Throw e => (Rejected e, st)
    | Ok rc =>
        let (notifications, thrown) := select event (subscribers st) in
        let results := settle io_ event notifications in
        let st' := mkState (write_back results (subscribers st)) rc in
        match thrown with
        | Some e => (Rejected e, st')
        | None =>
            (Sent 200 (Obj [("message", Str "Webhook processed");
                            ("eventId", get event "eventId");
                            ("notificationsSent", Num (count is_fulfilled results));
                            ("notificationsFailed", Num (count is_rejected results))]),
             st')
        end
    end.

(** *** Replay: [app.post('/replay/:eventId')] *)

(** The handler looks the event up among the recorded ones, puts it in
    [req.body] and ends with [app.post('/webhook')(req, res)].  That call of
    [app.post] names a path and no handler: it registers nothing that could
    run and returns [app], so the handler of [/webhook] is not called;
    [app(req, res)] hands the request, which is still [POST
    /replay/:eventId], back to the application, where it reaches this
    handler again.  [rounds] is how many times the handler is entered before
    one stops watching; the request is [Unanswered] if it is still going
    round then.  (The text of the 500 answer is the message of the Redis
    client's error, which is not modelled.) *)
Fixpoint replay_rounds (rounds : nat) (io_ : io) (eventId : string) (st : state) : outcome :=
  match rounds with
  | O => Unanswered
  | S rounds' =>
      match redisClient st with
      | None => Sent 503 (Obj [("error", Str "Redis not available")])
      | Some r =>
          if negb (redis_up io_) then Sent 500 (Obj [("error", Str "Redis")])
          else
            match find (fun e => strict_eq (get (snd e) "eventId") (Str eventId))
                       (recorded r) with
            | None => Sent 404 (Obj [("error", Str "Event not found")])
            | Some targetEvent => replay_rounds rounds' io_ eventId st
            end
      end
  end.

(** No round changes the registry or what Redis holds. *)
Definition replay (rounds : nat) (io_ : io) (eventId : string) (st : state)
    : outcome * state :=
  (replay_rounds rounds io_ eventId st, st).

(** *** The service as a transition system *)

Inductive request : Type :=
| PostSubscriptions (body : value)
| DeleteSubscription (k : string)
| PostWebhook (event : value)
| PostReplay (eventId : string) (rounds : nat).

Definition handle (io_ : io) (req : request) (st : state) : outcome * state :=
  match req with
  | PostSubscriptions body => post_subscriptions io_ body st
  | DeleteSubscription k => delete_subscription io_ k st
  | PostWebhook event => webhook io_ event st
  | PostReplay eventId rounds => replay rounds io_ eventId st
  end.

Fixpoint run (reqs : list (io * request)) (st : state) : state :=
  match reqs with
  | [] => st
  | (io_, req) :: reqs' => run reqs' (snd (handle io_ req st))
  end.

(** The Map is empty when the service starts.  (The snapshots of the
    [webhook:subscriptions] hash are then loaded into it; the transitions
    above are those of the running service.) *)
Definition started_with (rc : option redis) : state := mkState [] rc.

(** *** Vocabulary for the statements *)

(** The keys of the subscriptions for which the loop of a publication of
    [event] in state [st] calls [notifySubscriber].  The handler reaches the
    loop only with an event that passed the validation and was recorded:
    for any other event this is what the loop would do, not what the
    handler does. *)
Definition attempted (event : value) (st : state) : list string :=
  map fst (fst (select event (subscribers st))).

(** What the callback of [eventMatch] computes on strings. *)
Definition accepts (eventType objectType pattern : string) : bool :=
  (pattern =? "*")%string
  || (pattern =? eventType)%string
  || prefix (lower objectType) pattern.

(** The entry is active and its patterns match the event. *)
Definition selected (event : value) (e : string * subscription) : bool :=
  active (snd e)
  && match eventMatch (snd e) event with
     | Ok true => true
     | _ => false
     end.

(** The body of the 200 answer of a publication. *)
Definition report (event : value) (sent failed : nat) : value :=
  Obj [("message", Str "Webhook processed");
       ("eventId", get event "eventId");
       ("notificationsSent", Num (Z.of_nat sent));
       ("notificationsFailed", Num (Z.of_nat failed))].

(** Every subscription of the registry has an array of strings as its
    patterns. *)
Definition string_patterns (m : registry) : Prop :=
  Forall (fun e => exists patterns, events (snd e) = Arr (map Str patterns)) m.

(** An event that passes the validation of [app.post('/webhook')]. *)
Definition valid (event : value) : bool :=
  truthy (get event "eventType") && truthy (get event "objectType")
  && truthy (get event "objectId").

(** The test [replay] applies to the recorded events. *)
Definition has_id (eventId : string) (e : string * value) : bool :=
  strict_eq (get (snd e) "eventId") (Str eventId).

(** A subscription past the threshold is inactive. *)
Definition tracked (s : subscription) : Prop :=
  10 < errorCount s -> active s = false.

(** The registry is a Map (no key twice) whose subscriptions are
    [tracked]. *)
Definition well_formed (st : state) : Prop :=
  NoDup (map fst (subscribers st)) /\ Forall (fun e => tracked (snd e)) (subscribers st).


(** No registration of the run draws the identifier [k]. *)
Definition never_draws (k : string) (reqs : list (io * request)) : Prop :=
  Forall (fun x => match snd x with
                   | PostSubscriptions _ => randomUUID (fst x) <> k
                   | _ => True
                   end) reqs.

End Broker.

(** ** The consumer: [solutions/webhook-sync/index.js] *)

Module Sync.

(** *** Configuration *)

Record config : Type := mkConfig {
  processingDelay : Z;   (* ms *)
  maxRetries : Z
}.

(** [parseInt(process.env.X) || d]; [None] is an unset or non-numeric
    variable, for which [parseInt] gives [NaN]. *)
Definition env_int (x : option Z) (d : Z) : Z :=
  match x with
  | Some n => if n =? 0 then d else n
  | None => d
  end.

Definition load_config (PROCESSING_DELAY MAX_RETRIES : option Z) : config :=
  {| processingDelay := env_int PROCESSING_DELAY 1000;
     maxRetries := env_int MAX_RETRIES 3 |}.

(** *** What the service does to the outside world *)

(** The calls and records a property below speaks about; the counters of
    received events and of API requests, and the debug and info lines of
    the log, are left out. *)
Inductive effect : Type :=
| HubSpotGet (objectType objectId : value)   (* GET /crm/v3/objects/<type>/<id> *)
| DataboxPost (objectType : value) (data : list value)
    (* POST of [{data, source: HubSpot-Webhook-<type>}] to the sink *)
| LogWarn (message : string)
| LogError (message : string)
| ProcessingError (error_type operation : string).  (* [processingErrors.inc] *)

(** An answer to an HTTP request made with axios' default
    [validateStatus]: the promise resolves on a 2xx status only. *)
Inductive http_reply : Type :=
| Reply (status : Z) (data : value)
| NoReply.

Definition ok_status (status : Z) : bool := (200 <=? status) && (status <? 300).

(** A computation that may throw, with the effects it had. *)
Definition M (A : Type) : Type := result A * list effect.

Definition ret {A} (a : A) : M A := (Ok a, []).

Definition raise {A} (e : error) : M A := (Throw e, []).

Definition tell (x : effect) : M unit := (Ok tt, [x]).

Definition bindM {A B} (m : M A) (k : A -> M B) : M B :=
  match m with
  | (Ok a, t) => let (r, t') := k a in (r, (t ++ t')%list)
  | (Throw e, t) => (Throw e, t)
  end.

(** [try { m } catch (error) { h error }]. *)
Definition catch {A} (m : M A) (h : error -> M A) : M A :=
  match m with
  | (Ok a, t) => (Ok a, t)
  | (Throw e, t) => let (r, t') := h e in (r, (t ++ t')%list)
  end.

Notation "x <- m ;; k" := (bindM m (fun x => k))
  (at level 61, m at next level, right associativity).
Notation "m ;; k" := (bindM m (fun _ => k))
  (at level 61, right associativity).

(** *** Jobs *)

Record job_data : Type := mkJobData {
  eventType : value;
  objectType : value;
  objectId : value;
  properties : value;
  occurredAt : value
}.

Record backoff_opts : Type := mkBackoff {
  backoff_type : string;
  backoff_delay : Z
}.

Record job_opts : Type := mkJobOpts {
  delay : Z;
  attempts : Z;
  backoff : backoff_opts
}.

Record job : Type := mkJob {
  name : string;
  data : job_data;
  opts : job_opts
}.

(** *** Intake: [handleWebhook] *)

Record http_request : Type := mkRequest {
  headers : list (string * string);
  body : value
}.

Record response : Type := mkResponse {
  status : Z;
  json : value
}.

(** The function returns [true] in its first statement ("Temporarily
    disable signature validation for debugging"); the comparison of the
    [x-hubspot-signature] header with the HMAC of the body that follows it
    is never reached. *)
Definition validateWebhookSignature (req : http_request) : bool := true.

(** The job built from an event and handed to [processingQueue.add]. *)
Definition sync_object_job (cfg : config) (clock : Z) (event : value) : job :=
  {| name := "sync-object";
     data := {| eventType := get event "eventType";
                objectType := get event "objectType";
                objectId := get event "objectId";
                properties := get event "properties";
                occurredAt := or_else (get event "occurredAt") (Num clock) |};
     opts := {| delay := processingDelay cfg;
                attempts := maxRetries cfg;
                backoff := {| backoff_type := "exponential"; backoff_delay := 2000 |} |} |}.

(** [added] are the jobs given to the queue so far; [add_ok] tells whether
    the queue accepts this one. *)
Definition queueEventForProcessing (cfg : config) (clock : Z) (add_ok : bool)
    (event : value) (added : list job) : result (list job) :=
  if add_ok then Ok (added ++ [sync_object_job cfg clock event])%list
  else Throw QueueError.

(** The answer when the queue rejects the job is 500 with the message of
    the queue's error as its text; that message is not modelled, the text
    below stands in for it, and no statement reads it. *)
Definition handleWebhook (cfg : config) (clock : Z) (add_ok : bool)
    (req : http_request) (added : list job) : response * list job :=
  let event := or_else (get (body req) "event") (body req) in
  if negb (validateWebhookSignature req) then
    (mkResponse 401 (Obj [("error", Str "Invalid signature")]), added)
  else
    match queueEventForProcessing cfg clock add_ok event added with
    | Ok added' =>
        (mkResponse 200 (Obj [("message", Str "Webhook received");
                              ("eventId", get event "eventId");
                              ("queued", Bool true)]),
         added')
    | Throw e =>
        (mkResponse 500 (Obj [("error", Str "Webhook processing failed")]), added)
    end.

(** *** The worker: [processObjectSync] *)

Section Worker.

(** [convertToDataboxFormat objectType objectData]: the field mapping to
    the sink's wire format.  No property below depends on which fields
    it produces, only on whether it throws, so it is left open. *)
Variable convertToDataboxFormat : value -> value -> result value.

Definition fetchObjectFromHubSpot (objectType objectId : value)
    (crm : http_reply) : M value :=
  tell (HubSpotGet objectType objectId) ;;
  match crm with
  | Reply st d =>
      if ok_status st then ret d
      else if st =? 404 then
        tell (LogWarn "Object not found (may be deleted)") ;; ret Null
      else raise (HttpError (Some st))
  | NoReply => raise (HttpError None)
  end.

Definition sendToDatabox (objectType : value) (data : list value)
    (sink : http_reply) : M unit :=
  tell (DataboxPost objectType data) ;;
  match sink with
  | Reply st _ =>
      if ok_status st then ret tt
      else tell (LogError "Failed to send data to Databox") ;;
           raise (HttpError (Some st))
  | NoReply =>
      tell (LogError "Failed to send data to Databox") ;;
      raise (HttpError None)
  end.

Definition sendObjectToDatabox (objectType objectData : value)
    (sink : http_reply) : M unit :=
  if negb (truthy objectData) then ret tt
  else
    match convertToDataboxFormat objectType objectData with
    | Throw e => raise e
    | Ok databoxData => sendToDatabox objectType [databoxData] sink
    end.

(** [eventType.includes('creation') || !properties] *)
Definition fetch_needed (d : job_data) : result bool :=
  bind (includes (eventType d) "creation")
       (fun creation => Ok (creation || negb (truthy (properties d)))).

Definition processObjectSync (j : job) (crm sink : http_reply) : M unit :=
  let d := data j in
  catch
    (objectData <-
       match fetch_needed d with
       | Throw e => raise e
       | Ok true => fetchObjectFromHubSpot (objectType d) (objectId d) crm
       | Ok false => ret (Obj [("id", objectId d); ("properties", properties d)])
       end ;;
     sendObjectToDatabox (objectType d) objectData sink)
    (fun error_ =>
       tell (LogError "Failed to process object") ;;
       tell (ProcessingError "sync_error" "process_object") ;;
       raise error_).

End Worker.

(** The listener of the queue's [failed] event: an error line in the log
    and one more [job_failure] in the error counter. *)
Definition on_failed (j : job) : list effect :=
  [LogError "Job failed"; ProcessingError "job_failure" (name j)].

End Sync.

(** ** The retry queue that runs the jobs *)

Module Queue.

Import Sync.

Inductive job_state : Type :=
| Pending (visible_at : Z)
| Processing
| Done
| Failed.

(** A job in the queue, with the number of failed attempts so far. *)
Record entry : Type := mkEntry {
  queued : job;
  attempt : Z;
  state_ : job_state
}.

(** Modelled from the spec: the delayed queue is the [bull] package, which
    is not part of the repository; a job enters it as Pending, visible after
    its processing delay. *)
Definition add (clock : Z) (j : job) : entry :=
  mkEntry j 0 (Pending (clock + delay (opts j))).

(** Modelled from the spec: the backoff of the [bull] package, missing here;
    exponential with multiplier 2, so the wait after the [n]-th failure is
    the base delay times [2 ^ (n - 1)]. *)
Definition backoff_ms (o : job_opts) (n : Z) : Z :=
  if (backoff_type (backoff o) =? "exponential")%string
  then backoff_delay (backoff o) * 2 ^ (n - 1)
  else backoff_delay (backoff o).

(** Modelled from the spec: which jobs a worker of the [bull] package may
    take; a job is eligible only while Pending and once its visible time
    has elapsed. *)
Definition claimable (clock : Z) (e : entry) : bool :=
  match state_ e with
  | Pending visible_at => visible_at <=? clock
  | _ => false
  end.

(** Modelled from the spec: claiming a job, which the [bull] package does;
    the job is Processing and no other worker takes it. *)
Definition claim (clock : Z) (e : entry) : entry :=
  if claimable clock e then mkEntry (queued e) (attempt e) Processing else e.

(** Modelled from the spec: the end of an attempt, decided by the [bull]
    package; success gives Done, a failure counts one attempt and gives
    Pending again with the backoff while the count is below the maximum,
    and Failed, reported to the [failed] listener, once it reaches it. *)
Definition finish (clock : Z) (e : entry) (r : result unit) : entry * list effect :=
  match state_ e with
  | Processing =>
      match r with
      | Ok _ => (mkEntry (queued e) (attempt e) Done, [])
      | Throw _ =>
          let n := attempt e + 1 in
          if n <? attempts (opts (queued e))
          then (mkEntry (queued e) n (Pending (clock + backoff_ms (opts (queued e)) n)), [])
          else (mkEntry (queued e) n Failed, on_failed (queued e))
      end
  | _ => (e, [])
  end.

(** The most attempts a job can come to: its configured maximum, and one
    at least, since a job is run before its maximum is looked at. *)
Definition limit (j : job) : Z := Z.max 1 (attempts (opts j)).

(** The entry holds job [j], its count is within the [limit], and while it
    is Pending it has an attempt left. *)
Definition within (j : job) (e : entry) : Prop :=
  queued e = j
  /\ attempt e <= limit j
  /\ (forall v, state_ e = Pending v -> attempt e < limit j).

Section Worker.

Variable convertToDataboxFormat : value -> value -> result value.

(** What the worker finds when it looks at the job: the clock, and the
    answers the CRM and the sink would give. *)
Definition tick : Type := (Z * http_reply * http_reply)%type.

(** Modelled from the spec: one look of a worker of the [bull] package at
    the job; a job it can claim is run through [processObjectSync]. *)
Definition work (t : tick) (e : entry) : entry * list effect :=
  let '(clock, crm, sink) := t in
  if claimable clock e then
    let (r, eff) := processObjectSync convertToDataboxFormat (queued e) crm sink in
    let (e2, eff') := finish clock (claim clock e) r in
    (e2, (eff ++ eff')%list)
  else (e, []).

Fixpoint drive (ticks : list tick) (e : entry) : entry * list effect :=
  match ticks with
  | [] => (e, [])
  | t :: ticks' =>
      let (e1, eff) := work t e in
      let (e2, eff') := drive ticks' e1 in
      (e2, (eff ++ eff')%list)
  end.

(** Every tick of the list finds the job visible and its processing
    throws. *)
Fixpoint all_fail (ticks : list tick) (e : entry) : Prop :=
  match ticks with
  | [] => True
  | t :: ticks' =>
      claimable (fst (fst t)) e = true
      /\ (exists err, fst (processObjectSync convertToDataboxFormat (queued e)
                            (snd (fst t)) (snd t)) = Throw err)
      /\ all_fail ticks' (fst (work t e))
  end.

End Worker.

End Queue.

(** ** Proof support *)

(** Goes through the members of a concrete list of effects in hypothesis [H]
    and drops those that cannot be the effect looked for. *)
Ltac members H :=
  cbn in H; repeat (destruct H as [H|H]; try discriminate H); try contradiction.

(** Splits a goal into its conjuncts and directions. *)
Ltac splits :=
  repeat match goal with
         | |- _ /\ _ => split
         | |- _ <-> _ => split
         end.

(** Closes a goal about concrete members by cases on its hypotheses. *)
Ltac settle :=
  intros;
  repeat match goal with
         | H : _ /\ _ |- _ => destruct H
         | H : _ \/ _ |- _ => destruct H
         | H : False |- _ => destruct H
         end;
  subst; try congruence; try easy; cbn; auto.

(** ** The behaviour as the specification words it, for comparison *)

Module Stated.

(** [matches]: "true iff active and at least one pattern equals [*], equals
    the event type exactly, or the pattern (case-insensitive) is a prefix
    of the event's object type". *)
Definition pattern_ok (eventType objectType pattern : string) : bool :=
  (pattern =? "*")%string
  || (pattern =? eventType)%string
  || prefix (lower pattern) (lower objectType).

Definition matches (active : bool) (patterns : list string)
    (eventType objectType : string) : bool :=
  active && existsb (pattern_ok eventType objectType) patterns.

End Stated.

(** ** Concrete inputs used in examples *)

Module Sample.

Import Broker.

Definition event_of (eventId eventType objectType objectId : string) : value :=
  Obj [("eventId", Str eventId); ("eventType", Str eventType);
       ("objectType", Str objectType); ("objectId", Str objectId)].

(** The event of the specification's example. *)
Definition company_change : value :=
  event_of "e1" "company.propertyChange" "company" "42".

Definition company_creation : value :=
  event_of "e2" "company.creation" "company" "42".

Definition subscription_for (k : string) (patterns : list string)
    (errors : Z) : subscription :=
  {| id := k; url := Str "http://subscriber/hook";
     events := Arr (map Str patterns); secret := Undefined;
     active := true; createdAt := "2025-01-01T00:00:00Z";
     lastNotified := None; successCount := 0; errorCount := errors |}.


Definition no_redis (entries : registry) : state := mkState entries None.

Definition empty_redis : redis := mkRedis [] [] [].

Definition with_redis (entries : registry) : state :=
  mkState entries (Some empty_redis).

(** Every endpoint answers 200. *)
Definition all_up (uuid : string) : io :=
  mkIo true uuid "1735689600000" (fun _ => Responded 200).

(** No endpoint answers. *)
Definition all_down (uuid : string) : io :=
  mkIo true uuid "1735689600000" (fun _ => NoResponse).

(** Only the endpoint of the subscription under key [k] is unreachable. *)
Definition one_down (k uuid : string) : io :=
  mkIo true uuid "1735689600000"
       (fun k' => if (k' =? k)%string then NoResponse else Responded 200).

(** Three subscriptions that all match [company_change]. *)
Definition three_subscribers : state :=
  with_redis [("s1", subscription_for "s1" ["*"] 0);
              ("s2", subscription_for "s2" ["company"] 0);
              ("s3", subscription_for "s3" ["company.propertyChange"] 0)].

(** A registry whose only subscription is one failure away from being
    switched off. *)
Definition one_on_the_brink : state :=
  with_redis [("s1", subscription_for "s1" ["*"] 10)].


(** A publication, a replay, a registration and a removal of another key. *)
Definition busy_run : list (io * request) :=
  [(all_up "u2", PostWebhook company_change);
   (all_up "u3", PostReplay "e1" 3);
   (all_up "u4", PostSubscriptions
                   (Obj [("url", Str "http://other/hook"); ("events", Arr [Str "*"])]));
   (all_up "u5", DeleteSubscription "u4")].

(** Three registrations, each one accepted: the second with the patterns
    [[null]], between two that take every event. *)
Definition registrations : list (io * request) :=
  [(all_up "s1", PostSubscriptions
                   (Obj [("url", Str "http://first/hook"); ("events", Arr [Str "*"])]));
   (all_up "s2", PostSubscriptions
                   (Obj [("url", Str "http://second/hook"); ("events", Arr [Null])]));
   (all_up "s3", PostSubscriptions
                   (Obj [("url", Str "http://third/hook"); ("events", Arr [Str "*"])]))].

(** The service after these registrations. *)
Definition one_malformed : state := run registrations (with_redis []).

(** One registration followed by [n] publications that find the endpoint
    unreachable. *)
Definition failures (n : nat) : list (io * request) :=
  (all_up "s1", PostSubscriptions
                  (Obj [("url", Str "http://subscriber/hook"); ("events", Arr [Str "*"])]))
  :: repeat (all_down "u2", PostWebhook company_change) n.

End Sample.

Module SyncSample.

Import Sync.

Definition defaults : config := load_config None None.

(** A delivery as the broker posts it, wrapped around a creation event;
    the request carries no [x-hubspot-signature] header. *)
Definition unsigned_delivery : http_request :=
  {| headers := [("content-type", "application/json")];
     body := Obj [("subscriptionId", Str "s1");
                  ("event", Obj [("eventId", Str "e2");
                                 ("eventType", Str "company.creation");
                                 ("objectType", Str "company");
                                 ("objectId", Str "42")]);
                  ("timestamp", Num 1735689600000)] |}.

(** A property change that carries only the changed property. *)
Definition renamed : value :=
  Obj [("eventId", Str "e1"); ("eventType", Str "company.propertyChange");
       ("objectType", Str "company"); ("objectId", Str "42");
       ("properties", Obj [("name", Str "Acme Ltd")])].

(** A creation event, which carries no properties. *)
Definition created : value :=
  Obj [("eventId", Str "e2"); ("eventType", Str "company.creation");
       ("objectType", Str "company"); ("objectId", Str "42")].

(** The object as the CRM holds it. *)
Definition stored_company : value :=
  Obj [("id", Str "42");
       ("properties", Obj [("name", Str "Acme Ltd"); ("domain", Str "acme.example");
                           ("industry", Str "Tools"); ("founded_year", Str "1990")])].

(** A field mapping that passes the object through. *)
Definition pass_through (objectType objectData : value) : result value := Ok objectData.

(** Three looks of a worker, each when the job is due, each finding the
    CRM unreachable; and a fourth look later on. *)
Definition three_failures : list (Z * http_reply * http_reply) :=
  [(1000, NoReply, NoReply); (3000, NoReply, NoReply); (7000, NoReply, NoReply)].

Definition fourth_look : list (Z * http_reply * http_reply) :=
  [(60000, Reply 200 stored_company, Reply 200 Null)].

(** Three looks of a worker, each when the job is due, each finding the
    CRM in order and the sink failing: a 503, no answer, a 500. *)
Definition three_sink_failures : list (Z * http_reply * http_reply) :=
  [(1000, Reply 200 stored_company, Reply 503 Null);
   (3000, Reply 200 stored_company, NoReply);
   (7000, Reply 200 stored_company, Reply 500 Null)].

(** The configuration under [MAX_RETRIES=-1]. *)
Definition negative_maximum : config := load_config None (Some (-1)).

End SyncSample.

(** ** The rest of the broker: listing, start-up, vocabulary *)

Module Registry.

Import Broker.

(** [app.get('/subscriptions')]: the values of the Map, in its order. *)
Definition get_subscriptions (st : state) : list subscription :=
  map snd (subscribers st).

(** The start-up load: with a Redis client, every field of the
    [webhook:subscriptions] hash is parsed and [set] in the Map under its
    field name; a failing [hGetAll] is logged and leaves the Map alone. *)
Definition load_subscriptions (hash_ok : bool) (st : state) : state :=
  match redisClient st with
  | Some r =>
      if hash_ok
      then mkState (fold_left (fun m e => map_set (fst e) (snd e) m)
                              (subscriptions_hash r) (subscribers st))
                   (Some r)
      else st
  | None => st
  end.

(** [GET key] on the recorded events. *)
Fixpoint kv_get (k : string) (kv : list (string * value)) : option value :=
  match kv with
  | [] => None
  | (k', v) :: kv' => if (k =? k')%string then Some v else kv_get k kv'
  end.


(** What a handler may do to a subscription that stays registered: count,
    stamp and switch off, nothing else. *)
Definition evolves (s s' : subscription) : Prop :=
  id s' = id s /\ url s' = url s /\ events s' = events s /\ secret s' = secret s
  /\ createdAt s' = createdAt s
  /\ successCount s <= successCount s'
  /\ errorCount s <= errorCount s'
  /\ (active s' = true -> active s = true).


(** A restart of the service on the same Redis: an empty Map, then the
    load. *)
Definition restart (st : state) : state :=
  load_subscriptions true (started_with (redisClient st)).

(** A counter summed over the registry, as a reader of [/stats] or of
    [GET /subscriptions] would add it up. *)
Definition total (f : subscription -> Z) (m : registry) : Z :=
  fold_right (fun e acc => f (snd e) + acc) 0 m.

(** The key is one of [keys]. *)
Definition among (keys : list string) (e : string * subscription) : bool :=
  existsb (String.eqb (fst e)) keys.

(** Some active subscription of the registry has a pattern list on which the
    comparison with [event] throws. *)
Definition poisoned (event : value) (m : registry) : Prop :=
  exists k s e, In (k, s) m /\ active s = true /\ eventMatch s event = Throw e.

End Registry.

(** ** The rest of the consumer *)

(** *** What a trace of the worker says *)

Module Trace.

Import Sync.

Inductive call : Type :=
| Get    (* a request to the CRM *)
| Post.  (* a request to the sink *)

Definition call_of (x : effect) : list call :=
  match x with
  | HubSpotGet _ _ => [Get]
  | DataboxPost _ _ => [Post]
  | _ => []
  end.

(** The requests of a trace, in order. *)
Definition calls (eff : list effect) : list call := flat_map call_of eff.

Definition is_sync_error (operation : string) (x : effect) : bool :=
  match x with
  | ProcessingError error_type operation' =>
      (error_type =? "sync_error")%string && (operation' =? operation)%string
  | _ => false
  end.

(** How often the error counter was raised for [operation]. *)
Definition sync_errors (operation : string) (eff : list effect) : nat :=
  List.length (filter (is_sync_error operation) eff).

(** The value has the [includes] method: it is a string or an array. *)
Definition has_includes (v : value) : bool :=
  match v with
  | Str _ | Arr _ => true
  | _ => false
  end.

(** The CRM gives no object and no 404: no response, or a status that is
    neither a 2xx nor 404. *)
Definition crm_fails (crm : http_reply) : bool :=
  match crm with
  | Reply st _ => negb (ok_status st) && negb (st =? 404)
  | NoReply => true
  end.

(** What a fetch returns when the CRM does not fail: the body of a 2xx
    answer, [null] for a 404. *)
Definition fetched (crm : http_reply) : value :=
  match crm with
  | Reply st d => if ok_status st then d else Null
  | NoReply => Null
  end.

Definition sink_accepts (sink : http_reply) : bool :=
  match sink with
  | Reply st _ => ok_status st
  | NoReply => false
  end.

(** The names of the members of a record that the sink reads as metrics. *)
Definition metrics (record : value) : list string :=
  match record with
  | Obj members => filter (prefix "$") (map fst members)
  | _ => []
  end.

End Trace.

(** *** The field mapping: [convertToDataboxFormat] *)

Module Mapping.

(** [undefined] or [null]: reading a member of such a value throws. *)
Definition nullish (v : value) : bool :=
  match v with
  | Undefined | Null => true
  | _ => false
  end.

(** [v.k] where [v] may be [undefined] or [null]. *)
Definition member (v : value) (k : string) : result value :=
  if nullish v then Throw TypeError else Ok (get v k).

Section Numbers.

(** The global [isNaN], the value of [new Date().getFullYear() - parseInt(x)]
    and the string [`${a} ${b}`.trim()] are functions of the language on
    numbers and text; [clock] is [new Date().toISOString()]. *)
Variable isNaN : value -> bool.
Variable years_since : value -> value.
Variable full_name : value -> value -> string.
Variable clock : string.

Definition convertToDataboxFormat (objectType objectData : value) : result value :=
  bind (member objectData "updatedAt") (fun updatedAt =>
    let data := [("date", or_else updatedAt (Str clock));
                 ("objectId", get objectData "id");
                 ("objectType", objectType)] in
    let props := get objectData "properties" in
    if strict_eq objectType (Str "companies") then
      bind (member props "founded_year") (fun founded_year =>
        let aged :=
          if truthy founded_year && negb (isNaN founded_year)
          then (data ++ [("$company_age", years_since founded_year)])%list
          else data in
        Ok (Obj (aged ++ [("$companies_updated", Num 1);
                          ("company_name", get props "name");
                          ("industry", get props "industry")])%list))
    else if strict_eq objectType (Str "contacts") then
      bind (member props "firstname") (fun firstname =>
        Ok (Obj (data ++ [("$contacts_updated", Num 1);
                          ("contact_name",
                           Str (full_name (or_else firstname (Str ""))
                                          (or_else (get props "lastname") (Str ""))))])%list))
    else Ok (Obj data)).

End Numbers.

End Mapping.

(** *** Batch jobs: [processBatchSync] *)

Module Batch.

Import Sync.

(** The effects of a batch job: those of [Sync], and the POST of a batch,
    whose payload is [{data, source: HubSpot-Webhook-<type>-Batch}]. *)
Inductive effect : Type :=
| Single (x : Sync.effect)
| DataboxBatchPost (objectType : value) (data : list value).

Section Worker.

Variable convertToDataboxFormat : value -> value -> result value.

(** [Promise.all(objectIds.map(id => fetchObjectFromHubSpot(objectType, id)))]:
    every request is made, [crm i] answering the one for the [i]-th id; the
    result is the list of objects, or an exception if a fetch threw (the
    fetches run side by side: the trace lists their effects by id, and of
    several exceptions the one of the smallest index is shown). *)
Fixpoint fetch_all (objectType : value) (ids : list value)
    (crm : nat -> http_reply) (i : nat) : M (list value) :=
  match ids with
  | [] => ret []
  | id_ :: ids' =>
      let (r, eff) := fetchObjectFromHubSpot objectType id_ (crm i) in
      let (rs, eff') := fetch_all objectType ids' crm (S i) in
      (match r, rs with
       | Ok o, Ok os => Ok (o :: os)
       | Throw e, _ => Throw e
       | Ok _, Throw e => Throw e
       end, (eff ++ eff')%list)
  end.

(** [objects.map(obj => this.convertToDataboxFormat(objectType, obj))] *)
Fixpoint convert_all (objectType : value) (objects : list value) : result (list value) :=
  match objects with
  | [] => Ok []
  | o :: objects' =>
      bind (convertToDataboxFormat objectType o) (fun d =>
        bind (convert_all objectType objects') (fun ds => Ok (d :: ds)))
  end.

Definition sendBatchToDatabox (objectType : value) (objects : list value)
    (sink : http_reply) : result unit * list effect :=
  match objects with
  | [] => (Ok tt, [])
  | _ =>
      match convert_all objectType objects with
      | Throw e => (Throw e, [])
      | Ok databoxData =>
          match sink with
          | Reply st _ =>
              if ok_status st then (Ok tt, [DataboxBatchPost objectType databoxData])
              else (Throw (HttpError (Some st)),
                    [DataboxBatchPost objectType databoxData;
                     Single (LogError "Failed to send data to Databox")])
          | NoReply =>
              (Throw (HttpError None),
               [DataboxBatchPost objectType databoxData;
                Single (LogError "Failed to send data to Databox")])
          end
      end
  end.

(** The [catch] of [processBatchSync]. *)
Definition batch_failed (e : error) (eff : list effect) : result unit * list effect :=
  (Throw e,
   (eff ++ [Single (LogError "Failed to process batch sync");
            Single (ProcessingError "sync_error" "process_batch")])%list).

(** [objectType] and [objectIds] are the members of [job.data]; only an
    array has both the [length] and the [map] the function uses. *)
Definition processBatchSync (objectType objectIds : value)
    (crm : nat -> http_reply) (sink : http_reply) : result unit * list effect :=
  match objectIds with
  | Arr ids =>
      match fetch_all objectType ids crm 0 with
      | (Throw e, eff) => batch_failed e (map Single eff)
      | (Ok objects, eff) =>
          match sendBatchToDatabox objectType (filter truthy objects) sink with
          | (Ok _, eff') => (Ok tt, (map Single eff ++ eff')%list)
          | (Throw e, eff') => batch_failed e (map Single eff ++ eff')%list
          end
      end
  | _ => batch_failed TypeError []
  end.

End Worker.

(** The CRM requests and the sink POSTs of a batch trace. *)
Definition gets (eff : list effect) : nat :=
  List.length (filter (fun x => match x with
                                | Single (HubSpotGet _ _) => true
                                | _ => false
                                end) eff).

Definition posts (eff : list effect) : list (list value) :=
  flat_map (fun x => match x with
                     | DataboxBatchPost _ data => [data]
                     | _ => []
                     end) eff.

Definition batch_errors (eff : list effect) : nat :=
  List.length (filter (fun x => match x with
                                | Single y => Trace.is_sync_error "process_batch" y
                                | _ => false
                                end) eff).

(** Among the first [n] requests, one at least fails. *)
Definition some_fetch_fails (crm : nat -> http_reply) (n : nat) : bool :=
  existsb (fun i => Trace.crm_fails (crm i)) (seq 0 n).

(** The objects the first [n] requests return that are not empty, in the
    order of the ids. *)
Definition found (crm : nat -> http_reply) (n : nat) : list value :=
  filter truthy (map (fun i => Trace.fetched (crm i)) (seq 0 n)).

End Batch.

(** ** The CRM simulator: [hubspot-simulator/server.js] *)

Module Simulator.

Definition upper_ascii (c : ascii) : ascii :=
  let n := nat_of_ascii c in
  if ((97 <=? n) && (n <=? 122))%nat then ascii_of_nat (n - 32) else c.

(** [String.prototype.toUpperCase] on ASCII text. *)
Fixpoint upper (s : string) : string :=
  match s with
  | EmptyString => EmptyString
  | String c s' => String (upper_ascii c) (upper s')
  end.

(** The body [sendWebhookNotification] posts to [WEBHOOK_URL], or nothing
    when that variable is unset or empty.  Its callers pass string literals
    for [eventType] and [objectType]; a failing POST is logged and
    forgotten. *)
Definition sendWebhookNotification (WEBHOOK_URL uuid : string) (clock : Z)
    (eventType objectType : string) (objectId properties : value) : option value :=
  if (WEBHOOK_URL =? "")%string then None
  else Some (Obj [("eventId", Str uuid);
                  ("subscriptionId", Str "mock-subscription");
                  ("portalId", Num 12345);
                  ("appId", Num 67890);
                  ("occurredAt", Num clock);
                  ("eventType", Str eventType);
                  ("objectId", objectId);
                  ("propertyName", Null);
                  ("propertyValue", Null);
                  ("changeSource", Str "CRM");
                  ("objectType", Str (upper objectType));
                  ("properties", properties)]).

Definition DAILY_LIMIT : Z := 250000.

Definition rate_limited : value :=
  Obj [("status", Str "error");
       ("message", Str "Daily rate limit exceeded: 250,000 requests per day");
       ("category", Str "RATE_LIMITS")].

(** [dailyRateLimit]: the request is counted, then let through ([None]) or
    answered 429. *)
Definition dailyRateLimit (dailyRequestCount : Z) : Z * option Sync.http_reply :=
  let n := dailyRequestCount + 1 in
  if DAILY_LIMIT <? n then (n, Some (Sync.Reply 429 rate_limited)) else (n, None).

(** The timer that fires every 24 hours: [dailyRequestCount = 0]. *)
Definition reset_daily (dailyRequestCount : Z) : Z := 0.

(** [n] requests in a row with no reset between them, from a given count. *)
Fixpoint after_requests (n : nat) (dailyRequestCount : Z) : Z :=
  match n with
  | O => dailyRequestCount
  | S n' => after_requests n' (fst (dailyRateLimit dailyRequestCount))
  end.

End Simulator.

(** ** The consumer's own subscription: [subscribeToWebhooks] *)

Module Subscribe.

(** The body posted to the broker's [/subscriptions]; [webhookSecret] is
    [config.webhookSecret]. *)
Definition subscriptionPayload (webhookSecret : string) : value :=
  Obj [("url", Str "http://webhook-sync:3000/webhook");
       ("events", Arr [Str "company.propertyChange"; Str "company.creation";
                       Str "contact.*"; Str "deal.*"]);
       ("secret", Str webhookSecret)].

(** The body of the delivery [notifySubscriber] posts. *)
Definition delivery (subscriptionId : string) (event : value) (timestamp : Z) : value :=
  Obj [("subscriptionId", Str subscriptionId); ("event", event);
       ("timestamp", Num timestamp)].

End Subscribe.

(** ** From the simulator to the sink *)

Module Pipeline.

Import Sync.

(** A record with the three members every record has, and no metric. *)
Definition bare (objectType : value) (clock : string) (objectData : value) : value :=
  Obj [("date", or_else (get objectData "updatedAt") (Str clock));
       ("objectId", get objectData "id");
       ("objectType", objectType)].

(** A request of a job is about the object [objectType]/[objectId], and what
    it posts is one [bare] record. *)
Definition concerns (objectType objectId : value) (clock : string) (x : effect) : Prop :=
  match x with
  | HubSpotGet t i => t = objectType /\ i = objectId
  | DataboxPost t data =>
      t = objectType /\ exists objectData, data = [bare objectType clock objectData]
  | _ => True
  end.

End Pipeline.

(** * Properties of the broker *)

Module BrokerProperties.

Import Broker.

(** ** Matching *)

Lemma some_on_strings (event : value) (et ot : string) (patterns : list string) :
  get event "eventType" = Str et ->
  get event "objectType" = Str ot ->
  some (subscribed event) (map Str patterns) = Ok (existsb (accepts et ot) patterns).
Proof.
  intros Het Hot.
  induction patterns as [|p ps IH]; [reflexivity|].
  cbn [map some existsb].
  unfold subscribed at 1. rewrite Het, Hot. cbn [strict_eq toLowerCase bind startsWith].
  unfold accepts at 1.
  destruct (p =? "*")%string; [reflexivity|].
  destruct (p =? et)%string; [reflexivity|].
  cbn [orb].
  destruct (prefix (lower ot) p); [reflexivity|].
  exact IH.
Qed.

Lemma accepts_true_iff (et ot p : string) :
  accepts et ot p = true <-> p = "*" \/ p = et \/ prefix (lower ot) p = true.
Proof.
  unfold accepts.
  rewrite !orb_true_iff, !String.eqb_eq. tauto.
Qed.

(** C1, as the code has it: on a subscription whose patterns are strings
    and an event whose type and object type are strings, the object type
    ASCII text, [matches] returns true exactly when the subscription is
    active and some pattern is [*], is the event type, or starts with the
    lower-cased object type.  So the pattern [company.propertyChange] matches
    every event whose object type is [company] in any letter case, whatever
    its event type; and the bare pattern [company] matches exactly the events
    whose event type is [company] or whose lower-cased object type is a
    prefix of [company]. *)
Theorem matches_iff_pattern_starts_with_object_type
    (s : subscription) (event : value) (patterns : list string) (et ot : string) :
  events s = Arr (map Str patterns) ->
  get event "eventType" = Str et ->
  get event "objectType" = Str ot ->
  ascii_text ot = true ->
  (exists b, matches s event = Ok b
             /\ (b = true <->
                 active s = true
                 /\ exists p, In p patterns
                              /\ (p = "*" \/ p = et \/ prefix (lower ot) p = true)))
  /\ (active s = true -> lower ot = "company" ->
      In "company.propertyChange" patterns ->
      matches s event = Ok true)
  /\ (patterns = ["company"] ->
      (matches s event = Ok true
       <-> active s = true /\ (et = "company" \/ prefix (lower ot) "company" = true))).
Proof.
  intros Hev Het Hot _.
  assert (Hm : matches s event
               = Ok (active s && existsb (accepts et ot) patterns)).
  { unfold matches, eventMatch. rewrite Hev. cbn [array_some].
    rewrite (some_on_strings event et ot patterns Het Hot).
    now destruct (active s). }
  rewrite Hm. split; [|split].
  - eexists; split; [reflexivity|].
    rewrite andb_true_iff, existsb_exists. split.
    + intros [Hact [p [Hin Hp]]]. split; [exact Hact|].
      exists p. split; [exact Hin|]. apply accepts_true_iff, Hp.
    + intros [Hact [p [Hin Hp]]]. split; [exact Hact|].
      exists p. split; [exact Hin|]. apply accepts_true_iff, Hp.
  - intros Hact Hlow Hin. rewrite Hact. cbn [andb]. f_equal.
    apply existsb_exists. exists "company.propertyChange". split; [exact Hin|].
    apply accepts_true_iff. right. right. now rewrite Hlow.
  - intros ->. cbn [existsb]. rewrite orb_false_r. split.
    + intros [= H]. apply andb_true_iff in H as [Hact Hp]. split; [exact Hact|].
      apply accepts_true_iff in Hp as [Hp|[Hp|Hp]]; [discriminate|now left|now right].
    + intros [Hact Hp]. rewrite Hact. cbn [andb]. f_equal.
      apply accepts_true_iff. destruct Hp as [Hp|Hp]; [right; left; now rewrite Hp|now right; right].
Qed.

Lemma matches_iff_pattern_starts_with_object_type_witness :
  matches (Sample.subscription_for "s1" ["company"] 0) Sample.company_change = Ok true
  <-> active (Sample.subscription_for "s1" ["company"] 0) = true
      /\ ("company.propertyChange" = "company" \/ prefix (lower "company") "company" = true).
Proof.
  exact (proj2 (proj2 (matches_iff_pattern_starts_with_object_type
                         (Sample.subscription_for "s1" ["company"] 0) Sample.company_change
                         ["company"] "company.propertyChange" "company"
                         eq_refl eq_refl eq_refl eq_refl)) eq_refl).
Defined.

(** The two cases of the specification's example: the pattern [company]
    matches the event, the pattern [contact] does not. *)
Example company_pattern_matches :
  matches (Sample.subscription_for "s1" ["company"] 0) Sample.company_change = Ok true.
Proof. reflexivity. Qed.

Example contact_pattern_does_not_match :
  matches (Sample.subscription_for "s1" ["contact"] 0) Sample.company_change = Ok false.
Proof. reflexivity. Qed.

(** C1, as stated, fails: the pattern [company.propertyChange] is matched by
    a [company.creation] event, because the pattern starts with the object
    type [company]; under the wording of the specification, where the
    pattern would have to be a prefix of the object type, it is not. *)
Lemma exact_pattern_matches_sibling_event :
  matches (Sample.subscription_for "s1" ["company.propertyChange"] 0)
          Sample.company_creation = Ok true
  /\ Stated.matches true ["company.propertyChange"] "company.creation" "company" = false.
Proof. split; reflexivity. Qed.

(** The other direction: a bare [company] pattern does not match an event
    whose object type merely starts with [company]. *)
Example bare_pattern_misses_longer_object_type :
  matches (Sample.subscription_for "s1" ["company"] 0)
          (Sample.event_of "e3" "company_group.creation" "company_group" "7") = Ok false
  /\ Stated.matches true ["company"] "company_group.creation" "company_group" = true.
Proof. split; reflexivity. Qed.

(** The bare pattern [company] also matches the event whose type is
    [company], whatever its object type. *)
Example bare_pattern_is_also_an_event_type :
  matches (Sample.subscription_for "s1" ["company"] 0)
          (Sample.event_of "e4" "company" "deal" "7") = Ok true.
Proof. reflexivity. Qed.

(** ** The registry as a Map *)

Lemma map_get_set_same (k : string) (s : subscription) (m : registry) :
  map_get k (map_set k s m) = Some s.
Proof.
  induction m as [|[k' s'] m IH]; cbn.
  - now rewrite String.eqb_refl.
  - destruct (k =? k')%string eqn:E; cbn; rewrite ?String.eqb_refl, ?E; auto.
Qed.

Lemma map_get_set_other (k k' : string) (s : subscription) (m : registry) :
  k <> k' -> map_get k (map_set k' s m) = map_get k m.
Proof.
  intros Hne. induction m as [|[k2 s2] m IH]; cbn.
  - apply String.eqb_neq in Hne. now rewrite Hne.
  - destruct (k' =? k2)%string eqn:E; cbn.
    + apply String.eqb_eq in E. subst k2.
      apply String.eqb_neq in Hne. now rewrite Hne.
    + now rewrite IH.
Qed.

Lemma map_get_delete_other (k k' : string) (m : registry) :
  k <> k' -> map_get k (map_delete k' m) = map_get k m.
Proof.
  intros Hne. induction m as [|[k2 s2] m IH]; cbn; [reflexivity|].
  destruct (k' =? k2)%string eqn:E; cbn.
  - apply String.eqb_eq in E. subst k2.
    apply String.eqb_neq in Hne. now rewrite Hne.
  - now rewrite IH.
Qed.

Lemma map_get_In (k : string) (s : subscription) (m : registry) :
  map_get k m = Some s -> In (k, s) m.
Proof.
  induction m as [|[k' s'] m IH]; cbn; [discriminate|].
  destruct (k =? k')%string eqn:E.
  - apply String.eqb_eq in E. intros [= ->]. subst. now left.
  - intros H. right. now apply IH.
Qed.

Lemma In_map_get (k : string) (s : subscription) (m : registry) :
  NoDup (map fst m) -> In (k, s) m -> map_get k m = Some s.
Proof.
  induction m as [|[k' s'] m IH]; cbn; [contradiction|].
  intros Hnd [Heq|Hin].
  - injection Heq as -> ->. now rewrite String.eqb_refl.
  - inversion Hnd as [|? ? Hnotin Hnd']; subst.
    destruct (k =? k')%string eqn:E.
    + apply String.eqb_eq in E. subst k'.
      exfalso. apply Hnotin. change k with (fst (k, s)). now apply in_map.
    + now apply IH.
Qed.

Lemma keys_map_set_incl (k : string) (s : subscription) (m : registry) (x : string) :
  In x (map fst (map_set k s m)) -> x = k \/ In x (map fst m).
Proof.
  induction m as [|[k' s'] m IH]; cbn.
  - intros [H|[]]. now left.
  - destruct (k =? k')%string eqn:E; cbn.
    + apply String.eqb_eq in E. subst k'. intros [H|H]; auto.
    + intros [H|H]; auto. destruct (IH H); auto.
Qed.

Lemma NoDup_map_set (k : string) (s : subscription) (m : registry) :
  NoDup (map fst m) -> NoDup (map fst (map_set k s m)).
Proof.
  induction m as [|[k' s'] m IH]; cbn; intros Hnd.
  - constructor; [intros []|constructor].
  - inversion Hnd as [|? ? Hnotin Hnd']; subst.
    destruct (k =? k')%string eqn:E; cbn.
    + apply String.eqb_eq in E. subst k'. now constructor.
    + constructor; [|now apply IH].
      intros Hin. apply keys_map_set_incl in Hin as [->|Hin]; [|contradiction].
      now rewrite String.eqb_refl in E.
Qed.

Lemma keys_map_delete_incl (k : string) (m : registry) (x : string) :
  In x (map fst (map_delete k m)) -> In x (map fst m).
Proof.
  induction m as [|[k' s'] m IH]; cbn; [tauto|].
  destruct (k =? k')%string; cbn; intuition.
Qed.

Lemma NoDup_map_delete (k : string) (m : registry) :
  NoDup (map fst m) -> NoDup (map fst (map_delete k m)).
Proof.
  induction m as [|[k' s'] m IH]; cbn; intros Hnd; [constructor|].
  inversion Hnd as [|? ? Hnotin Hnd']; subst.
  destruct (k =? k')%string; cbn; [assumption|].
  constructor; [|now apply IH].
  intros Hin. apply Hnotin. now apply keys_map_delete_incl in Hin.
Qed.

Lemma In_map_set (k : string) (s : subscription) (m : registry) (e : string * subscription) :
  In e (map_set k s m) -> e = (k, s) \/ In e m.
Proof.
  induction m as [|[k' s'] m IH]; cbn.
  - intros [H|[]]. now left.
  - destruct (k =? k')%string; cbn.
    + intros [H|H]; auto.
    + intros [H|H]; auto. destruct (IH H); auto.
Qed.

Lemma In_map_delete (k : string) (m : registry) (e : string * subscription) :
  In e (map_delete k m) -> In e m.
Proof.
  induction m as [|[k' s'] m IH]; cbn; [tauto|].
  destruct (k =? k')%string; cbn; intuition.
Qed.

Lemma map_get_None (k : string) (m : registry) :
  ~ In k (map fst m) -> map_get k m = None.
Proof.
  induction m as [|[k' s'] m IH]; cbn; [reflexivity|].
  intros Hnotin. destruct (k =? k')%string eqn:E.
  - apply String.eqb_eq in E. subst k'. exfalso. apply Hnotin. now left.
  - apply IH. intros Hin. apply Hnotin. now right.
Qed.

(** ** Registration *)

(** C4, as the code has it: the request is refused with 400 when [url] is
    missing or falsy or [events] is not an array; otherwise, also when
    [events] is an empty array, the new subscription is in the registry
    under the drawn identifier and, unless the Redis write is rejected,
    the answer is 201 with that identifier. *)
Theorem registration_requires_url_and_array (io_ : io) (body : value) (st : state) :
  (truthy (get body "url") = false \/ isArray (get body "events") = false ->
     post_subscriptions io_ body st
     = (Sent 400 (Obj [("error", Str "Missing required fields: url, events (array)")]), st))
  /\ (truthy (get body "url") = true -> isArray (get body "events") = true ->
        map_get (randomUUID io_) (subscribers (snd (post_subscriptions io_ body st)))
        = Some (new_subscription io_ body)
        /\ (redisClient st = None \/ redis_up io_ = true ->
              fst (post_subscriptions io_ body st)
              = Sent 201 (Obj [("subscriptionId", Str (randomUUID io_));
                               ("message", Str "Webhook subscription created successfully")]))).
Proof.
  unfold post_subscriptions. split.
  - intros [H|H]; rewrite H; cbn [negb orb]; [reflexivity|].
    now rewrite !orb_true_r.
  - intros Hurl Harr. rewrite Hurl. cbn [negb orb].
    destruct (get body "events") eqn:Hev; try discriminate Harr.
    cbn [truthy isArray negb orb].
    destruct (redisClient st) as [r|] eqn:Hr.
    + destruct (redis_up io_) eqn:Hup; cbn [fst snd subscribers];
        (split; [apply map_get_set_same|]).
      * reflexivity.
      * intros [H|H]; discriminate.
    + cbn [fst snd subscribers]. split; [apply map_get_set_same|reflexivity].
Qed.

Lemma registration_requires_url_and_array_witness :
  map_get "u1"
    (subscribers
       (snd (post_subscriptions (Sample.all_up "u1")
               (Obj [("url", Str "http://subscriber/hook"); ("events", Arr [Str "*"])])
               (Sample.with_redis []))))
  = Some (new_subscription (Sample.all_up "u1")
            (Obj [("url", Str "http://subscriber/hook"); ("events", Arr [Str "*"])]))
  /\ fst (post_subscriptions (Sample.all_up "u1")
            (Obj [("url", Str "http://subscriber/hook"); ("events", Arr [Str "*"])])
            (Sample.with_redis []))
     = Sent 201 (Obj [("subscriptionId", Str "u1");
                      ("message", Str "Webhook subscription created successfully")]).
Proof.
  destruct (proj2 (registration_requires_url_and_array (Sample.all_up "u1")
                     (Obj [("url", Str "http://subscriber/hook"); ("events", Arr [Str "*"])])
                     (Sample.with_redis [])) eq_refl eq_refl) as [Hstored Hanswer].
  split; [exact Hstored|exact (Hanswer (or_intror eq_refl))].
Defined.

(** C4, as stated, fails: a request whose [events] is the empty array is
    answered 201, not 400. *)
Lemma empty_pattern_list_is_accepted :
  get (Obj [("url", Str "http://subscriber/hook"); ("events", Arr [])]) "events" = Arr []
  /\ fst (post_subscriptions (Sample.all_up "u1")
            (Obj [("url", Str "http://subscriber/hook"); ("events", Arr [])])
            (Sample.with_redis []))
     = Sent 201 (Obj [("subscriptionId", Str "u1");
                      ("message", Str "Webhook subscription created successfully")]).
Proof. split; reflexivity. Qed.

Example missing_url_is_refused :
  fst (post_subscriptions (Sample.all_up "u1") (Obj [("events", Arr [Str "*"])])
         (Sample.with_redis []))
  = Sent 400 (Obj [("error", Str "Missing required fields: url, events (array)")]).
Proof. reflexivity. Qed.

Example patterns_not_a_list_are_refused :
  fst (post_subscriptions (Sample.all_up "u1")
         (Obj [("url", Str "http://subscriber/hook"); ("events", Str "company")])
         (Sample.with_redis []))
  = Sent 400 (Obj [("error", Str "Missing required fields: url, events (array)")]).
Proof. reflexivity. Qed.

(** ** One delivery attempt *)

Lemma resolves_false_iff (r : post_outcome) :
  resolves r = false <-> r = NoResponse \/ exists status, r = Responded status /\ 500 <= status.
Proof.
  destruct r as [status|]; cbn.
  - rewrite Z.ltb_ge. split.
    + intros H. right. now exists status.
    + intros [H|[x [[= ->] H]]]; [discriminate|assumption].
  - split; [now left|reflexivity].
Qed.

Lemma resolves_true_iff (r : post_outcome) :
  resolves r = true <-> exists status, r = Responded status /\ status < 500.
Proof.
  destruct r as [status|]; cbn.
  - rewrite Z.ltb_lt. split.
    + intros H. now exists status.
    + now intros [x [[= ->] H]].
  - split; [discriminate|]. intros [x [H _]]; discriminate.
Qed.

Lemma settle_keys (io_ : io) (event : value) (notifications : registry) :
  map fst (settle io_ event notifications) = map fst notifications.
Proof.
  unfold settle. rewrite map_map. reflexivity.
Qed.

Lemma signing_key_cases (s : subscription) :
  (exists key, signing_key s = Ok key) \/ signing_key s = Throw TypeError.
Proof.
  unfold signing_key. destruct (or_else (secret s) (Str "default")); eauto.
Qed.

(** C6, as the code has it: an attempt is a failure exactly when the
    signature cannot be made (the secret is truthy and not a string, and no
    request is sent), or the POST gets no response or a response of status
    500 or above; it then adds one to [errorCount] and leaves the success
    counter and timestamp alone.  With a secret that is absent or a string,
    every response below 500 fulfils the attempt, adds one to
    [successCount] and sets [lastNotified].  A publication settles each
    started attempt once. *)
Theorem delivery_fails_on_no_response_5xx_or_unsignable_secret
    (s : subscription) (event : value) (r : post_outcome) (clock : string) :
  (signing_key s = Throw TypeError
   <-> truthy (secret s) = true /\ forall key, secret s <> Str key)
  /\ (fst (notifySubscriber s event r clock) = Failed
      <-> signing_key s = Throw TypeError
          \/ r = NoResponse
          \/ exists status, r = Responded status /\ 500 <= status)
  /\ (fst (notifySubscriber s event r clock) = Fulfilled
      <-> (exists key, signing_key s = Ok key)
          /\ exists status, r = Responded status /\ status < 500)
  /\ (fst (notifySubscriber s event r clock) = Failed ->
        errorCount (snd (notifySubscriber s event r clock)) = errorCount s + 1
        /\ successCount (snd (notifySubscriber s event r clock)) = successCount s
        /\ lastNotified (snd (notifySubscriber s event r clock)) = lastNotified s)
  /\ (fst (notifySubscriber s event r clock) = Fulfilled ->
        successCount (snd (notifySubscriber s event r clock)) = successCount s + 1
        /\ lastNotified (snd (notifySubscriber s event r clock)) = Some clock
        /\ errorCount (snd (notifySubscriber s event r clock)) = errorCount s
        /\ active (snd (notifySubscriber s event r clock)) = active s)
  /\ (forall (io_ : io) (notifications : registry),
        map fst (settle io_ event notifications) = map fst notifications).
Proof.
  split.
  { unfold signing_key, or_else.
    destruct (secret s) as [| |b|z|key|items|members]; cbn [truthy];
      try destruct b; try destruct (z =? 0); try destruct (key =? "")%string;
      cbn [negb]; split; intros H;
      try discriminate H;
      try (split; [reflexivity|discriminate]);
      try reflexivity;
      destruct H as [H1 H2]; try discriminate H1;
      exfalso; eapply H2; reflexivity. }
  unfold notifySubscriber, delivered.
  destruct (signing_key_cases s) as [[key Hkey]|Hkey]; rewrite Hkey.
  - destruct (resolves r) eqn:Hr; cbn [fst snd errorCount successCount lastNotified active].
    + split; [|split; [|split; [|split]]].
      * split; [discriminate|]. intros [H|H]; [discriminate|].
        apply resolves_false_iff in H. congruence.
      * split; [intros _; split; [now exists key|now apply resolves_true_iff]|reflexivity].
      * discriminate.
      * intros _. repeat split.
      * intros. apply settle_keys.
    + split; [|split; [|split; [|split]]].
      * split; [intros _; right; now apply resolves_false_iff|reflexivity].
      * split; [discriminate|]. intros [_ H]. apply resolves_true_iff in H. congruence.
      * intros _. repeat split.
      * discriminate.
      * intros. apply settle_keys.
  - cbn [fst snd errorCount successCount lastNotified active].
    split; [|split; [|split; [|split]]].
    + split; [intros _; now left|reflexivity].
    + split; [discriminate|]. intros [[key H] _]. discriminate H.
    + intros _. repeat split.
    + discriminate.
    + intros. apply settle_keys.
Qed.

Lemma delivery_fails_on_no_response_5xx_or_unsignable_secret_witness :
  fst (notifySubscriber (Sample.subscription_for "s1" ["*"] 0) Sample.company_change
         (Responded 404) "t1") = Fulfilled
  <-> (exists key, signing_key (Sample.subscription_for "s1" ["*"] 0) = Ok key)
      /\ exists status, Responded 404 = Responded status /\ status < 500.
Proof.
  exact (proj1 (proj2 (proj2 (delivery_fails_on_no_response_5xx_or_unsignable_secret
                                (Sample.subscription_for "s1" ["*"] 0)
                                Sample.company_change (Responded 404) "t1")))).
Defined.

(** C6, as stated, fails: the registration below is accepted with the secret
    [123]; the endpoint of the subscription would answer 200, a status
    below 500, but the attempt is a failure and is counted as one, because
    the signature cannot be made. *)
Lemma numeric_secret_fails_a_delivery_answered_200 :
  fst (post_subscriptions (Sample.all_up "s9")
         (Obj [("url", Str "http://subscriber/hook"); ("events", Arr [Str "*"]);
               ("secret", Num 123)])
         (Sample.no_redis []))
  = Sent 201 (Obj [("subscriptionId", Str "s9");
                   ("message", Str "Webhook subscription created successfully")])
  /\ notifySubscriber
       (new_subscription (Sample.all_up "s9")
          (Obj [("url", Str "http://subscriber/hook"); ("events", Arr [Str "*"]);
                ("secret", Num 123)]))
       Sample.company_change (Responded 200) "t1"
     = (Failed,
        {| id := "s9"; url := Str "http://subscriber/hook"; events := Arr [Str "*"];
           secret := Num 123; active := true; createdAt := "1735689600000";
           lastNotified := None; successCount := 0; errorCount := 1 |}).
Proof. split; reflexivity. Qed.

Example a_404_answer_counts_as_delivered :
  notifySubscriber (Sample.subscription_for "s1" ["*"] 0) Sample.company_change
                   (Responded 404) "t1"
  = (Fulfilled,
     {| id := "s1"; url := Str "http://subscriber/hook"; events := Arr [Str "*"];
        secret := Undefined; active := true; createdAt := "2025-01-01T00:00:00Z";
        lastNotified := Some "t1"; successCount := 1; errorCount := 0 |}).
Proof. reflexivity. Qed.

Example a_503_answer_counts_as_failed :
  notifySubscriber (Sample.subscription_for "s1" ["*"] 0) Sample.company_change
                   (Responded 503) "t1"
  = (Failed,
     {| id := "s1"; url := Str "http://subscriber/hook"; events := Arr [Str "*"];
        secret := Undefined; active := true; createdAt := "2025-01-01T00:00:00Z";
        lastNotified := None; successCount := 0; errorCount := 1 |}).
Proof. reflexivity. Qed.

(** ** The fan-out of a publication *)

Lemma select_filter (event : value) (m : registry) :
  snd (select event m) = None -> fst (select event m) = filter (selected event) m.
Proof.
  induction m as [|[k s] m IH]; cbn [select filter]; [reflexivity|].
  unfold selected at 1. cbn [snd fst].
  destruct (active s); cbn [negb andb]; [|exact IH].
  destruct (eventMatch s event) as [[|]|e]; cbn [snd fst].
  - destruct (select event m) as [ns e] eqn:Hsel. cbn [snd fst] in *.
    intros He. now rewrite (IH He).
  - exact IH.
  - discriminate.
Qed.

(** On patterns and an object type that are strings, no comparison throws
    and the loop runs to its end. *)
Lemma select_on_strings (event : value) (et ot : string) (m : registry) :
  get event "eventType" = Str et ->
  get event "objectType" = Str ot ->
  string_patterns m ->
  snd (select event m) = None.
Proof.
  intros Het Hot Hm. induction Hm as [|[k s] m [patterns Hp] Hm IH]; [reflexivity|].
  cbn [select snd] in *. destruct (active s); cbn [negb]; [|exact IH].
  unfold eventMatch. rewrite Hp. cbn [array_some].
  rewrite (some_on_strings event et ot patterns Het Hot).
  destruct (existsb (accepts et ot) patterns); [|exact IH].
  destruct (select event m) as [ns thrown]. exact IH.
Qed.

Lemma select_In (event : value) (m : registry) (e : string * subscription) :
  In e (fst (select event m)) -> In e m /\ active (snd e) = true.
Proof.
  induction m as [|[k s] m IH]; cbn [select]; [intros []|].
  destruct (active s) eqn:Hact; cbn [negb].
  - destruct (eventMatch s event) as [[|]|err].
    + destruct (select event m) as [ns err] eqn:Hsel. cbn [fst] in *.
      intros [<-|Hin].
      * split; [now left|exact Hact].
      * destruct (IH Hin). split; [now right|assumption].
    + intros Hin. destruct (IH Hin). split; [now right|assumption].
    + intros [].
  - intros Hin. destruct (IH Hin). split; [now right|assumption].
Qed.

Lemma select_keys_NoDup (event : value) (m : registry) :
  NoDup (map fst m) -> NoDup (map fst (fst (select event m))).
Proof.
  induction m as [|[k s] m IH]; cbn [select map]; intros Hnd; [constructor|].
  inversion Hnd as [|? ? Hnotin Hnd']; subst.
  destruct (active s); cbn [negb]; [|now apply IH].
  destruct (eventMatch s event) as [[|]|err]; [|now apply IH|constructor].
  pose proof (select_In event m) as Hin.
  destruct (select event m) as [ns err]. cbn [fst map] in *.
  constructor; [|now apply IH].
  intros Hk. apply in_map_iff in Hk as [[k' s'] [Hfst Hk]]. cbn in Hfst. subst k'.
  apply Hnotin. destruct (Hin _ Hk) as [Hm _].
  change k with (fst (k, s')). now apply in_map.
Qed.

Lemma settled_get_settle (io_ : io) (event : value) (k : string) (ns : registry) :
  settled_get k (settle io_ event ns)
  = option_map (fun s => snd (notifySubscriber s event (post io_ k) (now io_)))
               (map_get k ns).
Proof.
  induction ns as [|[k' s'] ns IH]; cbn; [reflexivity|].
  destruct (notifySubscriber s' event (post io_ k') (now io_)) as [out s2] eqn:Hn.
  destruct (k =? k')%string eqn:E.
  - apply String.eqb_eq in E. subst k'. cbn. now rewrite Hn.
  - exact IH.
Qed.

Lemma map_get_write_back (done : list (string * (settled * subscription)))
    (k : string) (m : registry) :
  map_get k (write_back done m)
  = option_map (fun s => match settled_get k done with
                         | Some s' => s'
                         | None => s
                         end) (map_get k m).
Proof.
  induction m as [|[k' s'] m IH]; cbn; [reflexivity|].
  destruct (settled_get k' done) as [s2|] eqn:Hd; cbn;
    destruct (k =? k')%string eqn:E; try exact IH.
  - apply String.eqb_eq in E. subst k'. now rewrite Hd.
  - apply String.eqb_eq in E. subst k'. now rewrite Hd.
Qed.

Lemma keys_write_back (done : list (string * (settled * subscription))) (m : registry) :
  map fst (write_back done m) = map fst m.
Proof.
  unfold write_back. rewrite map_map. apply map_ext.
  intros [k s]. cbn. now destruct (settled_get k done).
Qed.

Lemma map_get_select (event : value) (m : registry) (k : string) (s : subscription) :
  NoDup (map fst m) ->
  map_get k m = Some s ->
  map_get k (fst (select event m))
  = if in_dec string_dec k (map fst (fst (select event m))) then Some s else None.
Proof.
  intros Hnd Hget.
  destruct (in_dec string_dec k (map fst (fst (select event m)))) as [Hin|Hnotin].
  - apply in_map_iff in Hin as [[k' s'] [Hfst Hin]]. cbn in Hfst. subst k'.
    rewrite (In_map_get k s' _ (select_keys_NoDup event m Hnd) Hin).
    destruct (select_In event m _ Hin) as [Hm _].
    rewrite (In_map_get k s' m Hnd Hm) in Hget. exact Hget.
  - now apply map_get_None.
Qed.

Lemma length_filter_map {A B} (p : B -> bool) (f : A -> B) (l : list A) :
  List.length (filter p (map f l)) = List.length (filter (fun x => p (f x)) l).
Proof.
  induction l as [|x l IH]; cbn; [reflexivity|].
  destruct (p (f x)); cbn; now rewrite IH.
Qed.

Lemma notifySubscriber_settles (s : subscription) (event : value)
    (r : post_outcome) (clock : string) :
  fst (notifySubscriber s event r clock) = if delivered s r then Fulfilled else Failed.
Proof.
  unfold notifySubscriber. now destruct (delivered s r).
Qed.

Lemma count_fulfilled (io_ : io) (event : value) (ns : registry) :
  count is_fulfilled (settle io_ event ns)
  = Z.of_nat (List.length (filter (fun e => delivered (snd e) (post io_ (fst e))) ns)).
Proof.
  unfold count, settle. f_equal. rewrite length_filter_map. f_equal.
  apply filter_ext. intros [k s]. cbn [fst snd].
  rewrite notifySubscriber_settles. now destruct (delivered s (post io_ k)).
Qed.

Lemma count_rejected (io_ : io) (event : value) (ns : registry) :
  count is_rejected (settle io_ event ns)
  = Z.of_nat (List.length
                (filter (fun e => negb (delivered (snd e) (post io_ (fst e)))) ns)).
Proof.
  unfold count, settle. f_equal. rewrite length_filter_map. f_equal.
  apply filter_ext. intros [k s]. cbn [fst snd].
  rewrite notifySubscriber_settles. now destruct (delivered s (post io_ k)).
Qed.

Lemma filter_partition_length {A} (p : A -> bool) (l : list A) :
  (List.length (filter p l) + List.length (filter (fun x => negb (p x)) l)
   = List.length l)%nat.
Proof.
  induction l as [|x l IH]; cbn; [reflexivity|].
  destruct (p x); cbn; lia.
Qed.

(** What a publication does once the event is valid, recording it went
    through and no pattern comparison threw. *)
Lemma webhook_unfold (io_ : io) (event : value) (st : state) (rc : option redis) :
  valid event = true ->
  store_event io_ event (redisClient st) = Ok rc ->
  snd (select event (subscribers st)) = None ->
  webhook io_ event st
  = (Sent 200 (Obj [("message", Str "Webhook processed");
                    ("eventId", get event "eventId");
                    ("notificationsSent",
                     Num (count is_fulfilled
                            (settle io_ event (fst (select event (subscribers st))))));
                    ("notificationsFailed",
                     Num (count is_rejected
                            (settle io_ event (fst (select event (subscribers st))))))]),
     mkState (write_back (settle io_ event (fst (select event (subscribers st))))
                         (subscribers st)) rc).
Proof.
  intros Hv Hstore Hsel. unfold webhook, valid in *.
  apply andb_true_iff in Hv as [Hv H3]. apply andb_true_iff in Hv as [H1 H2].
  rewrite H1, H2, H3. cbn [negb orb]. rewrite Hstore.
  destruct (select event (subscribers st)) as [ns thrown]. cbn [fst snd] in *.
  now subst thrown.
Qed.

Lemma store_event_ok (io_ : io) (event : value) (st : state) :
  redisClient st = None \/ redis_up io_ = true ->
  exists rc, store_event io_ event (redisClient st) = Ok rc.
Proof.
  unfold store_event. intros [H|H].
  - rewrite H. now eexists.
  - rewrite H. destruct (redisClient st); now eexists.
Qed.

(** C7, as the code has it.  The comparisons of the loop throw on no
    registry whose patterns are strings, when the event's types are strings.
    When none throws, a publication of a valid event that is recorded starts
    one attempt for each subscription that is active and matches, all chosen
    before any attempt settles; its answer is 200 with the number of
    attempts that were fulfilled and the number that failed, which add up to
    the number of attempts; and what becomes of a subscription depends on
    the answer of its own endpoint only, so a failed delivery leaves the
    siblings' attempts and the answer of the call intact. *)
Theorem publication_reports_every_attempt (io_ : io) (event : value) (st : state) :
  valid event = true ->
  redisClient st = None \/ redis_up io_ = true ->
  NoDup (map fst (subscribers st)) ->
  (forall et ot,
     get event "eventType" = Str et ->
     get event "objectType" = Str ot ->
     string_patterns (subscribers st) ->
     snd (select event (subscribers st)) = None)
  /\ (snd (select event (subscribers st)) = None ->
      let notifications := fst (select event (subscribers st)) in
      let sent := filter (fun e => delivered (snd e) (post io_ (fst e))) notifications in
      let failed :=
        filter (fun e => negb (delivered (snd e) (post io_ (fst e)))) notifications in
      notifications = filter (selected event) (subscribers st)
      /\ NoDup (map fst notifications)
      /\ fst (webhook io_ event st)
         = Sent 200 (report event (List.length sent) (List.length failed))
      /\ (List.length sent + List.length failed = List.length notifications)%nat
      /\ (forall k s, map_get k (subscribers st) = Some s ->
            map_get k (subscribers (snd (webhook io_ event st)))
            = Some (if in_dec string_dec k (map fst notifications)
                    then snd (notifySubscriber s event (post io_ k) (now io_))
                    else s))).
Proof.
  intros Hv Hredis Hnd.
  split; [intros et ot Het Hot Hm; exact (select_on_strings event et ot _ Het Hot Hm)|].
  intros Hsel notifications sent failed.
  destruct (store_event_ok io_ event st Hredis) as [rc Hstore].
  rewrite (webhook_unfold io_ event st rc Hv Hstore Hsel).
  fold notifications. cbn [fst snd subscribers].
  split; [now apply select_filter|].
  split; [now apply select_keys_NoDup|].
  split; [unfold report; now rewrite count_fulfilled, count_rejected|].
  split; [apply filter_partition_length|].
  intros k s Hget.
  rewrite map_get_write_back, Hget. cbn [option_map].
  rewrite settled_get_settle.
  unfold notifications. rewrite (map_get_select event _ k s Hnd Hget).
  now destruct (in_dec string_dec k (map fst (fst (select event (subscribers st))))).
Qed.

Lemma publication_reports_every_attempt_witness :
  fst (webhook (Sample.one_down "s2" "u9") Sample.company_change Sample.three_subscribers)
  = Sent 200 (report Sample.company_change 2 1).
Proof.
  assert (Hnd : NoDup (map fst (subscribers Sample.three_subscribers))).
  { cbn. repeat constructor; cbn; intuition discriminate. }
  exact (proj1 (proj2 (proj2
    (proj2 (publication_reports_every_attempt (Sample.one_down "s2" "u9")
              Sample.company_change Sample.three_subscribers
              eq_refl (or_intror eq_refl) Hnd) eq_refl)))).
Defined.

(** C7, as stated, fails: three registrations are accepted (201), the
    second with the patterns [[null]], the other two with [*]; all three
    subscriptions are active and the third matches the event.  The
    publication of a well-formed event is delivered to the first; the
    comparison of the second throws, the handler ends rejected, without an
    answer and without the counts, and the third gets no attempt although
    every endpoint is up. *)
Lemma malformed_subscription_aborts_sibling_deliveries :
  map (fun x => fst (handle (fst x) (snd x) (Sample.with_redis []))) Sample.registrations
  = [Sent 201 (Obj [("subscriptionId", Str "s1");
                    ("message", Str "Webhook subscription created successfully")]);
     Sent 201 (Obj [("subscriptionId", Str "s2");
                    ("message", Str "Webhook subscription created successfully")]);
     Sent 201 (Obj [("subscriptionId", Str "s3");
                    ("message", Str "Webhook subscription created successfully")])]
  /\ valid Sample.company_change = true
  /\ option_map (fun s => matches s Sample.company_change)
                (map_get "s3" (subscribers Sample.one_malformed))
     = Some (Ok true)
  /\ fst (webhook (Sample.all_up "u1") Sample.company_change Sample.one_malformed)
     = Rejected TypeError
  /\ map (fun e => (fst e, successCount (snd e), errorCount (snd e)))
         (subscribers (snd (webhook (Sample.all_up "u1") Sample.company_change
                              Sample.one_malformed)))
     = [("s1", 1, 0); ("s2", 0, 0); ("s3", 0, 0)].
Proof. repeat split; vm_compute; reflexivity. Qed.

(** A valid event whose object type is a number does the same to
    subscriptions that are in order: validation lets it through, the first
    pattern that is neither [*] nor the event type throws. *)
Example untyped_event_aborts_the_publication :
  valid (Obj [("eventId", Str "e5"); ("eventType", Str "company.propertyChange");
              ("objectType", Num 42); ("objectId", Str "42")]) = true
  /\ fst (webhook (Sample.all_up "u1")
            (Obj [("eventId", Str "e5"); ("eventType", Str "company.propertyChange");
                  ("objectType", Num 42); ("objectId", Str "42")])
            Sample.three_subscribers)
     = Rejected TypeError.
Proof. split; vm_compute; reflexivity. Qed.

(** ** Health tracking *)

Lemma notifySubscriber_tracked (s : subscription) (event : value)
    (r : post_outcome) (clock : string) :
  tracked s -> tracked (snd (notifySubscriber s event r clock)).
Proof.
  unfold tracked, notifySubscriber. intros Hs.
  destruct (delivered s r); cbn [snd errorCount active]; [exact Hs|].
  intros H. apply Z.ltb_lt in H. now rewrite H.
Qed.

Lemma webhook_subscribers (io_ : io) (event : value) (st : state) :
  subscribers (snd (webhook io_ event st)) = subscribers st
  \/ subscribers (snd (webhook io_ event st))
     = write_back (settle io_ event (fst (select event (subscribers st)))) (subscribers st).
Proof.
  unfold webhook.
  destruct (negb (truthy (get event "eventType")) || negb (truthy (get event "objectType"))
            || negb (truthy (get event "objectId"))); [now left|].
  destruct (store_event io_ event (redisClient st)); [|now left].
  destruct (select event (subscribers st)) as [ns [e|]]; right; reflexivity.
Qed.

(** A replay changes nothing, however long it goes round. *)
Lemma replay_state (rounds : nat) (io_ : io) (eventId : string) (st : state) :
  snd (replay rounds io_ eventId st) = st.
Proof. reflexivity. Qed.

Lemma post_subscriptions_subscribers (io_ : io) (body : value) (st : state) :
  subscribers (snd (post_subscriptions io_ body st)) = subscribers st
  \/ subscribers (snd (post_subscriptions io_ body st))
     = map_set (randomUUID io_) (new_subscription io_ body) (subscribers st).
Proof.
  unfold post_subscriptions.
  destruct (negb (truthy (get body "url")) || negb (truthy (get body "events"))
            || negb (isArray (get body "events"))); [now left|].
  destruct (redisClient st); [destruct (redis_up io_)|]; now right.
Qed.

Lemma delete_subscription_subscribers (io_ : io) (k : string) (st : state) :
  subscribers (snd (delete_subscription io_ k st)) = subscribers st
  \/ subscribers (snd (delete_subscription io_ k st)) = map_delete k (subscribers st).
Proof.
  unfold delete_subscription.
  destruct (map_has k (subscribers st)); [|now left].
  destruct (redisClient st); [destruct (redis_up io_)|]; now right.
Qed.

Lemma write_back_tracked (io_ : io) (event : value) (m : registry) :
  Forall (fun e => tracked (snd e)) m ->
  Forall (fun e => tracked (snd e))
         (write_back (settle io_ event (fst (select event m))) m).
Proof.
  intros Hall. unfold write_back. apply Forall_map.
  apply Forall_forall. intros [k s] Hin. cbn [fst snd].
  rewrite settled_get_settle.
  destruct (map_get k (fst (select event m))) as [s'|] eqn:Hget; cbn [option_map snd].
  - apply notifySubscriber_tracked.
    apply map_get_In in Hget. apply select_In in Hget as [Hm _].
    rewrite Forall_forall in Hall. exact (Hall _ Hm).
  - rewrite Forall_forall in Hall. exact (Hall _ Hin).
Qed.

Lemma webhook_well_formed (io_ : io) (event : value) (st : state) :
  well_formed st -> well_formed (snd (webhook io_ event st)).
Proof.
  intros [Hnd Hall]. unfold well_formed.
  destruct (webhook_subscribers io_ event st) as [-> | ->]; [now split|].
  split; [now rewrite keys_write_back|now apply write_back_tracked].
Qed.

Lemma new_subscription_tracked (io_ : io) (body : value) :
  tracked (new_subscription io_ body).
Proof. unfold tracked. cbn. lia. Qed.

(** Every handler keeps the registry well formed. *)
Lemma handle_well_formed (io_ : io) (req : request) (st : state) :
  well_formed st -> well_formed (snd (handle io_ req st)).
Proof.
  intros Hwf. destruct req as [body|k|event|eventId rounds]; cbn [handle].
  - destruct Hwf as [Hnd Hall]. unfold well_formed.
    destruct (post_subscriptions_subscribers io_ body st) as [-> | ->]; [now split|].
    split; [now apply NoDup_map_set|].
    apply Forall_forall. intros e Hin.
    apply In_map_set in Hin as [-> |Hin]; [apply new_subscription_tracked|].
    rewrite Forall_forall in Hall. now apply Hall.
  - destruct Hwf as [Hnd Hall]. unfold well_formed.
    destruct (delete_subscription_subscribers io_ k st) as [-> | ->]; [now split|].
    split; [now apply NoDup_map_delete|].
    apply Forall_forall. intros e Hin. apply In_map_delete in Hin.
    rewrite Forall_forall in Hall. now apply Hall.
  - now apply webhook_well_formed.
  - rewrite replay_state. exact Hwf.
Qed.

Lemma started_well_formed (rc : option redis) : well_formed (started_with rc).
Proof. split; constructor. Qed.


Lemma map_get_delete_same (k : string) (m : registry) :
  NoDup (map fst m) -> map_get k (map_delete k m) = None.
Proof.
  induction m as [|[k' s'] m IH]; cbn; intros Hnd; [reflexivity|].
  inversion Hnd as [|? ? Hnotin Hnd']; subst.
  destruct (k =? k')%string eqn:E.
  - apply String.eqb_eq in E. subst k'. now apply map_get_None.
  - cbn. rewrite E. now apply IH.
Qed.

Lemma map_get_None_not_in (k : string) (m : registry) :
  map_get k m = None -> ~ In k (map fst m).
Proof.
  induction m as [|[k' s'] m IH]; cbn; [tauto|].
  destruct (k =? k')%string eqn:E; [discriminate|].
  intros Hget [Heq|Hin]; [|now apply IH].
  subst k'. now rewrite String.eqb_refl in E.
Qed.





(** Ten failures leave a new subscription active; the eleventh switches it
    off, and the next publication starts no delivery. *)
Example eleventh_failure_deactivates :
  option_map (fun s => (errorCount s, active s))
             (map_get "s1" (subscribers (run (Sample.failures 10) (Sample.with_redis []))))
  = Some (10, true)
  /\ option_map (fun s => (errorCount s, active s))
                (map_get "s1" (subscribers (run (Sample.failures 11) (Sample.with_redis []))))
     = Some (11, false)
  /\ fst (webhook (Sample.all_down "u3") Sample.company_change
            (run (Sample.failures 11) (Sample.with_redis [])))
     = Sent 200 (report Sample.company_change 0 0).
Proof. repeat split; vm_compute; reflexivity. Qed.

(** ** Replay *)

Lemma find_kv_set (f : string * value -> bool) (k : string) (v : value)
    (kv : list (string * value)) :
  find f kv = None -> f (k, v) = true -> find f (kv_set k v kv) = Some (k, v).
Proof.
  intros Hnone Hf. induction kv as [|[k' v'] kv IH]; cbn.
  - now rewrite Hf.
  - cbn in Hnone. destruct (f (k', v')) eqn:Hf'; [discriminate|].
    destruct (k =? k')%string; cbn.
    + now rewrite Hf.
    + rewrite Hf'. now apply IH.
Qed.

Lemma webhook_redis (io_ : io) (event : value) (st : state) (rc : option redis) :
  valid event = true ->
  store_event io_ event (redisClient st) = Ok rc ->
  redisClient (snd (webhook io_ event st)) = rc.
Proof.
  intros Hv Hstore. unfold webhook, valid in *.
  apply andb_true_iff in Hv as [Hv H3]. apply andb_true_iff in Hv as [H1 H2].
  rewrite H1, H2, H3. cbn [negb orb]. rewrite Hstore.
  now destruct (select event (subscribers st)) as [ns [e|]].
Qed.

Lemma replay_rounds_found (rounds : nat) (io_ : io) (eventId : string) (st : state)
    (r : redis) (found : string * value) :
  redisClient st = Some r ->
  redis_up io_ = true ->
  find (has_id eventId) (recorded r) = Some found ->
  replay_rounds rounds io_ eventId st = Unanswered.
Proof.
  intros Hr Hup Hfound. induction rounds as [|rounds IH]; [reflexivity|].
  cbn [replay_rounds]. rewrite Hr, Hup. cbn [negb].
  fold (has_id eventId). rewrite Hfound. exact IH.
Qed.

(** C3 asks that the replay of a recorded event publish it again.  In the
    code, with Redis available, an identifier that no recorded event carries
    (never seen, or expired) is answered 404; but an identifier that a
    recorded event carries, as every publication leaves one behind for its
    own event, sends the request round and round: however often the handler
    is entered, no answer has been sent, and the registry, its counters and
    what Redis holds are as they were, so nothing was delivered. *)
Theorem replay_of_recorded_event_is_never_answered
    (io_ : io) (eventId : string) (rounds : nat) (st : state) (r : redis) :
  redisClient st = Some r ->
  redis_up io_ = true ->
  snd (replay rounds io_ eventId st) = st
  /\ (find (has_id eventId) (recorded r) = None ->
        fst (replay (S rounds) io_ eventId st)
        = Sent 404 (Obj [("error", Str "Event not found")]))
  /\ (forall key event,
        find (has_id eventId) (recorded r) = Some (key, event) ->
        fst (replay rounds io_ eventId st) = Unanswered)
  /\ (forall io_pub event,
        valid event = true ->
        get event "eventId" = Str eventId ->
        redis_up io_pub = true ->
        find (has_id eventId) (recorded r) = None ->
        exists r1,
          redisClient (snd (webhook io_pub event st)) = Some r1
          /\ find (has_id eventId) (recorded r1) = Some (eventKey io_pub, event)
          /\ fst (replay rounds io_ eventId (snd (webhook io_pub event st))) = Unanswered).
Proof.
  intros Hr Hup. split; [reflexivity|]. split; [|split].
  - intros Hnone. cbn [replay fst replay_rounds]. rewrite Hr, Hup. cbn [negb].
    fold (has_id eventId). now rewrite Hnone.
  - intros key event Hfound. cbn [replay fst].
    exact (replay_rounds_found rounds io_ eventId st r _ Hr Hup Hfound).
  - intros io_pub event Hv Hid Hup' Hnone.
    assert (Hrc : redisClient (snd (webhook io_pub event st))
                  = Some {| recorded := kv_set (eventKey io_pub) event (recorded r);
                            processing_queue := eventKey io_pub :: processing_queue r;
                            subscriptions_hash := subscriptions_hash r |}).
    { apply webhook_redis; [exact Hv|].
      unfold store_event. rewrite Hr, Hup'. reflexivity. }
    assert (Hfound : find (has_id eventId) (kv_set (eventKey io_pub) event (recorded r))
                     = Some (eventKey io_pub, event)).
    { apply find_kv_set; [exact Hnone|].
      unfold has_id. cbn [snd]. rewrite Hid. cbn. apply String.eqb_refl. }
    eexists. split; [exact Hrc|]. split; [exact Hfound|].
    cbn [replay fst].
    exact (replay_rounds_found rounds io_ eventId _ _ _ Hrc Hup Hfound).
Qed.

Lemma replay_of_recorded_event_is_never_answered_witness :
  fst (webhook (Sample.all_up "u1") Sample.company_change Sample.three_subscribers)
  = Sent 200 (report Sample.company_change 3 0)
  /\ exists r1,
       redisClient (snd (webhook (Sample.all_up "u1") Sample.company_change
                           Sample.three_subscribers)) = Some r1
       /\ find (has_id "e1") (recorded r1)
          = Some (eventKey (Sample.all_up "u1"), Sample.company_change)
       /\ fst (replay 1000 (Sample.all_up "u2") "e1"
                 (snd (webhook (Sample.all_up "u1") Sample.company_change
                         Sample.three_subscribers)))
          = Unanswered.
Proof.
  split; [reflexivity|].
  exact (proj2 (proj2 (proj2
    (replay_of_recorded_event_is_never_answered (Sample.all_up "u2") "e1" 1000
       Sample.three_subscribers Sample.empty_redis eq_refl eq_refl)))
    (Sample.all_up "u1") Sample.company_change eq_refl eq_refl eq_refl eq_refl).
Defined.

(** An identifier that was never published, and one whose event has
    expired, are not found. *)
Example replay_of_unknown_or_expired_event :
  fst (replay 1 (Sample.all_up "u2") "e7" Sample.three_subscribers)
  = Sent 404 (Obj [("error", Str "Event not found")])
  /\ (let published :=
        snd (webhook (Sample.all_up "u1") Sample.company_change Sample.three_subscribers) in
      let later :=
        mkState (subscribers published)
                (option_map (expire (eventKey (Sample.all_up "u1")))
                            (redisClient published)) in
      fst (replay 1 (Sample.all_up "u2") "e1" later)
      = Sent 404 (Obj [("error", Str "Event not found")])).
Proof. split; vm_compute; reflexivity. Qed.

(** The replay of a published event leaves every counter where the
    publication put it. *)
Example replay_delivers_nothing :
  map (fun e => (fst e, successCount (snd e)))
      (subscribers
         (snd (replay 3 (Sample.all_up "u2") "e1"
                 (snd (webhook (Sample.all_up "u1") Sample.company_change
                         Sample.three_subscribers)))))
  = [("s1", 1); ("s2", 1); ("s3", 1)].
Proof. vm_compute. reflexivity. Qed.

End BrokerProperties.

(** * Properties of the consumer *)

Module SyncProperties.

Import Sync.

(** ** Intake *)

(** No request is ever answered 401: the signature is not looked at. *)
Lemma intake_never_rejects (cfg : config) (clock : Z) (add_ok : bool)
    (req : http_request) (added : list job) :
  status (fst (handleWebhook cfg clock add_ok req added)) <> 401.
Proof.
  unfold handleWebhook, validateWebhookSignature, queueEventForProcessing.
  cbn [negb]. destruct add_ok; cbn; discriminate.
Qed.

(** C2 asks that a delivery without a valid signature be answered 401 and
    queue nothing.  The code answers the unsigned delivery below with 200
    and queues its job. *)
Theorem unsigned_delivery_is_queued :
  handleWebhook SyncSample.defaults 1735689600000 true SyncSample.unsigned_delivery []
  = ({| status := 200;
        json := Obj [("message", Str "Webhook received");
                     ("eventId", Str "e2");
                     ("queued", Bool true)] |},
     [sync_object_job SyncSample.defaults 1735689600000 SyncSample.created]).
Proof. reflexivity. Qed.

(** ** The worker *)

Section Worker.

Variable convert : value -> value -> result value.

Lemma fetch_needed_on_string (d : job_data) (et : string) :
  eventType d = Str et ->
  fetch_needed d = Ok (occurs "creation" et || negb (truthy (properties d))).
Proof.
  intros H. unfold fetch_needed. now rewrite H.
Qed.

(** With a fetch, the GET is the first thing the job does, and a push, if
    one follows, carries the mapping of the object the CRM returned. *)
Lemma process_with_fetch (j : job) (crm sink : http_reply) :
  fetch_needed (data j) = Ok true ->
  exists r rest,
    processObjectSync convert j crm sink
    = (r, HubSpotGet (objectType (data j)) (objectId (data j)) :: rest)
    /\ forall ot dd, In (DataboxPost ot dd) rest ->
         exists st obj databoxData,
           crm = Reply st obj /\ ok_status st = true
           /\ convert (objectType (data j)) obj = Ok databoxData
           /\ ot = objectType (data j) /\ dd = [databoxData].
Proof.
  intros Hfetch. unfold processObjectSync. rewrite Hfetch.
  unfold fetchObjectFromHubSpot, sendObjectToDatabox, sendToDatabox.
  destruct crm as [st obj|]; cbn;
    [destruct (ok_status st) eqn:Hok; cbn;
       [destruct (truthy obj); cbn;
          [destruct (convert (objectType (data j)) obj) as [databoxData|e] eqn:Hconv; cbn;
             [destruct sink as [st' d'|]; [destruct (ok_status st')|]; cbn|]|]
       |destruct (st =? 404); cbn]|];
    do 2 eexists; (split; [reflexivity|]); intros ot dd Hin; members Hin.
  all: injection Hin as <- <-; exists st, obj, databoxData; auto.
Qed.

(** With a fetch that returns an object, the mapping of that object is
    pushed. *)
Lemma process_with_fetch_pushes (j : job) (st : Z) (obj databoxData : value)
    (sink : http_reply) :
  fetch_needed (data j) = Ok true ->
  ok_status st = true ->
  truthy obj = true ->
  convert (objectType (data j)) obj = Ok databoxData ->
  exists r rest,
    processObjectSync convert j (Reply st obj) sink
    = (r, HubSpotGet (objectType (data j)) (objectId (data j))
          :: DataboxPost (objectType (data j)) [databoxData] :: rest).
Proof.
  intros Hfetch Hok Hobj Hconv. unfold processObjectSync. rewrite Hfetch.
  unfold fetchObjectFromHubSpot, sendObjectToDatabox, sendToDatabox. cbn.
  rewrite Hok. cbn. rewrite Hobj. cbn. rewrite Hconv. cbn.
  destruct sink as [st' d'|]; [destruct (ok_status st')|]; cbn;
    do 2 eexists; reflexivity.
Qed.

(** Without a fetch, no GET is made, and what is pushed is the mapping of
    the object made of the event's id and properties. *)
Lemma process_without_fetch (j : job) (crm sink : http_reply) :
  fetch_needed (data j) = Ok false ->
  (forall ot oid, ~ In (HubSpotGet ot oid) (snd (processObjectSync convert j crm sink)))
  /\ (forall e,
        convert (objectType (data j))
                (Obj [("id", objectId (data j)); ("properties", properties (data j))])
        = Throw e ->
        Trace.calls (snd (processObjectSync convert j crm sink)) = [])
  /\ (forall databoxData,
        convert (objectType (data j))
                (Obj [("id", objectId (data j)); ("properties", properties (data j))])
        = Ok databoxData ->
        exists r rest,
          processObjectSync convert j crm sink
          = (r, DataboxPost (objectType (data j)) [databoxData] :: rest)
          /\ Trace.calls rest = []).
Proof.
  intros Hfetch. unfold processObjectSync. rewrite Hfetch.
  unfold sendObjectToDatabox, sendToDatabox. cbn.
  destruct (convert _ _) as [databoxData|e]; cbn;
    [destruct sink as [st' d'|]; [destruct (ok_status st')|]; cbn|];
    (split; [intros ot oid Hin; members Hin|]);
    (split; [intros e' H; try discriminate H; reflexivity|]);
    intros d H; try discriminate H; injection H as <-;
    do 2 eexists; split; reflexivity.
Qed.

(** C9, as the code has it, for a job whose event type is a string: the
    worker fetches the object from the CRM, by its type and id and before
    anything is pushed, exactly when the event type contains [creation] or
    the event carries no properties; what it then pushes, when the CRM
    returns an object, is the mapping of that object.  A job whose event
    carries properties, partial or not, and is not a creation makes no
    fetch: it pushes the mapping of the object made of the event's id and
    properties, and makes no other request. *)
Theorem fetch_on_creation_or_missing_properties
    (j : job) (et : string) (crm sink : http_reply) :
  eventType (data j) = Str et ->
  fetch_needed (data j)
  = Ok (occurs "creation" et || negb (truthy (properties (data j))))
  /\ (occurs "creation" et || negb (truthy (properties (data j))) = true ->
        (exists r rest,
           processObjectSync convert j crm sink
           = (r, HubSpotGet (objectType (data j)) (objectId (data j)) :: rest)
           /\ forall ot dd, In (DataboxPost ot dd) rest ->
                exists st obj databoxData,
                  crm = Reply st obj /\ ok_status st = true
                  /\ convert (objectType (data j)) obj = Ok databoxData
                  /\ ot = objectType (data j) /\ dd = [databoxData])
        /\ (forall st obj databoxData,
              crm = Reply st obj -> ok_status st = true -> truthy obj = true ->
              convert (objectType (data j)) obj = Ok databoxData ->
              exists r rest,
                processObjectSync convert j crm sink
                = (r, HubSpotGet (objectType (data j)) (objectId (data j))
                      :: DataboxPost (objectType (data j)) [databoxData] :: rest)))
  /\ (occurs "creation" et || negb (truthy (properties (data j))) = false ->
        (forall ot oid,
           ~ In (HubSpotGet ot oid) (snd (processObjectSync convert j crm sink)))
        /\ (forall e,
              convert (objectType (data j))
                      (Obj [("id", objectId (data j)); ("properties", properties (data j))])
              = Throw e ->
              Trace.calls (snd (processObjectSync convert j crm sink)) = [])
        /\ (forall databoxData,
              convert (objectType (data j))
                      (Obj [("id", objectId (data j)); ("properties", properties (data j))])
              = Ok databoxData ->
              exists r rest,
                processObjectSync convert j crm sink
                = (r, DataboxPost (objectType (data j)) [databoxData] :: rest)
                /\ Trace.calls rest = [])).
Proof.
  intros Het. pose proof (fetch_needed_on_string (data j) et Het) as Hneed.
  split; [exact Hneed|]. split.
  - intros Hb. rewrite Hb in Hneed. split.
    + now apply process_with_fetch.
    + intros st obj databoxData -> Hok Hobj Hconv.
      now apply process_with_fetch_pushes.
  - intros Hb. rewrite Hb in Hneed. now apply process_without_fetch.
Qed.

End Worker.

Lemma fetch_on_creation_or_missing_properties_witness :
  exists r rest,
    processObjectSync SyncSample.pass_through
      (sync_object_job SyncSample.defaults 0 SyncSample.created)
      (Reply 200 SyncSample.stored_company) (Reply 200 Null)
    = (r, HubSpotGet (Str "company") (Str "42")
          :: DataboxPost (Str "company") [SyncSample.stored_company] :: rest).
Proof.
  exact (proj2 (proj1 (proj2
    (fetch_on_creation_or_missing_properties SyncSample.pass_through
       (sync_object_job SyncSample.defaults 0 SyncSample.created) "company.creation"
       (Reply 200 SyncSample.stored_company) (Reply 200 Null) eq_refl)) eq_refl)
    200 SyncSample.stored_company SyncSample.stored_company eq_refl eq_refl eq_refl eq_refl).
Defined.

(** C9, as stated, fails: the event below carries one property of the four
    the CRM holds for the object, and the job pushes that partial object
    without asking the CRM. *)
Lemma partial_properties_are_pushed_unfetched :
  processObjectSync SyncSample.pass_through
    (sync_object_job SyncSample.defaults 0 SyncSample.renamed)
    (Reply 200 SyncSample.stored_company) (Reply 200 Null)
  = (Ok tt,
     [DataboxPost (Str "company")
        [Obj [("id", Str "42"); ("properties", Obj [("name", Str "Acme Ltd")])]]]).
Proof. reflexivity. Qed.

Example creation_event_is_fetched :
  processObjectSync SyncSample.pass_through
    (sync_object_job SyncSample.defaults 0 SyncSample.created)
    (Reply 200 SyncSample.stored_company) (Reply 200 Null)
  = (Ok tt,
     [HubSpotGet (Str "company") (Str "42");
      DataboxPost (Str "company") [SyncSample.stored_company]]).
Proof. reflexivity. Qed.

End SyncProperties.

(** * Properties of the retry queue *)

Module QueueProperties.

Import Sync Queue.

Section Worker.

Variable convert : value -> value -> result value.

Lemma work_not_claimable (t : tick) (e : entry) :
  claimable (fst (fst t)) e = false -> work convert t e = (e, []).
Proof.
  destruct t as [[clock crm] sink]. cbn [fst]. intros H.
  unfold work. now rewrite H.
Qed.

(** A job that is Done or Failed is never run again. *)
Lemma drive_terminal (ticks : list tick) (e : entry) :
  state_ e = Done \/ state_ e = Failed -> drive convert ticks e = (e, []).
Proof.
  intros Hend. induction ticks as [|t ticks IH]; cbn [drive]; [reflexivity|].
  rewrite work_not_claimable, IH; [reflexivity|].
  unfold claimable. now destruct Hend as [-> | ->].
Qed.

Lemma work_success (clock : Z) (crm sink : http_reply) (e : entry) (eff : list effect) :
  claimable clock e = true ->
  processObjectSync convert (queued e) crm sink = (Ok tt, eff) ->
  work convert (clock, crm, sink) e = (mkEntry (queued e) (attempt e) Done, eff).
Proof.
  intros Hc Hp. unfold work. rewrite Hc, Hp.
  unfold finish, claim. rewrite Hc. cbn. now rewrite app_nil_r.
Qed.

Lemma work_failure (t : tick) (e : entry) (err : error) :
  claimable (fst (fst t)) e = true ->
  fst (processObjectSync convert (queued e) (snd (fst t)) (snd t)) = Throw err ->
  let n := attempt e + 1 in
  let eff := snd (processObjectSync convert (queued e) (snd (fst t)) (snd t)) in
  work convert t e
  = if n <? attempts (opts (queued e))
    then (mkEntry (queued e) n
                  (Pending (fst (fst t) + backoff_ms (opts (queued e)) n)), eff)
    else (mkEntry (queued e) n Failed, (eff ++ on_failed (queued e))%list).
Proof.
  destruct t as [[clock crm] sink]. cbn [fst snd]. intros Hc Hp.
  unfold work. rewrite Hc.
  destruct (processObjectSync convert (queued e) crm sink) as [r eff] eqn:Hrun.
  cbn [fst snd] in *. subst r.
  unfold finish, claim. rewrite Hc. cbn [state_ queued attempt].
  destruct (attempt e + 1 <? attempts (opts (queued e))); [|reflexivity].
  now rewrite app_nil_r.
Qed.

(** Every look of a worker keeps the job [within] its bounds. *)
Lemma work_within (j : job) (t : tick) (e : entry) :
  within j e -> within j (fst (work convert t e)).
Proof.
  intros [Hj [Hle Hpending]].
  destruct (claimable (fst (fst t)) e) eqn:Hc;
    [|rewrite work_not_claimable by exact Hc; now repeat split].
  assert (Hlt : attempt e < limit j).
  { unfold claimable in Hc. destruct (state_ e) eqn:Hs; try discriminate.
    now apply (Hpending visible_at). }
  destruct (processObjectSync convert (queued e) (snd (fst t)) (snd t))
    as [[[]|err] eff] eqn:Hrun.
  - destruct t as [[clock crm] sink]. cbn [fst snd] in *.
    rewrite (work_success clock crm sink e eff Hc Hrun).
    unfold within. cbn [fst queued attempt state_].
    split; [exact Hj|split; [exact Hle|discriminate]].
  - rewrite (work_failure t e err Hc) by now rewrite Hrun.
    rewrite Hj. unfold within.
    destruct (attempt e + 1 <? attempts (opts j)) eqn:Hn;
      cbn [fst queued attempt state_].
    + apply Z.ltb_lt in Hn. unfold limit in *.
      split; [reflexivity|split; [lia|intros v _; lia]].
    + split; [reflexivity|split; [lia|discriminate]].
Qed.

Lemma drive_within (j : job) (ticks : list tick) (e : entry) :
  within j e -> within j (fst (drive convert ticks e)).
Proof.
  revert e. induction ticks as [|t ticks IH]; intros e He; cbn [drive]; [exact He|].
  pose proof (work_within j t e He) as H1.
  destruct (work convert t e) as [e1 eff]. cbn [fst] in H1.
  specialize (IH e1 H1).
  destruct (drive convert ticks e1) as [e2 eff']. exact IH.
Qed.

Lemma drive_app (l1 l2 : list tick) (e : entry) :
  drive convert (l1 ++ l2) e
  = (fst (drive convert l2 (fst (drive convert l1 e))),
     (snd (drive convert l1 e) ++ snd (drive convert l2 (fst (drive convert l1 e))))%list).
Proof.
  revert e. induction l1 as [|t l1 IH]; intros e; cbn [drive app fst snd].
  - now destruct (drive convert l2 e).
  - destruct (work convert t e) as [e1 eff]. rewrite IH.
    destruct (drive convert l1 e1) as [e2 eff2]. cbn [fst snd].
    now rewrite app_assoc.
Qed.

Lemma all_fail_app (l1 l2 : list tick) (e : entry) :
  all_fail convert (l1 ++ l2) e ->
  all_fail convert l1 e /\ all_fail convert l2 (fst (drive convert l1 e)).
Proof.
  revert e. induction l1 as [|t l1 IH]; intros e; cbn [all_fail app drive fst].
  - now split.
  - intros [Hc [Hthrow Hrest]]. destruct (IH _ Hrest) as [H1 H2].
    destruct (work convert t e) as [e1 eff]. cbn [fst] in *.
    destruct (drive convert l1 e1) as [e2 eff2]. cbn [fst] in *.
    now repeat split.
Qed.

(** Every failed attempt is counted. *)
Lemma all_fail_counts (ticks : list tick) (e : entry) :
  all_fail convert ticks e ->
  attempt (fst (drive convert ticks e)) = attempt e + Z.of_nat (List.length ticks).
Proof.
  revert e. induction ticks as [|t ticks IH]; intros e; cbn [all_fail drive List.length].
  - intros _. cbn. lia.
  - intros [Hc [[err Hthrow] Hrest]]. specialize (IH _ Hrest).
    pose proof (work_failure t e err Hc Hthrow) as Hw. cbn zeta in Hw.
    destruct (work convert t e) as [e1 eff]. cbn [fst] in *.
    destruct (drive convert ticks e1) as [e2 eff2]. cbn [fst] in *.
    rewrite IH.
    destruct (attempt e + 1 <? attempts (opts (queued e)));
      injection Hw as -> _; cbn [attempt]; lia.
Qed.

Lemma add_within (clock : Z) (j : job) : within j (add clock j).
Proof.
  unfold within, add, limit. cbn. repeat split; try lia.
Qed.

(** The last of a run of failed attempts decides where the job stands. *)
Lemma last_failure (j : job) (ticks : list tick) (t : tick) (e : entry) :
  within j e ->
  all_fail convert (ticks ++ [t]) e ->
  let final := fst (drive convert (ticks ++ [t]) e) in
  (attempt final < attempts (opts j) ->
     state_ final = Pending (fst (fst t) + backoff_ms (opts j) (attempt final)))
  /\ (attempt final = limit j ->
        state_ final = Failed
        /\ In (ProcessingError "job_failure" (name j))
              (snd (drive convert (ticks ++ [t]) e))).
Proof.
  intros He Hall. apply all_fail_app in Hall as [_ Hlast].
  rewrite drive_app. cbn [fst snd].
  pose proof (drive_within j ticks e He) as [Hj _].
  set (e1 := fst (drive convert ticks e)) in *.
  cbn [all_fail] in Hlast. destruct Hlast as [Hc [[err Hthrow] _]].
  cbn [drive]. pose proof (work_failure t e1 err Hc Hthrow) as Hw. cbn zeta in Hw.
  destruct (work convert t e1) as [e2 eff2]. cbn [fst snd].
  rewrite app_nil_r. rewrite Hj in Hw.
  destruct (attempt e1 + 1 <? attempts (opts j)) eqn:Hn;
    injection Hw as -> ->; cbn [attempt state_].
  - split; [reflexivity|]. apply Z.ltb_lt in Hn. unfold limit. lia.
  - split; [apply Z.ltb_ge in Hn; lia|].
    intros _. split; [reflexivity|].
    apply in_or_app. right. apply in_or_app. right.
    unfold on_failed. right. now left.
Qed.

(** C8, as the code has it: a job made by [queueEventForProcessing]
    carries the configured maximum (3 when [MAX_RETRIES] is unset or 0, the
    number given otherwise, also a negative one) and an exponential backoff
    of base 2000 ms.  Whatever the workers find, its attempt count stays
    within the maximum, or within 1 when the maximum is less, a job being
    run once before its maximum is looked at.  While its attempts fail, each
    one is counted; below the maximum the job is Pending again, visible
    after 2000 ms times 2 to the number of failures so far less one; with
    the failure that reaches the bound it is Failed, the [failed] listener
    has recorded a [job_failure] in the error counter, and no worker runs
    it again. *)
Theorem attempts_never_exceed_maximum
    (cfg : config) (clock0 : Z) (event : value) (ticks : list tick) :
  let j := sync_object_job cfg clock0 event in
  let final := fst (drive convert ticks (add clock0 j)) in
  maxRetries (load_config None None) = 3
  /\ (forall n, n <> 0 -> maxRetries (load_config None (Some n)) = n)
  /\ attempts (opts j) = maxRetries cfg
  /\ backoff (opts j) = mkBackoff "exponential" 2000
  /\ attempt final <= Z.max 1 (maxRetries cfg)
  /\ (all_fail convert ticks (add clock0 j) ->
        attempt final = Z.of_nat (List.length ticks)
        /\ (forall ticks' t, ticks = (ticks' ++ [t])%list ->
              attempt final < maxRetries cfg ->
              state_ final = Pending (fst (fst t) + 2000 * 2 ^ (attempt final - 1)))
        /\ (attempt final = Z.max 1 (maxRetries cfg) ->
              state_ final = Failed
              /\ In (ProcessingError "job_failure" "sync-object")
                    (snd (drive convert ticks (add clock0 j)))
              /\ forall more, drive convert more final = (final, []))).
Proof.
  intros j final.
  assert (Hin : within j (add clock0 j)) by apply add_within.
  pose proof (drive_within j ticks _ Hin) as [_ [Hle _]].
  split; [reflexivity|].
  split; [intros n Hn; cbn; apply Z.eqb_neq in Hn; now rewrite Hn|].
  split; [reflexivity|]. split; [reflexivity|].
  split; [exact Hle|].
  intros Hall. pose proof (all_fail_counts ticks _ Hall) as Hcount.
  cbn [add attempt] in Hcount. fold final in Hcount.
  split; [lia|]. split.
  - intros ticks' t -> Hlt.
    exact (proj1 (last_failure j ticks' t _ Hin Hall) Hlt).
  - intros Hmax.
    destruct ticks as [|t0 ticks0] eqn:Hticks.
    + unfold final in Hmax. cbn in Hmax. lia.
    + destruct (@exists_last _ (t0 :: ticks0)) as [ticks' [t Hsnoc]]; [discriminate|].
      rewrite Hsnoc in Hall. unfold final. rewrite Hsnoc.
      destruct (proj2 (last_failure j ticks' t _ Hin Hall)) as [Hfailed Hmetric].
      { rewrite <- Hsnoc. exact Hmax. }
      split; [exact Hfailed|]. split; [exact Hmetric|].
      intros more. apply drive_terminal. right. exact Hfailed.
Qed.

(** C10: when the job fetches and the CRM answers 404, the processor
    ends without an exception after the GET and a warning: nothing is
    posted to the sink and no error is counted.  The queue marks the job
    Done, with its attempt count unchanged, and no worker runs it
    again. *)
Theorem crm_404_completes_job_without_push
    (j : job) (sink : http_reply) (d : value) (e : entry) (clock : Z) :
  fetch_needed (data j) = Ok true ->
  queued e = j ->
  claimable clock e = true ->
  processObjectSync convert j (Reply 404 d) sink
  = (Ok tt, [HubSpotGet (objectType (data j)) (objectId (data j));
             LogWarn "Object not found (may be deleted)"])
  /\ work convert (clock, Reply 404 d, sink) e
     = (mkEntry j (attempt e) Done,
        [HubSpotGet (objectType (data j)) (objectId (data j));
         LogWarn "Object not found (may be deleted)"])
  /\ forall more,
       drive convert more (mkEntry j (attempt e) Done)
       = (mkEntry j (attempt e) Done, []).
Proof.
  intros Hfetch Hj Hc.
  assert (Hrun : processObjectSync convert j (Reply 404 d) sink
                 = (Ok tt, [HubSpotGet (objectType (data j)) (objectId (data j));
                            LogWarn "Object not found (may be deleted)"])).
  { unfold processObjectSync. rewrite Hfetch. reflexivity. }
  split; [exact Hrun|]. split.
  - rewrite <- Hj in Hrun |- *.
    now rewrite (work_success clock (Reply 404 d) sink e _ Hc Hrun).
  - intros more. apply drive_terminal. now left.
Qed.

End Worker.

Lemma attempts_never_exceed_maximum_witness :
  Trace.calls (snd (drive SyncSample.pass_through SyncSample.three_sink_failures
                      (add 0 (sync_object_job SyncSample.defaults 0 SyncSample.created))))
  = [Trace.Get; Trace.Post; Trace.Get; Trace.Post; Trace.Get; Trace.Post]
  /\ state_ (fst (drive SyncSample.pass_through SyncSample.three_sink_failures
                    (add 0 (sync_object_job SyncSample.defaults 0 SyncSample.created))))
     = Failed
  /\ attempt (fst (drive SyncSample.pass_through SyncSample.three_sink_failures
                     (add 0 (sync_object_job SyncSample.defaults 0 SyncSample.created))))
     = 3
  /\ In (ProcessingError "job_failure" "sync-object")
        (snd (drive SyncSample.pass_through SyncSample.three_sink_failures
                (add 0 (sync_object_job SyncSample.defaults 0 SyncSample.created))))
  /\ drive SyncSample.pass_through SyncSample.fourth_look
       (fst (drive SyncSample.pass_through SyncSample.three_sink_failures
               (add 0 (sync_object_job SyncSample.defaults 0 SyncSample.created))))
     = (fst (drive SyncSample.pass_through SyncSample.three_sink_failures
               (add 0 (sync_object_job SyncSample.defaults 0 SyncSample.created))),
        []).
Proof.
  split; [reflexivity|].
  destruct (attempts_never_exceed_maximum SyncSample.pass_through
              SyncSample.defaults 0 SyncSample.created SyncSample.three_sink_failures)
    as (_ & _ & _ & _ & _ & Hfail).
  destruct Hfail as (Hcount & _ & Hmax).
  { cbn. repeat split; eexists; reflexivity. }
  destruct (Hmax eq_refl) as (Hfailed & Hmetric & Hstop).
  split; [exact Hfailed|]. split; [exact Hcount|]. split; [exact Hmetric|]. apply Hstop.
Defined.

(** C8, as stated, fails: under [MAX_RETRIES=-1] the configured maximum is
    -1; the job is run all the same, its sink push fails, and it is Failed
    with an attempt count of 1, above the maximum. *)
Lemma negative_maximum_is_exceeded :
  maxRetries SyncSample.negative_maximum = -1
  /\ attempts (opts (sync_object_job SyncSample.negative_maximum 0 SyncSample.created)) = -1
  /\ fst (drive SyncSample.pass_through [(1000, Reply 200 SyncSample.stored_company, Reply 503 Null)]
            (add 0 (sync_object_job SyncSample.negative_maximum 0 SyncSample.created)))
     = mkEntry (sync_object_job SyncSample.negative_maximum 0 SyncSample.created) 1 Failed.
Proof. repeat split. Qed.

Example retries_back_off_exponentially :
  state_ (fst (drive SyncSample.pass_through [(1000, NoReply, NoReply)]
                 (add 0 (sync_object_job SyncSample.defaults 0 SyncSample.created))))
  = Pending 3000
  /\ state_ (fst (drive SyncSample.pass_through
                    [(1000, NoReply, NoReply); (3000, NoReply, NoReply)]
                    (add 0 (sync_object_job SyncSample.defaults 0 SyncSample.created))))
     = Pending 7000.
Proof. split; reflexivity. Qed.

Lemma crm_404_completes_job_without_push_witness :
  processObjectSync SyncSample.pass_through
    (sync_object_job SyncSample.defaults 0 SyncSample.created)
    (Reply 404 Null) (Reply 200 Null)
  = (Ok tt, [HubSpotGet (Str "company") (Str "42");
             LogWarn "Object not found (may be deleted)"])
  /\ work SyncSample.pass_through (1000, Reply 404 Null, Reply 200 Null)
       (add 0 (sync_object_job SyncSample.defaults 0 SyncSample.created))
     = (mkEntry (sync_object_job SyncSample.defaults 0 SyncSample.created) 0 Done,
        [HubSpotGet (Str "company") (Str "42");
         LogWarn "Object not found (may be deleted)"])
  /\ forall more,
       drive SyncSample.pass_through more
         (mkEntry (sync_object_job SyncSample.defaults 0 SyncSample.created) 0 Done)
       = (mkEntry (sync_object_job SyncSample.defaults 0 SyncSample.created) 0 Done, []).
Proof.
  apply (crm_404_completes_job_without_push SyncSample.pass_through
           (sync_object_job SyncSample.defaults 0 SyncSample.created)
           (Reply 200 Null) Null
           (add 0 (sync_object_job SyncSample.defaults 0 SyncSample.created)) 1000);
    reflexivity.
Defined.

End QueueProperties.

(** * More properties of the broker *)

Module RegistryProperties.

Import Broker Registry BrokerProperties.

(** ** Deregistration *)

(** X1: a deletion removes the subscription stored under the key and no
    other, whether or not Redis follows; the key is absent afterwards, so a
    repeated deletion is answered 404, as is the deletion of a key that was
    never there, which changes nothing. *)
Theorem deregistration_removes_only_its_key (io_ io' : io) (k : string) (st : state) :
  NoDup (map fst (subscribers st)) ->
  (map_get k (subscribers st) = None ->
     delete_subscription io_ k st
     = (Sent 404 (Obj [("error", Str "Subscription not found")]), st))
  /\ map_get k (subscribers (snd (delete_subscription io_ k st))) = None
  /\ (forall k', k' <> k ->
        map_get k' (subscribers (snd (delete_subscription io_ k st)))
        = map_get k' (subscribers st))
  /\ fst (delete_subscription io' k (snd (delete_subscription io_ k st)))
     = Sent 404 (Obj [("error", Str "Subscription not found")]).
Proof.
  intros Hnd.
  assert (Hgone : map_get k (subscribers (snd (delete_subscription io_ k st))) = None).
  { unfold delete_subscription, map_has.
    destruct (map_get k (subscribers st)) eqn:Hget; [|exact Hget].
    destruct (redisClient st); [destruct (redis_up io_)|];
      cbn [snd subscribers]; now apply map_get_delete_same. }
  split; [|split; [exact Hgone|split]].
  - intros Hnone. unfold delete_subscription, map_has. now rewrite Hnone.
  - intros k' Hne.
    destruct (delete_subscription_subscribers io_ k st) as [-> | ->]; [reflexivity|].
    now apply map_get_delete_other.
  - unfold delete_subscription at 1, map_has. now rewrite Hgone.
Qed.

Lemma deregistration_removes_only_its_key_witness :
  map_get "s2" (subscribers (snd (delete_subscription (Sample.all_up "u1") "s2"
                                    Sample.three_subscribers))) = None
  /\ fst (delete_subscription (Sample.all_up "u2") "s2"
            (snd (delete_subscription (Sample.all_up "u1") "s2" Sample.three_subscribers)))
     = Sent 404 (Obj [("error", Str "Subscription not found")]).
Proof.
  destruct (deregistration_removes_only_its_key (Sample.all_up "u1") (Sample.all_up "u2")
              "s2" Sample.three_subscribers) as (_ & Hgone & _ & Hagain).
  - cbn. repeat constructor; cbn; intuition discriminate.
  - split; [exact Hgone|exact Hagain].
Defined.

(** ** Registration and listing *)

Lemma map_set_fresh (k : string) (s : subscription) (m : registry) :
  ~ In k (map fst m) -> map_set k s m = (m ++ [(k, s)])%list.
Proof.
  induction m as [|[k' s'] m IH]; cbn; intros Hfresh; [reflexivity|].
  destruct (k =? k')%string eqn:E.
  - apply String.eqb_eq in E. subst k'. exfalso. apply Hfresh. now left.
  - rewrite IH; [reflexivity|]. intros Hin. apply Hfresh. now right.
Qed.

Lemma map_delete_last (k : string) (s : subscription) (m : registry) :
  ~ In k (map fst m) -> map_delete k (m ++ [(k, s)])%list = m.
Proof.
  induction m as [|[k' s'] m IH]; cbn; intros Hfresh.
  - now rewrite String.eqb_refl.
  - destruct (k =? k')%string eqn:E.
    + apply String.eqb_eq in E. subst k'. exfalso. apply Hfresh. now left.
    + rewrite IH; [reflexivity|]. intros Hin. apply Hfresh. now right.
Qed.

Lemma map_has_last (k : string) (s : subscription) (m : registry) :
  map_has k (m ++ [(k, s)])%list = true.
Proof.
  unfold map_has. induction m as [|[k' s'] m IH]; cbn.
  - now rewrite String.eqb_refl.
  - destruct (k =? k')%string; [reflexivity|exact IH].
Qed.

(** X2: a registration under an identifier not yet in use puts the new
    subscription at the end of the list that [GET /subscriptions] returns
    and leaves the others in place; deleting that identifier right away
    gives back the registry, and with it the Redis hash, exactly as they
    were. *)
Theorem registration_appends_and_deletion_undoes
    (io_ io' : io) (body : value) (st : state) :
  truthy (get body "url") = true ->
  isArray (get body "events") = true ->
  ~ In (randomUUID io_) (map fst (subscribers st)) ->
  get_subscriptions (snd (post_subscriptions io_ body st))
  = (get_subscriptions st ++ [new_subscription io_ body])%list
  /\ subscribers (snd (delete_subscription io' (randomUUID io_)
                         (snd (post_subscriptions io_ body st))))
     = subscribers st
  /\ (redisClient st = None
      \/ (redis_up io_ = true /\ redis_up io' = true
          /\ forall r, redisClient st = Some r ->
                       ~ In (randomUUID io_) (map fst (subscriptions_hash r))) ->
      snd (delete_subscription io' (randomUUID io_) (snd (post_subscriptions io_ body st)))
      = st).
Proof.
  intros Hurl Harr Hfresh.
  assert (Hsubs : subscribers (snd (post_subscriptions io_ body st))
                  = (subscribers st ++ [(randomUUID io_, new_subscription io_ body)])%list).
  { unfold post_subscriptions. rewrite Hurl.
    destruct (get body "events"); try discriminate Harr.
    cbn [truthy isArray negb orb].
    destruct (redisClient st); [destruct (redis_up io_)|];
      cbn [snd subscribers]; now apply map_set_fresh. }
  assert (Hdel : subscribers (snd (delete_subscription io' (randomUUID io_)
                                     (snd (post_subscriptions io_ body st))))
                 = subscribers st).
  { unfold delete_subscription. rewrite Hsubs, map_has_last.
    destruct (redisClient (snd (post_subscriptions io_ body st)));
      [destruct (redis_up io')|]; cbn [snd subscribers]; now apply map_delete_last. }
  split; [|split; [exact Hdel|]].
  - unfold get_subscriptions. rewrite Hsubs, map_app. reflexivity.
  - intros Hredis. destruct st as [m rc]. cbn [subscribers redisClient] in *.
    unfold delete_subscription. rewrite Hsubs, map_has_last.
    cbn [subscribers]. rewrite (map_delete_last _ _ m Hfresh).
    unfold post_subscriptions. rewrite Hurl.
    destruct (get body "events"); try discriminate Harr.
    cbn [truthy isArray negb orb redisClient].
    destruct Hredis as [-> | (Hup & Hup' & Hhash)]; [reflexivity|].
    destruct rc as [r|]; [|reflexivity].
    rewrite Hup. cbn [snd redisClient]. rewrite Hup'. cbn [snd].
    f_equal. f_equal. destruct r as [rec q h].
    unfold hDel, hSet. cbn [recorded processing_queue subscriptions_hash].
    specialize (Hhash _ eq_refl). cbn [subscriptions_hash] in Hhash.
    rewrite (map_set_fresh _ _ h Hhash), (map_delete_last _ _ h Hhash). reflexivity.
Qed.

Lemma registration_appends_and_deletion_undoes_witness :
  snd (delete_subscription (Sample.all_up "u2") "u1"
         (snd (post_subscriptions (Sample.all_up "u1")
                 (Obj [("url", Str "http://other/hook"); ("events", Arr [Str "*"])])
                 Sample.three_subscribers)))
  = Sample.three_subscribers.
Proof.
  refine (proj2 (proj2 (registration_appends_and_deletion_undoes
                          (Sample.all_up "u1") (Sample.all_up "u2")
                          (Obj [("url", Str "http://other/hook"); ("events", Arr [Str "*"])])
                          Sample.three_subscribers eq_refl eq_refl _)) _).
  - cbn. intuition discriminate.
  - right. split; [reflexivity|]. split; [reflexivity|].
    intros r [= <-]. cbn. tauto.
Defined.

(** ** Publication *)

(** X3: an event that fails the validation, or one that cannot be recorded
    because a Redis command is rejected, is delivered to nobody: the state is
    left as it was, counters and flags included, and the answer is 400 for
    the invalid event and a rejected handler for the Redis failure. *)
Theorem nothing_is_delivered_unless_recorded (io_ : io) (event : value) (st : state) :
  valid event = false \/ (redisClient st <> None /\ redis_up io_ = false) ->
  snd (webhook io_ event st) = st
  /\ fst (webhook io_ event st)
     = if valid event then Rejected RedisError
       else Sent 400 (Obj [("error", Str "Invalid webhook payload")]).
Proof.
  intros H. unfold webhook, valid in *.
  destruct (truthy (get event "eventType")), (truthy (get event "objectType")),
           (truthy (get event "objectId")); cbn [negb orb andb] in *;
    try (now split).
  destruct H as [H|[Hrc Hup]]; [discriminate|].
  unfold store_event. rewrite Hup.
  destruct (redisClient st); [now split|congruence].
Qed.

Lemma nothing_is_delivered_unless_recorded_witness :
  snd (webhook (mkIo false "u1" "t1" (fun _ => Responded 200)) Sample.company_change
         Sample.three_subscribers) = Sample.three_subscribers
  /\ fst (webhook (mkIo false "u1" "t1" (fun _ => Responded 200)) Sample.company_change
            Sample.three_subscribers) = Rejected RedisError.
Proof.
  apply (nothing_is_delivered_unless_recorded
           (mkIo false "u1" "t1" (fun _ => Responded 200)) Sample.company_change
           Sample.three_subscribers).
  right. split; [discriminate|reflexivity].
Defined.

Lemma eventMatch_on_strings (s : subscription) (event : value) (et ot : string)
    (patterns : list string) :
  get event "eventType" = Str et ->
  get event "objectType" = Str ot ->
  events s = Arr (map Str patterns) ->
  eventMatch s event = Ok (existsb (accepts et ot) patterns).
Proof.
  intros Het Hot Hp. unfold eventMatch. rewrite Hp. cbn [array_some].
  now apply some_on_strings.
Qed.

(** X4: on a registry whose patterns are strings, the publication of a
    valid event that is recorded and whose event type and object type are
    strings (the object type ASCII text) calls [notifySubscriber] exactly
    once for a subscription that is active and has a pattern that is
    accepted, and leaves any other subscription as it is; so an active
    subscription with the pattern [*] gets one attempt for every such
    event. *)
Theorem every_match_is_attempted_exactly_once
    (io_ : io) (event : value) (et ot : string) (st : state) (k : string)
    (s : subscription) (patterns : list string) :
  valid event = true ->
  redisClient st = None \/ redis_up io_ = true ->
  NoDup (map fst (subscribers st)) ->
  string_patterns (subscribers st) ->
  get event "eventType" = Str et ->
  get event "objectType" = Str ot ->
  ascii_text ot = true ->
  map_get k (subscribers st) = Some s ->
  events s = Arr (map Str patterns) ->
  count_occ string_dec (attempted event st) k
  = (if active s && existsb (accepts et ot) patterns then 1 else 0)%nat
  /\ map_get k (subscribers (snd (webhook io_ event st)))
     = Some (if active s && existsb (accepts et ot) patterns
             then snd (notifySubscriber s event (post io_ k) (now io_))
             else s)
  /\ (active s = true -> In "*" patterns ->
        count_occ string_dec (attempted event st) k = 1%nat
        /\ map_get k (subscribers (snd (webhook io_ event st)))
           = Some (snd (notifySubscriber s event (post io_ k) (now io_)))).
Proof.
  intros Hv Hredis Hnd Htyped Het Hot _ Hget Hp.
  pose proof (select_on_strings event et ot _ Het Hot Htyped) as Hnothrow.
  assert (Hsel : selected event (k, s) = active s && existsb (accepts et ot) patterns).
  { unfold selected. cbn [snd].
    rewrite (eventMatch_on_strings s event et ot patterns Het Hot Hp).
    now destruct (existsb (accepts et ot) patterns). }
  assert (Hatt : attempted event st = map fst (filter (selected event) (subscribers st))).
  { unfold attempted. f_equal. now apply select_filter. }
  assert (Hcount : count_occ string_dec (attempted event st) k
                   = (if active s && existsb (accepts et ot) patterns then 1 else 0)%nat).
  { rewrite <- Hsel. destruct (selected event (k, s)) eqn:Hks.
    - apply NoDup_count_occ'.
      + unfold attempted. now apply select_keys_NoDup.
      + rewrite Hatt. change k with (fst (k, s)). apply in_map.
        apply filter_In. split; [now apply map_get_In|exact Hks].
    - apply count_occ_not_In. rewrite Hatt. intros Hin.
      apply in_map_iff in Hin as [[k' s'] [Hfst Hin]]. cbn in Hfst. subst k'.
      apply filter_In in Hin as [Hm Hs'].
      rewrite (In_map_get k s' _ Hnd Hm) in Hget. injection Hget as ->.
      congruence. }
  assert (Hstate : map_get k (subscribers (snd (webhook io_ event st)))
                   = Some (if active s && existsb (accepts et ot) patterns
                           then snd (notifySubscriber s event (post io_ k) (now io_))
                           else s)).
  { destruct (store_event_ok io_ event st Hredis) as [rc Hstore].
    rewrite (webhook_unfold io_ event st rc Hv Hstore Hnothrow).
    cbn [snd subscribers].
    rewrite map_get_write_back, Hget. cbn [option_map].
    rewrite settled_get_settle, (map_get_select event _ k s Hnd Hget).
    fold (attempted event st).
    destruct (in_dec string_dec k (attempted event st)) as [Hin|Hnotin]; cbn [option_map].
    - apply (count_occ_In string_dec) in Hin. rewrite Hcount in Hin.
      destruct (active s && existsb (accepts et ot) patterns); [reflexivity|lia].
    - apply (count_occ_not_In string_dec) in Hnotin. rewrite Hcount in Hnotin.
      destruct (active s && existsb (accepts et ot) patterns); [discriminate|reflexivity]. }
  split; [exact Hcount|]. split; [exact Hstate|].
  intros Hact Hstar. rewrite Hcount, Hstate, Hact. cbn [andb].
  replace (existsb (accepts et ot) patterns) with true; [now split|].
  symmetry. apply existsb_exists. exists "*". split; [exact Hstar|reflexivity].
Qed.

Lemma every_match_is_attempted_exactly_once_witness :
  count_occ string_dec (attempted Sample.company_change Sample.three_subscribers) "s1"
  = 1%nat
  /\ map_get "s1" (subscribers (snd (webhook (Sample.all_up "u1") Sample.company_change
                                      Sample.three_subscribers)))
     = Some (snd (notifySubscriber (Sample.subscription_for "s1" ["*"] 0)
                    Sample.company_change (post (Sample.all_up "u1") "s1")
                    (now (Sample.all_up "u1")))).
Proof.
  refine (proj2 (proj2 (every_match_is_attempted_exactly_once (Sample.all_up "u1")
                   Sample.company_change
                   "company.propertyChange" "company" Sample.three_subscribers "s1"
                   (Sample.subscription_for "s1" ["*"] 0) ["*"]
                   eq_refl (or_intror eq_refl) _ _ eq_refl eq_refl eq_refl
                   eq_refl eq_refl)) eq_refl _).
  - cbn. repeat constructor; cbn; intuition discriminate.
  - unfold string_patterns. cbn.
    apply Forall_cons; [now exists ["*"]|].
    apply Forall_cons; [now exists ["company"]|].
    apply Forall_cons; [now exists ["company.propertyChange"]|].
    apply Forall_nil.
  - now left.
Defined.

(** The loop stops with an exception as soon as it meets a poisoned entry,
    if not before. *)
Lemma select_poisoned (event : value) (m : registry) :
  poisoned event m -> exists e, snd (select event m) = Some e.
Proof.
  intros (k & s & e & Hin & Hact & Hthrow).
  induction m as [|[k' s'] m IH]; [destruct Hin|].
  cbn [select].
  destruct Hin as [Heq|Hin].
  - injection Heq as -> ->. rewrite Hact, Hthrow. cbn. now exists e.
  - specialize (IH Hin). destruct (active s'); cbn [negb]; [|exact IH].
    destruct (eventMatch s' event) as [[|]|e'].
    + destruct (select event m) as [ns thrown]. exact IH.
    + exact IH.
    + now exists e'.
Qed.

Lemma In_map_set_same (k : string) (s : subscription) (m : registry) :
  In (k, s) (map_set k s m).
Proof. apply map_get_In, map_get_set_same. Qed.

(** X5: a registration is accepted whatever its patterns are, and a pattern
    that is not a string can make the comparison throw.  While an active
    subscription with such a pattern list is registered, every publication
    of a valid event ends with a rejected handler instead of an answer; the
    registration of a list that starts with [null] is one that does this for
    every valid event. *)
Theorem malformed_pattern_rejects_publication
    (io1 io2 : io) (body : value) (rest : list value) (event : value) (st : state) :
  valid event = true ->
  (poisoned event (subscribers st) -> exists e, fst (webhook io2 event st) = Rejected e)
  /\ (truthy (get body "url") = true ->
      get body "events" = Arr (Null :: rest) ->
      poisoned event (subscribers (snd (post_subscriptions io1 body st)))
      /\ exists e, fst (webhook io2 event (snd (post_subscriptions io1 body st)))
                   = Rejected e).
Proof.
  intros Hv.
  assert (Hrej : forall st', poisoned event (subscribers st') ->
                             exists e, fst (webhook io2 event st') = Rejected e).
  { intros st' Hp. apply select_poisoned in Hp as [e He].
    unfold webhook, valid in *.
    apply andb_true_iff in Hv as [Hv H3]. apply andb_true_iff in Hv as [H1 H2].
    rewrite H1, H2, H3. cbn [negb orb].
    destruct (store_event io2 event (redisClient st')) as [rc|e']; [|now exists e'].
    destruct (select event (subscribers st')) as [ns thrown]. cbn [snd] in He.
    subst thrown. now exists e. }
  split; [apply Hrej|].
  intros Hurl Hev.
  assert (Hp : poisoned event (subscribers (snd (post_subscriptions io1 body st)))).
  { exists (randomUUID io1), (new_subscription io1 body), TypeError.
    split; [|split; [reflexivity|]].
    - unfold post_subscriptions. rewrite Hurl, Hev. cbn [truthy isArray negb orb].
      destruct (redisClient st); [destruct (redis_up io1)|];
        cbn [snd subscribers]; apply In_map_set_same.
    - unfold eventMatch, new_subscription. cbn [events]. rewrite Hev.
      cbn [array_some some]. unfold subscribed. cbn [strict_eq].
      unfold valid in Hv. apply andb_true_iff in Hv as [Hv _].
      apply andb_true_iff in Hv as [H1 _].
      destruct (get event "eventType"); try discriminate H1;
        cbn [strict_eq]; destruct (get event "objectType"); reflexivity. }
  split; [exact Hp|now apply Hrej].
Qed.

Lemma malformed_pattern_rejects_publication_witness :
  exists e,
    fst (webhook (Sample.all_up "u2") Sample.company_change
           (snd (post_subscriptions (Sample.all_up "u1")
                   (Obj [("url", Str "http://other/hook"); ("events", Arr [Null])])
                   Sample.three_subscribers)))
    = Rejected e.
Proof.
  exact (proj2 (proj2 (malformed_pattern_rejects_publication
                         (Sample.all_up "u1") (Sample.all_up "u2")
                         (Obj [("url", Str "http://other/hook"); ("events", Arr [Null])])
                         [] Sample.company_change Sample.three_subscribers eq_refl)
                      eq_refl eq_refl)).
Defined.

(** ** What the handlers do to a subscription *)

Lemma evolves_refl (s : subscription) : evolves s s.
Proof. unfold evolves. repeat split; try reflexivity; try lia. auto. Qed.

Lemma evolves_trans (s1 s2 s3 : subscription) :
  evolves s1 s2 -> evolves s2 s3 -> evolves s1 s3.
Proof.
  unfold evolves.
  intros (A1 & A2 & A3 & A4 & A5 & A6 & A7 & A8) (B1 & B2 & B3 & B4 & B5 & B6 & B7 & B8).
  repeat split; try congruence; try lia. auto.
Qed.

Lemma notifySubscriber_evolves (s : subscription) (event : value)
    (r : post_outcome) (clock : string) :
  evolves s (snd (notifySubscriber s event r clock)).
Proof.
  unfold evolves, notifySubscriber.
  destruct (delivered s r); cbn; repeat split; try lia; auto.
  destruct (10 <? errorCount s + 1); [discriminate|auto].
Qed.

Lemma webhook_evolves (io_ : io) (event : value) (st : state)
    (k : string) (s s' : subscription) :
  NoDup (map fst (subscribers st)) ->
  map_get k (subscribers st) = Some s ->
  map_get k (subscribers (snd (webhook io_ event st))) = Some s' ->
  evolves s s'.
Proof.
  intros Hnd Hget.
  destruct (webhook_subscribers io_ event st) as [-> | ->].
  - rewrite Hget. intros [= <-]. apply evolves_refl.
  - rewrite map_get_write_back, Hget, settled_get_settle.
    rewrite (map_get_select event _ k s Hnd Hget). cbn [option_map].
    destruct (in_dec string_dec k _); cbn [option_map]; intros [= <-].
    + apply notifySubscriber_evolves.
    + apply evolves_refl.
Qed.

Lemma webhook_absent (io_ : io) (event : value) (st : state) (k : string) :
  map_get k (subscribers st) = None ->
  map_get k (subscribers (snd (webhook io_ event st))) = None.
Proof.
  intros Hget. destruct (webhook_subscribers io_ event st) as [-> | ->]; [exact Hget|].
  now rewrite map_get_write_back, Hget.
Qed.

Lemma handle_evolves (io_ : io) (req : request) (st : state)
    (k : string) (s s' : subscription) :
  NoDup (map fst (subscribers st)) ->
  never_draws k [(io_, req)] ->
  map_get k (subscribers st) = Some s ->
  map_get k (subscribers (snd (handle io_ req st))) = Some s' ->
  evolves s s'.
Proof.
  intros Hnd Hfresh Hget.
  destruct req as [body|k'|event|eventId rounds]; cbn [handle].
  - destruct (post_subscriptions_subscribers io_ body st) as [-> | ->].
    + rewrite Hget. intros [= <-]. apply evolves_refl.
    + inversion Hfresh as [|? ? Hne _]; subst. cbn in Hne.
      rewrite map_get_set_other by congruence.
      rewrite Hget. intros [= <-]. apply evolves_refl.
  - destruct (delete_subscription_subscribers io_ k' st) as [-> | ->].
    + rewrite Hget. intros [= <-]. apply evolves_refl.
    + destruct (string_dec k k') as [<-|Hne].
      * now rewrite map_get_delete_same.
      * rewrite map_get_delete_other by exact Hne.
        rewrite Hget. intros [= <-]. apply evolves_refl.
  - now apply webhook_evolves.
  - rewrite replay_state, Hget. intros [= <-]. apply evolves_refl.
Qed.

(** A key that is not registered stays so unless a registration draws it. *)
Lemma handle_absent (io_ : io) (req : request) (st : state) (k : string) :
  never_draws k [(io_, req)] ->
  map_get k (subscribers st) = None ->
  map_get k (subscribers (snd (handle io_ req st))) = None.
Proof.
  intros Hfresh Hget.
  destruct req as [body|k'|event|eventId rounds]; cbn [handle].
  - destruct (post_subscriptions_subscribers io_ body st) as [-> | ->]; [exact Hget|].
    inversion Hfresh as [|? ? Hne _]; subst. cbn in Hne.
    now rewrite map_get_set_other by congruence.
  - unfold delete_subscription, map_has.
    destruct (map_get k' (subscribers st)) eqn:Hk'; [|exact Hget].
    assert (Hne : k <> k') by congruence.
    destruct (redisClient st); [destruct (redis_up io_)|]; cbn [snd subscribers];
      now rewrite map_get_delete_other.
  - now apply webhook_absent.
  - rewrite replay_state. exact Hget.
Qed.

Lemma run_absent (reqs : list (io * request)) (st : state) (k : string) :
  never_draws k reqs ->
  map_get k (subscribers st) = None ->
  map_get k (subscribers (run reqs st)) = None.
Proof.
  revert st. induction reqs as [|[io_ req] reqs IH]; intros st Hfresh Hget;
    cbn [run]; [exact Hget|].
  inversion Hfresh as [|? ? Hhead Htail]; subst.
  apply IH; [exact Htail|]. apply handle_absent; [|exact Hget].
  constructor; [exact Hhead|constructor].
Qed.

(** X6: whatever requests the service handles, a subscription that is still
    registered under its identifier has the [id], [url], patterns, secret
    and creation time it was registered with; its two counters have not gone
    down (a success does not reset the error count), and it is active only
    if it was active all along. *)
Theorem handlers_only_count_and_deactivate
    (reqs : list (io * request)) (st : state) (k : string) (s s' : subscription) :
  well_formed st ->
  never_draws k reqs ->
  map_get k (subscribers st) = Some s ->
  map_get k (subscribers (run reqs st)) = Some s' ->
  evolves s s'.
Proof.
  revert st s. induction reqs as [|[io_ req] reqs IH]; intros st s Hwf Hfresh Hget;
    cbn [run].
  - rewrite Hget. intros [= <-]. apply evolves_refl.
  - inversion Hfresh as [|? ? Hhead Htail]; subst.
    assert (Hone : never_draws k [(io_, req)]) by (constructor; [exact Hhead|constructor]).
    destruct (map_get k (subscribers (snd (handle io_ req st)))) as [s1|] eqn:H1.
    + intros Hend. apply (evolves_trans s s1 s').
      * exact (handle_evolves io_ req st k s s1 (proj1 Hwf) Hone Hget H1).
      * exact (IH _ s1 (handle_well_formed io_ req st Hwf) Htail H1 Hend).
    + rewrite (run_absent reqs _ k Htail H1). discriminate.
Qed.

Lemma handlers_only_count_and_deactivate_witness :
  evolves (Sample.subscription_for "s2" ["company"] 0)
          {| id := "s2"; url := Str "http://subscriber/hook";
             events := Arr [Str "company"]; secret := Undefined; active := true;
             createdAt := "2025-01-01T00:00:00Z"; lastNotified := Some "1735689600000";
             successCount := 1; errorCount := 0 |}.
Proof.
  apply (handlers_only_count_and_deactivate Sample.busy_run Sample.three_subscribers "s2").
  - split.
    + cbn. repeat constructor; cbn; intuition discriminate.
    + repeat constructor; unfold tracked; cbn; discriminate.
  - unfold never_draws, Sample.busy_run. repeat constructor; cbn; discriminate.
  - reflexivity.
  - reflexivity.
Defined.

(** ** What Redis keeps of a subscription *)








(** The subscription that eleven failures switched off is active again,
    with no failure on its count, after a restart. *)
Example restart_reactivates :
  option_map (fun s => (errorCount s, active s))
             (map_get "s1" (subscribers (run (Sample.failures 11) (Sample.with_redis []))))
  = Some (11, false)
  /\ option_map (fun s => (errorCount s, active s))
                (map_get "s1" (subscribers
                                 (restart (run (Sample.failures 11) (Sample.with_redis [])))))
     = Some (0, true).
Proof. split; vm_compute; reflexivity. Qed.

(** ** The record of events *)

Lemma kv_get_set_same (k : string) (v : value) (kv : list (string * value)) :
  kv_get k (kv_set k v kv) = Some v.
Proof.
  induction kv as [|[k' v'] kv IH]; cbn.
  - now rewrite String.eqb_refl.
  - destruct (k =? k')%string eqn:E; cbn; rewrite ?String.eqb_refl, ?E; auto.
Qed.

Lemma kv_get_set_other (k k' : string) (v : value) (kv : list (string * value)) :
  k <> k' -> kv_get k (kv_set k' v kv) = kv_get k kv.
Proof.
  intros Hne. induction kv as [|[k2 v2] kv IH]; cbn.
  - apply String.eqb_neq in Hne. now rewrite Hne.
  - destruct (k' =? k2)%string eqn:E; cbn.
    + apply String.eqb_eq in E. subst k2.
      apply String.eqb_neq in Hne. now rewrite Hne.
    + now rewrite IH.
Qed.

Lemma kv_get_expired (k k' : string) (kv : list (string * value)) :
  kv_get k (filter (fun e => negb (fst e =? k')%string) kv)
  = if (k =? k')%string then None else kv_get k kv.
Proof.
  induction kv as [|[k2 v2] kv IH]; cbn; [now destruct (k =? k')%string|].
  destruct (k2 =? k')%string eqn:E2; cbn.
  - rewrite IH. apply String.eqb_eq in E2. subst k2.
    now destruct (k =? k')%string.
  - rewrite IH. destruct (k =? k2)%string eqn:E; [|reflexivity].
    apply String.eqb_eq in E. subst k2. now rewrite E2.
Qed.

(** X8: with Redis up, a publication of a valid event stores the event under
    its key, where it can be read back unchanged, leaves every other recorded
    event and the subscription hash as they were, and puts the key at the
    head of the processing queue; the expiry of that key removes this event
    and no other. *)
Theorem publication_is_recorded_under_its_key
    (io_ : io) (event : value) (st : state) (r : redis) :
  valid event = true ->
  redisClient st = Some r ->
  redis_up io_ = true ->
  exists r',
    redisClient (snd (webhook io_ event st)) = Some r'
    /\ kv_get (eventKey io_) (recorded r') = Some event
    /\ (forall k, k <> eventKey io_ -> kv_get k (recorded r') = kv_get k (recorded r))
    /\ processing_queue r' = eventKey io_ :: processing_queue r
    /\ subscriptions_hash r' = subscriptions_hash r
    /\ kv_get (eventKey io_) (recorded (expire (eventKey io_) r')) = None
    /\ (forall k, k <> eventKey io_ ->
          kv_get k (recorded (expire (eventKey io_) r')) = kv_get k (recorded r)).
Proof.
  intros Hv Hr Hup. eexists. split.
  - apply webhook_redis; [exact Hv|]. unfold store_event. rewrite Hr, Hup. reflexivity.
  - cbn [recorded processing_queue subscriptions_hash expire].
    split; [apply kv_get_set_same|].
    split; [intros k Hne; now apply kv_get_set_other|].
    split; [reflexivity|]. split; [reflexivity|].
    split.
    + rewrite kv_get_expired. now rewrite String.eqb_refl.
    + intros k Hne. rewrite kv_get_expired.
      apply String.eqb_neq in Hne. rewrite Hne.
      apply kv_get_set_other. now apply String.eqb_neq.
Qed.

Lemma publication_is_recorded_under_its_key_witness :
  exists r',
    redisClient (snd (webhook (Sample.all_up "u1") Sample.company_change
                        Sample.three_subscribers)) = Some r'
    /\ kv_get (eventKey (Sample.all_up "u1")) (recorded r') = Some Sample.company_change.
Proof.
  destruct (publication_is_recorded_under_its_key (Sample.all_up "u1")
              Sample.company_change Sample.three_subscribers Sample.empty_redis
              eq_refl eq_refl eq_refl) as (r' & Hr' & Hget & _).
  exists r'. split; [exact Hr'|exact Hget].
Defined.

(** ** The key of the signature *)

(** X9: the secret of a registration is stored as it comes.  Absent or
    falsy, the deliveries are signed with the key [default]; a non-empty
    string is the key itself; any other value is accepted all the same, but
    no delivery to that subscription can be signed, so every attempt fails,
    whatever its endpoint would answer, and counts as a failure. *)
Theorem secret_decides_whether_deliveries_can_be_signed (io_ : io) (body : value) :
  (truthy (get body "secret") = false ->
     signing_key (new_subscription io_ body) = Ok "default")
  /\ (forall key, get body "secret" = Str key -> key <> "" ->
        signing_key (new_subscription io_ body) = Ok key)
  /\ (truthy (get body "secret") = true ->
      (forall key, get body "secret" <> Str key) ->
      signing_key (new_subscription io_ body) = Throw TypeError
      /\ forall event r clock,
           fst (notifySubscriber (new_subscription io_ body) event r clock) = Failed
           /\ errorCount (snd (notifySubscriber (new_subscription io_ body) event r clock))
              = 1).
Proof.
  unfold signing_key, new_subscription, or_else. cbn [secret].
  split; [|split].
  - intros H. now rewrite H.
  - intros key Hs Hne. rewrite Hs. cbn [truthy].
    apply String.eqb_neq in Hne. now rewrite Hne.
  - intros Ht Hns. rewrite Ht.
    assert (Hkey : match get body "secret" with
                   | Str key => Ok key
                   | _ => Throw TypeError
                   end = Throw TypeError).
    { destruct (get body "secret"); try reflexivity. now destruct (Hns s). }
    split; [exact Hkey|].
    intros event r clock. unfold notifySubscriber, delivered, signing_key, or_else.
    cbn [secret]. rewrite Ht, Hkey. cbn. split; reflexivity.
Qed.

Lemma secret_decides_whether_deliveries_can_be_signed_witness :
  signing_key (new_subscription (Sample.all_up "u1")
                 (Obj [("url", Str "http://other/hook"); ("events", Arr [Str "*"]);
                       ("secret", Num 123)]))
  = Throw TypeError.
Proof.
  refine (proj1 (proj2 (proj2 (secret_decides_whether_deliveries_can_be_signed
                                 (Sample.all_up "u1")
                                 (Obj [("url", Str "http://other/hook");
                                       ("events", Arr [Str "*"]);
                                       ("secret", Num 123)]))) eq_refl _)).
  intros key. discriminate.
Defined.

End RegistryProperties.

(** * Health tracking and restarts *)

Module HealthProperties.

Import Broker Registry BrokerProperties RegistryProperties.





End HealthProperties.

(** * More properties of the consumer *)

Module WorkerProperties.

Import Sync Trace.

Section Worker.

Variable convert : value -> value -> result value.

(** What a fetch gives, whatever the CRM answers. *)
Lemma fetchObjectFromHubSpot_cases (objectType objectId : value) (crm : http_reply) :
  exists eff,
    fetchObjectFromHubSpot objectType objectId crm
    = (if crm_fails crm
       then Throw (HttpError (match crm with Reply st _ => Some st | NoReply => None end))
       else Ok (fetched crm),
       HubSpotGet objectType objectId :: eff)
    /\ calls eff = [] /\ sync_errors "process_object" eff = 0%nat
    /\ forall x, In x eff -> exists m, x = LogWarn m.
Proof.
  unfold fetchObjectFromHubSpot. destruct crm as [st d|]; cbn.
  - destruct (ok_status st); cbn.
    + exists []. repeat split. intros x [].
    + destruct (st =? 404); cbn.
      * eexists. split; [reflexivity|]. repeat split.
        intros x [<-|[]]. now eexists.
      * exists []. repeat split. intros x [].
  - exists []. repeat split. intros x [].
Qed.

(** X10: a job makes at most one request to the CRM and at most one to the
    sink, the first before the second; the CRM is asked exactly when the
    event is a creation or carries no properties, always for the type and id
    of the job's own object, and what is posted is one record, the mapping
    of one object, under the job's object type. *)
Theorem job_makes_at_most_one_get_then_one_post (j : job) (crm sink : http_reply) :
  (exists tail,
     calls (snd (processObjectSync convert j crm sink))
     = ((match fetch_needed (data j) with Ok true => [Get] | _ => [] end) ++ tail)%list
     /\ (tail = [] \/ tail = [Post]))
  /\ (forall t i, In (HubSpotGet t i) (snd (processObjectSync convert j crm sink)) ->
        t = objectType (data j) /\ i = objectId (data j))
  /\ (forall t dd, In (DataboxPost t dd) (snd (processObjectSync convert j crm sink)) ->
        t = objectType (data j)
        /\ exists obj record, convert (objectType (data j)) obj = Ok record
                              /\ dd = [record]).
Proof.
  unfold processObjectSync, sendObjectToDatabox, sendToDatabox, fetchObjectFromHubSpot.
  destruct (fetch_needed (data j)) as [[|]|e]; cbn.
  - destruct crm as [st obj|]; cbn;
      [destruct (ok_status st); cbn;
         [destruct (truthy obj); cbn;
            [destruct (convert (objectType (data j)) obj) as [record|e] eqn:Hconv; cbn;
               [destruct sink as [st' d'|]; [destruct (ok_status st')|]; cbn|]|]
         |destruct (st =? 404); cbn]|];
      (split; [eexists; split; [reflexivity|auto]|]);
      (split; [intros t i Hin; members Hin; injection Hin as <- <-; auto|]);
      intros t dd Hin; members Hin;
      injection Hin as <- <-; (split; [reflexivity|]); exists obj, record; auto.
  - destruct (convert _ _) as [record|e] eqn:Hconv; cbn;
      [destruct sink as [st' d'|]; [destruct (ok_status st')|]; cbn|];
      (split; [eexists; split; [reflexivity|auto]|]);
      (split; [intros t i Hin; members Hin|]);
      intros t dd Hin; members Hin;
      injection Hin as <- <-; (split; [reflexivity|]); eexists; exists record; eauto.
  - split; [exists []; auto|].
    split; [intros t i Hin; members Hin|intros t dd Hin; members Hin].
Qed.

(** X11: the error counter is raised once for a job that throws and not at
    all for one that ends well; an attempt that fails is never lost to the
    metric, and a benign end (a deleted object) is not counted as an
    error. *)
Theorem failures_are_counted_once (j : job) (crm sink : http_reply) :
  sync_errors "process_object" (snd (processObjectSync convert j crm sink))
  = match fst (processObjectSync convert j crm sink) with
    | Ok _ => 0%nat
    | Throw _ => 1%nat
    end.
Proof.
  unfold processObjectSync, sendObjectToDatabox, sendToDatabox, fetchObjectFromHubSpot.
  destruct (fetch_needed (data j)) as [[|]|e]; cbn; [| |reflexivity].
  - destruct crm as [st obj|]; cbn; [|reflexivity].
    destruct (ok_status st); cbn; [|destruct (st =? 404); reflexivity].
    destruct (truthy obj); cbn; [|reflexivity].
    destruct (convert _ _); cbn; [|reflexivity].
    destruct sink as [st' d'|]; [destruct (ok_status st')|]; reflexivity.
  - destruct (convert _ _); cbn; [|reflexivity].
    destruct sink as [st' d'|]; [destruct (ok_status st')|]; reflexivity.
Qed.

(** X12: once a record is posted, the job ends well exactly when the sink
    answers with a 2xx status: every other answer of the sink, 401 and the
    other 4xx included, or none, is thrown, so the queue retries the job.
    If the CRM is asked and gives neither a 2xx nor a 404, the job throws
    without posting; if it gives a 2xx with an empty (falsy) body, the job
    ends well without posting, as for a 404. *)
Theorem only_a_2xx_from_the_sink_completes_a_push (j : job) (crm sink : http_reply) :
  (In Post (calls (snd (processObjectSync convert j crm sink))) ->
     (fst (processObjectSync convert j crm sink) = Ok tt <-> sink_accepts sink = true))
  /\ (fetch_needed (data j) = Ok true -> crm_fails crm = true ->
        (exists e, fst (processObjectSync convert j crm sink) = Throw e)
        /\ calls (snd (processObjectSync convert j crm sink)) = [Get])
  /\ (fetch_needed (data j) = Ok true -> crm_fails crm = false ->
      truthy (fetched crm) = false ->
        fst (processObjectSync convert j crm sink) = Ok tt
        /\ calls (snd (processObjectSync convert j crm sink)) = [Get]).
Proof.
  unfold processObjectSync, sendObjectToDatabox, sendToDatabox, fetchObjectFromHubSpot.
  split; [|split].
  - destruct (fetch_needed (data j)) as [[|]|e]; cbn.
    + destruct crm as [st obj|]; cbn; [|intuition discriminate].
      destruct (ok_status st); cbn;
        [|destruct (st =? 404); cbn; intuition discriminate].
      destruct (truthy obj); cbn; [|intuition discriminate].
      destruct (convert _ _); cbn; [|intuition discriminate].
      destruct sink as [st' d'|]; [destruct (ok_status st') eqn:Hok|]; cbn;
        rewrite ?Hok; intros _; split; intros H; try discriminate H; reflexivity.
    + destruct (convert _ _); cbn; [|intuition discriminate].
      destruct sink as [st' d'|]; [destruct (ok_status st') eqn:Hok|]; cbn;
        rewrite ?Hok; intros _; split; intros H; try discriminate H; reflexivity.
    + intros [].
  - intros -> Hfail. destruct crm as [st obj|]; cbn in *.
    + destruct (ok_status st); [discriminate|]. cbn in *.
      destruct (st =? 404); [discriminate|]. cbn. split; [eexists|]; reflexivity.
    + split; [eexists|]; reflexivity.
  - intros -> Hfail Hempty. destruct crm as [st obj|]; cbn in *; [|discriminate].
    destruct (ok_status st); cbn in *.
    + rewrite Hempty. cbn. now split.
    + destruct (st =? 404); [|discriminate]. cbn. now split.
Qed.

(** X13: the intake queues an event without looking at its members.  When
    the event type is neither a string nor an array, the job it queues
    throws a [TypeError] on every run, before any request is made. *)
Theorem event_without_type_is_queued_but_never_processed
    (cfg : config) (clock : Z) (req : http_request) (added : list job) :
  has_includes (get (or_else (get (body req) "event") (body req)) "eventType") = false ->
  handleWebhook cfg clock true req added
  = ({| status := 200;
        json := Obj [("message", Str "Webhook received");
                     ("eventId", get (or_else (get (body req) "event") (body req)) "eventId");
                     ("queued", Bool true)] |},
     (added ++ [sync_object_job cfg clock (or_else (get (body req) "event") (body req))])%list)
  /\ forall crm sink,
       processObjectSync convert
         (sync_object_job cfg clock (or_else (get (body req) "event") (body req))) crm sink
       = (Throw TypeError,
          [LogError "Failed to process object";
           ProcessingError "sync_error" "process_object"]).
Proof.
  intros Htype. split; [reflexivity|].
  intros crm sink. unfold processObjectSync, fetch_needed, sync_object_job.
  cbn [data eventType].
  destruct (get (or_else (get (body req) "event") (body req)) "eventType");
    try discriminate Htype; reflexivity.
Qed.

End Worker.

Lemma only_a_2xx_from_the_sink_completes_a_push_witness :
  fst (processObjectSync SyncSample.pass_through
         (sync_object_job SyncSample.defaults 0 SyncSample.renamed)
         NoReply (Reply 401 Null)) = Ok tt
  <-> sink_accepts (Reply 401 Null) = true.
Proof.
  apply (proj1 (only_a_2xx_from_the_sink_completes_a_push SyncSample.pass_through
                  (sync_object_job SyncSample.defaults 0 SyncSample.renamed)
                  NoReply (Reply 401 Null))).
  cbn. now left.
Defined.

Lemma event_without_type_is_queued_but_never_processed_witness :
  processObjectSync SyncSample.pass_through
    (sync_object_job SyncSample.defaults 0 (Obj [("objectId", Str "42")]))
    (Reply 200 SyncSample.stored_company) (Reply 200 Null)
  = (Throw TypeError,
     [LogError "Failed to process object";
      ProcessingError "sync_error" "process_object"]).
Proof.
  exact (proj2 (event_without_type_is_queued_but_never_processed SyncSample.pass_through
                  SyncSample.defaults 0
                  {| headers := []; body := Obj [("objectId", Str "42")] |} []
                  eq_refl)
               (Reply 200 SyncSample.stored_company) (Reply 200 Null)).
Defined.

End WorkerProperties.

(** * Properties of the batch jobs *)

Module BatchProperties.

Import Sync Trace Batch.

Section Worker.

Variable convert : value -> value -> result value.

Lemma gets_app (a b : list effect) : gets (a ++ b) = (gets a + gets b)%nat.
Proof. unfold gets. now rewrite filter_app, length_app. Qed.

Lemma posts_app (a b : list effect) : posts (a ++ b) = (posts a ++ posts b)%list.
Proof. unfold posts. apply flat_map_app. Qed.

Lemma batch_errors_app (a b : list effect) :
  batch_errors (a ++ b) = (batch_errors a + batch_errors b)%nat.
Proof. unfold batch_errors. now rewrite filter_app, length_app. Qed.

Lemma warnings_are_silent (eff : list Sync.effect) :
  (forall x, In x eff -> exists m, x = LogWarn m) ->
  gets (map Single eff) = 0%nat /\ posts (map Single eff) = []
  /\ batch_errors (map Single eff) = 0%nat.
Proof.
  induction eff as [|x eff IH]; intros Hall; [now repeat split|].
  destruct (Hall x (or_introl eq_refl)) as [m ->].
  destruct IH as (Hg & Hp & He); [intros y Hy; apply Hall; now right|].
  unfold gets, posts, batch_errors in *. cbn. now repeat split.
Qed.

(** What the fetches of a batch give: one request for each id, no POST and no
    error counted yet, and either an exception, when one of the requests
    fails, or the object (or [null]) for each id. *)
Lemma fetch_all_cases (objectType : value) (ids : list value)
    (crm : nat -> http_reply) (i : nat) :
  gets (map Single (snd (fetch_all objectType ids crm i))) = List.length ids
  /\ posts (map Single (snd (fetch_all objectType ids crm i))) = []
  /\ batch_errors (map Single (snd (fetch_all objectType ids crm i))) = 0%nat
  /\ if existsb (fun n => crm_fails (crm n)) (seq i (List.length ids))
     then exists e, fst (fetch_all objectType ids crm i) = Throw e
     else fst (fetch_all objectType ids crm i)
          = Ok (map (fun n => fetched (crm n)) (seq i (List.length ids))).
Proof.
  revert i. induction ids as [|id_ ids IH]; intros i; [now repeat split|].
  cbn [fetch_all List.length seq existsb map].
  destruct (WorkerProperties.fetchObjectFromHubSpot_cases objectType id_ (crm i))
    as (eff & Hfetch & _ & _ & Hwarn).
  rewrite Hfetch. specialize (IH (S i)).
  destruct (fetch_all objectType ids crm (S i)) as [rs eff'].
  cbn [fst snd] in *. destruct IH as (Hg & Hp & He & Hr).
  destruct (warnings_are_silent eff Hwarn) as (Hg0 & Hp0 & He0).
  rewrite map_app.
  change (map Single (HubSpotGet objectType id_ :: eff))
    with ([Single (HubSpotGet objectType id_)] ++ map Single eff)%list.
  rewrite !gets_app, !posts_app, !batch_errors_app, Hg, Hp, He, Hg0, Hp0, He0.
  split; [reflexivity|]. split; [reflexivity|]. split; [reflexivity|].
  destruct (crm_fails (crm i)); cbn [orb].
  - eexists. reflexivity.
  - destruct (existsb (fun n => crm_fails (crm n)) (seq (S i) (List.length ids))).
    + destruct Hr as [e ->]. now exists e.
    + now rewrite Hr.
Qed.

Lemma convert_all_length (objectType : value) (objects data : list value) :
  convert_all convert objectType objects = Ok data ->
  List.length data = List.length objects.
Proof.
  revert data. induction objects as [|o objects IH]; intros data; cbn.
  - intros [= <-]. reflexivity.
  - destruct (convert objectType o); cbn; [|discriminate].
    destruct (convert_all convert objectType objects) as [ds|]; cbn; [|discriminate].
    intros [= <-]. cbn. now rewrite (IH ds eq_refl).
Qed.

(** What the POST of a batch gives once the objects are there. *)
Lemma sendBatchToDatabox_cases (objectType : value) (objects : list value)
    (sink : http_reply) :
  gets (snd (sendBatchToDatabox convert objectType objects sink)) = 0%nat
  /\ batch_errors (snd (sendBatchToDatabox convert objectType objects sink)) = 0%nat
  /\ (objects = [] ->
        sendBatchToDatabox convert objectType objects sink = (Ok tt, []))
  /\ (forall e, objects <> [] -> convert_all convert objectType objects = Throw e ->
        sendBatchToDatabox convert objectType objects sink = (Throw e, []))
  /\ (forall data, objects <> [] -> convert_all convert objectType objects = Ok data ->
        posts (snd (sendBatchToDatabox convert objectType objects sink)) = [data]
        /\ (fst (sendBatchToDatabox convert objectType objects sink) = Ok tt
            <-> sink_accepts sink = true)
        /\ (sink_accepts sink = false ->
              exists e, fst (sendBatchToDatabox convert objectType objects sink) = Throw e)).
Proof.
  unfold sendBatchToDatabox. destruct objects as [|o objects'].
  - split; [reflexivity|]. split; [reflexivity|]. split; [reflexivity|].
    split; [intros e H; now destruct H|intros data H; now destruct H].
  - destruct (convert_all convert objectType (o :: objects')) as [data|e].
    + destruct sink as [st d|]; [destruct (ok_status st) eqn:Hok|];
        cbn [fst snd sink_accepts]; rewrite ?Hok;
        (split; [reflexivity|]); (split; [reflexivity|]); (split; [discriminate|]);
        (split; [discriminate|]); intros data' _ [= <-];
        (split; [reflexivity|]); (split; [split; intros H; try discriminate H; auto|]);
        intros H; try discriminate H; eexists; reflexivity.
    + split; [reflexivity|]. split; [reflexivity|]. split; [discriminate|].
      split; [intros e' _ [= <-]; reflexivity|discriminate].
Qed.

Lemma processBatchSync_not_array (objectType objectIds : value)
    (crm : nat -> http_reply) (sink : http_reply) :
  isArray objectIds = false ->
  processBatchSync convert objectType objectIds crm sink
  = (Throw TypeError,
     [Single (LogError "Failed to process batch sync");
      Single (ProcessingError "sync_error" "process_batch")]).
Proof.
  intros Harr. destruct objectIds; try discriminate Harr; reflexivity.
Qed.

Lemma batch_failed_counts (e : error) (eff : list effect) :
  gets (snd (batch_failed e eff)) = gets eff
  /\ posts (snd (batch_failed e eff)) = posts eff
  /\ batch_errors (snd (batch_failed e eff)) = S (batch_errors eff).
Proof.
  unfold batch_failed. cbn [snd].
  rewrite gets_app, posts_app, batch_errors_app.
  unfold gets, posts, batch_errors. cbn. rewrite app_nil_r. repeat split; lia.
Qed.

(** X14: a batch job asks the CRM for every id of its list, whatever the
    answers.  One request that fails (no response, or a status that is
    neither 2xx nor 404) fails the whole batch, with nothing posted.  When
    none fails, the objects that are missing (404) or empty are left out: if
    none is left the job ends well without a POST; otherwise there is one
    POST with one record for each object left, and the job ends well exactly
    when the sink answers 2xx.  An [objectIds] that is not an array is a
    [TypeError].  The error counter is raised once if the job throws, and
    not otherwise. *)
Theorem batch_is_all_or_nothing (objectType : value) (ids : list value)
    (crm : nat -> http_reply) (sink : http_reply) :
  gets (snd (processBatchSync convert objectType (Arr ids) crm sink)) = List.length ids
  /\ batch_errors (snd (processBatchSync convert objectType (Arr ids) crm sink))
     = match fst (processBatchSync convert objectType (Arr ids) crm sink) with
       | Ok _ => 0%nat
       | Throw _ => 1%nat
       end
  /\ (some_fetch_fails crm (List.length ids) = true ->
        posts (snd (processBatchSync convert objectType (Arr ids) crm sink)) = []
        /\ exists e, fst (processBatchSync convert objectType (Arr ids) crm sink) = Throw e)
  /\ (some_fetch_fails crm (List.length ids) = false ->
        (found crm (List.length ids) = [] ->
           fst (processBatchSync convert objectType (Arr ids) crm sink) = Ok tt
           /\ posts (snd (processBatchSync convert objectType (Arr ids) crm sink)) = [])
        /\ (forall data,
              found crm (List.length ids) <> [] ->
              convert_all convert objectType (found crm (List.length ids)) = Ok data ->
              posts (snd (processBatchSync convert objectType (Arr ids) crm sink)) = [data]
              /\ List.length data = List.length (found crm (List.length ids))
              /\ (fst (processBatchSync convert objectType (Arr ids) crm sink) = Ok tt
                  <-> sink_accepts sink = true)))
  /\ (forall objectIds, isArray objectIds = false ->
        processBatchSync convert objectType objectIds crm sink
        = (Throw TypeError,
           [Single (LogError "Failed to process batch sync");
            Single (ProcessingError "sync_error" "process_batch")])).
Proof.
  assert (Hlast := fun objectIds => processBatchSync_not_array objectType objectIds crm sink).
  unfold processBatchSync, some_fetch_fails, found.
  destruct (fetch_all_cases objectType ids crm 0) as (Hg & Hp & He & Hr).
  destruct (fetch_all objectType ids crm 0) as [r eff]. cbn [fst snd] in *.
  destruct (existsb (fun n => crm_fails (crm n)) (seq 0 (List.length ids))).
  - destruct Hr as [e ->].
    destruct (batch_failed_counts e (map Single eff)) as (Hg' & Hp' & He').
    rewrite Hg', Hp', He', Hg, Hp, He. unfold batch_failed at 1 2. cbn [fst].
    split; [reflexivity|]. split; [reflexivity|].
    split; [intros _; split; [reflexivity|now exists e]|].
    split; [discriminate|exact Hlast].
  - subst r.
    set (objects := filter truthy (map (fun n => fetched (crm n)) (seq 0 (List.length ids)))).
    destruct (sendBatchToDatabox_cases objectType objects sink)
      as (Hsg & Hse & Hempty & Hthrow & Hpost).
    destruct (sendBatchToDatabox convert objectType objects sink) as [r' eff'] eqn:Hsend.
    cbn [fst snd] in *.
    assert (Hcounts : gets (map Single eff ++ eff') = List.length ids
                      /\ batch_errors (map Single eff ++ eff') = 0%nat
                      /\ posts (map Single eff ++ eff') = posts eff').
    { rewrite gets_app, batch_errors_app, posts_app, Hg, He, Hp, Hsg, Hse.
      repeat split; lia. }
    destruct Hcounts as (Hg2 & He2 & Hp2).
    destruct r' as [[]|e].
    + cbn [fst snd]. rewrite Hg2, He2, Hp2.
      split; [reflexivity|]. split; [reflexivity|]. split; [discriminate|].
      split; [|exact Hlast]. intros _. split.
      * intros Hnone. specialize (Hempty Hnone). injection Hempty as ->. now split.
      * intros data Hne Hconv. destruct (Hpost data Hne Hconv) as (Hposts & Hiff & _).
        split; [exact Hposts|]. split; [exact (convert_all_length objectType _ _ Hconv)|].
        split; [intros _; now apply Hiff|reflexivity].
    + destruct (batch_failed_counts e (map Single eff ++ eff')) as (Hg' & Hp' & He').
      rewrite Hg', Hp', He', Hg2, He2, Hp2. unfold batch_failed at 1 2. cbn [fst].
      split; [reflexivity|]. split; [reflexivity|]. split; [discriminate|].
      split; [|exact Hlast]. intros _. split.
      * intros Hnone. specialize (Hempty Hnone). discriminate Hempty.
      * intros data Hne Hconv. destruct (Hpost data Hne Hconv) as (Hposts & Hiff & _).
        split; [exact Hposts|]. split; [exact (convert_all_length objectType _ _ Hconv)|].
        split; [discriminate|]. intros Hacc. apply Hiff in Hacc. discriminate Hacc.
Qed.

End Worker.

Lemma batch_is_all_or_nothing_witness :
  posts (snd (processBatchSync SyncSample.pass_through (Str "companies")
                (Arr [Str "1"; Str "2"; Str "3"])
                (fun i => match i with
                          | 1%nat => Reply 404 Null
                          | _ => Reply 200 SyncSample.stored_company
                          end)
                (Reply 200 Null)))
  = [[SyncSample.stored_company; SyncSample.stored_company]].
Proof.
  destruct (batch_is_all_or_nothing SyncSample.pass_through (Str "companies")
              [Str "1"; Str "2"; Str "3"]
              (fun i => match i with
                        | 1%nat => Reply 404 Null
                        | _ => Reply 200 SyncSample.stored_company
                        end)
              (Reply 200 Null)) as (_ & _ & _ & Hok & _).
  destruct (Hok eq_refl) as [_ Hposts].
  exact (proj1 (Hposts [SyncSample.stored_company; SyncSample.stored_company]
                  ltac:(discriminate) eq_refl)).
Defined.

Example one_failed_fetch_fails_the_batch :
  processBatchSync SyncSample.pass_through (Str "companies")
    (Arr [Str "1"; Str "2"])
    (fun i => match i with
              | O => Reply 500 Null
              | _ => Reply 200 SyncSample.stored_company
              end)
    (Reply 200 Null)
  = (Throw (HttpError (Some 500)),
     [Single (HubSpotGet (Str "companies") (Str "1"));
      Single (HubSpotGet (Str "companies") (Str "2"));
      Single (LogError "Failed to process batch sync");
      Single (ProcessingError "sync_error" "process_batch")]).
Proof. reflexivity. Qed.

End BatchProperties.

(** * Properties of the field mapping *)

Module MappingProperties.

Import Sync Trace Mapping.

Lemma strict_eq_Str (v : value) (s : string) :
  strict_eq v (Str s) = true <-> v = Str s.
Proof.
  destruct v; cbn; split; intros H; try discriminate H.
  - apply String.eqb_eq in H. now subst.
  - injection H as ->. apply String.eqb_refl.
Qed.

Section Numbers.

Variable isNaN : value -> bool.
Variable years_since : value -> value.
Variable full_name : value -> value -> string.
Variable clock : string.

(** The mapping of an object whose type is neither [companies] nor
    [contacts]. *)
Lemma mapping_of_other_types (objectType objectData : value) :
  strict_eq objectType (Str "companies") = false ->
  strict_eq objectType (Str "contacts") = false ->
  convertToDataboxFormat isNaN years_since full_name clock objectType objectData
  = if nullish objectData then Throw TypeError
    else Ok (Pipeline.bare objectType clock objectData).
Proof.
  intros Hc Hp. unfold convertToDataboxFormat, member.
  destruct (nullish objectData); cbn; [reflexivity|].
  now rewrite Hc, Hp.
Qed.

(** X15: the mapping throws, a [TypeError], exactly when the object is
    [undefined] or [null], or its type is [companies] or [contacts] and it
    has no [properties].  A record it returns carries the id and the type it
    was given and, as date, the object's [updatedAt] or else the clock.  Its
    metrics (the members whose name starts with a dollar sign) are
    [$companies_updated] exactly for the type [companies],
    [$contacts_updated] exactly for the type [contacts], both with value 1,
    and [$company_age] exactly for a company whose [founded_year] is truthy
    and not [NaN]; for any other type, however spelled, there is none. *)
Theorem mapping_counts_only_companies_and_contacts (objectType objectData : value) :
  (forall e,
     convertToDataboxFormat isNaN years_since full_name clock objectType objectData
     = Throw e -> e = TypeError)
  /\ (convertToDataboxFormat isNaN years_since full_name clock objectType objectData
      = Throw TypeError
      <-> nullish objectData = true
          \/ ((objectType = Str "companies" \/ objectType = Str "contacts")
              /\ nullish (get objectData "properties") = true))
  /\ forall record,
       convertToDataboxFormat isNaN years_since full_name clock objectType objectData
       = Ok record ->
       get record "objectId" = get objectData "id"
       /\ get record "objectType" = objectType
       /\ get record "date" = or_else (get objectData "updatedAt") (Str clock)
       /\ (In "$companies_updated" (metrics record) <-> objectType = Str "companies")
       /\ (In "$contacts_updated" (metrics record) <-> objectType = Str "contacts")
       /\ (In "$company_age" (metrics record)
           <-> objectType = Str "companies"
               /\ truthy (get (get objectData "properties") "founded_year") = true
               /\ isNaN (get (get objectData "properties") "founded_year") = false)
       /\ (forall m, In m (metrics record) ->
             m = "$company_age"
             \/ (m = "$companies_updated" \/ m = "$contacts_updated")
                /\ get record m = Num 1).
Proof.
  unfold convertToDataboxFormat, member.
  destruct (nullish objectData) eqn:Hnull; cbn [bind].
  { split; [now intros e [= <-]|]. split; [split; auto|discriminate]. }
  destruct (strict_eq objectType (Str "companies")) eqn:Hc.
  - apply strict_eq_Str in Hc. subst objectType.
    destruct (nullish (get objectData "properties")) eqn:Hprops; cbn [bind].
    { split; [now intros e [= <-]|]. split; [split; auto|discriminate]. }
    split; [discriminate|].
    split; [split; [discriminate|intros [H|[_ H]]; discriminate H]|].
    intros record [= <-].
    destruct (truthy (get (get objectData "properties") "founded_year"));
      destruct (isNaN (get (get objectData "properties") "founded_year")); cbn;
      splits; settle.
  - assert (Hc' : objectType <> Str "companies")
      by (intros H; apply strict_eq_Str in H; congruence).
    destruct (strict_eq objectType (Str "contacts")) eqn:Hp.
    + apply strict_eq_Str in Hp. subst objectType.
      destruct (nullish (get objectData "properties")) eqn:Hprops; cbn [bind].
      { split; [now intros e [= <-]|]. split; [split; auto|discriminate]. }
      split; [discriminate|].
      split; [split; [discriminate|intros [H|[_ H]]; discriminate H]|].
      intros record [= <-]. cbn. splits; settle.
    + assert (Hp' : objectType <> Str "contacts")
        by (intros H; apply strict_eq_Str in H; congruence).
      split; [discriminate|].
      split; [split; [discriminate|intros [H|[[H|H] _]]; congruence]|].
      intros record [= <-]. cbn. splits; settle.
Qed.

End Numbers.

End MappingProperties.

(** * Properties of the CRM simulator *)

Module SimulatorProperties.

Import Simulator.

Lemma after_requests_count (n : nat) (count : Z) :
  after_requests n count = count + Z.of_nat n.
Proof.
  revert count. induction n as [|n IH]; intros count.
  - cbn. lia.
  - cbn [after_requests]. rewrite IH. unfold dailyRateLimit.
    destruct (DAILY_LIMIT <? count + 1); cbn [fst]; lia.
Qed.

(** X16: the daily limiter counts every request, those it refuses included.
    After [n] requests from a count [count] with no reset between them, the
    next one is let through exactly when [count + n] is below 250000 and is
    answered 429 otherwise; so once a request is refused, every later one is
    refused as well, until the timer resets the count.  After a reset,
    whatever the count was, exactly the next 250000 requests are let
    through. *)
Theorem daily_refusal_lasts_until_the_reset (n later : nat) (count : Z) :
  (snd (dailyRateLimit (after_requests n count)) = None
   <-> count + Z.of_nat n < DAILY_LIMIT)
  /\ (DAILY_LIMIT <= count + Z.of_nat n ->
        snd (dailyRateLimit (after_requests n count))
        = Some (Sync.Reply 429 rate_limited))
  /\ (snd (dailyRateLimit (after_requests n count)) <> None ->
        snd (dailyRateLimit (after_requests (n + later) count))
        = Some (Sync.Reply 429 rate_limited))
  /\ (snd (dailyRateLimit (after_requests n (reset_daily count))) = None
      <-> Z.of_nat n < DAILY_LIMIT).
Proof.
  rewrite !after_requests_count. unfold dailyRateLimit, reset_daily.
  destruct (Z.ltb_spec DAILY_LIMIT (count + Z.of_nat n + 1)) as [Hn|Hn];
    destruct (Z.ltb_spec DAILY_LIMIT (count + Z.of_nat (n + later) + 1)) as [Hl|Hl];
    destruct (Z.ltb_spec DAILY_LIMIT (0 + Z.of_nat n + 1)) as [H0|H0];
    cbn [snd]; splits; intros; try reflexivity; try discriminate; try lia;
    try congruence.
Qed.

End SimulatorProperties.

(** * From the simulator to the sink *)

Module PipelineProperties.

Import Sync Trace Mapping Simulator Subscribe Pipeline.

(** An upper-cased text does not start with a small letter. *)
Lemma upper_not_small (s t : string) : upper s <> String "c" t.
Proof.
  destruct s as [|a s]; cbn; [discriminate|].
  intros H. injection H as H _. revert H.
  destruct a as [[] [] [] [] [] [] [] []]; vm_compute; discriminate.
Qed.

Lemma upper_empty (s : string) : (upper s =? "")%string = (s =? "")%string.
Proof. now destruct s. Qed.

Lemma truthy_not_nullish (v : value) : truthy v = true -> nullish v = false.
Proof. now destruct v. Qed.

(** The consumer's first pattern starts with [company]. *)
Lemma first_pattern_accepts (event : value) :
  get event "objectType" = Str "COMPANY" ->
  Broker.subscribed event (Str "company.propertyChange") = Ok true.
Proof.
  intros Htype. unfold Broker.subscribed.
  destruct (strict_eq (Str "company.propertyChange") (Str "*")); [reflexivity|].
  destruct (strict_eq (Str "company.propertyChange") (get event "eventType"));
    [reflexivity|].
  now rewrite Htype.
Qed.

Section Numbers.

Variable isNaN : value -> bool.
Variable years_since : value -> value.
Variable full_name : value -> value -> string.
Variable clock : string.

(** X17: what becomes of a notification of the simulator.  The simulator
    sends the object type in capitals.  The broker takes the event as valid
    when its event type, object type and id are not empty; for the type
    [company] that the simulator's handlers pass, the subscription the
    consumer registers matches it whatever the event type.  The consumer
    queues one job for the delivery, with the members of the event.  Every
    request of that job is for the type in capitals, which is never the
    [companies] or [contacts] the mapping looks for: a record that reaches
    the sink has a date, an id and a type, and no metric. *)
Theorem simulator_events_carry_no_metrics
    (WEBHOOK_URL uuid : string) (occurred : Z) (eventType objectType : string)
    (objectId properties event : value)
    (io_ : Broker.io) (webhookSecret : string)
    (cfg : config) (now_ : Z) (subscriptionId : string) (timestamp : Z)
    (hs : list (string * string)) (added : list job) :
  sendWebhookNotification WEBHOOK_URL uuid occurred eventType objectType
    objectId properties = Some event ->
  Broker.valid event
  = negb (eventType =? "")%string && negb (objectType =? "")%string && truthy objectId
  /\ (objectType = "company" ->
        Broker.matches (Broker.new_subscription io_ (subscriptionPayload webhookSecret))
          event = Ok true)
  /\ handleWebhook cfg now_ true
       {| headers := hs; body := delivery subscriptionId event timestamp |} added
     = ({| status := 200;
           json := Obj [("message", Str "Webhook received");
                        ("eventId", Str uuid);
                        ("queued", Bool true)] |},
        (added ++ [sync_object_job cfg now_ event])%list)
  /\ data (sync_object_job cfg now_ event)
     = {| eventType := Str eventType;
          objectType := Str (upper objectType);
          objectId := objectId;
          properties := properties;
          occurredAt := or_else (Num occurred) (Num now_) |}
  /\ forall crm sink x,
       In x (snd (processObjectSync
                    (convertToDataboxFormat isNaN years_since full_name clock)
                    (sync_object_job cfg now_ event) crm sink)) ->
       concerns (Str (upper objectType)) objectId clock x.
Proof.
  unfold sendWebhookNotification.
  destruct (WEBHOOK_URL =? "")%string; [discriminate|]. intros [= <-].
  split; [unfold Broker.valid; cbn; now rewrite upper_empty|].
  split.
  { intros ->. unfold Broker.matches, Broker.eventMatch.
    change (Broker.active (Broker.new_subscription io_ (subscriptionPayload webhookSecret)))
      with true.
    change (Broker.events (Broker.new_subscription io_ (subscriptionPayload webhookSecret)))
      with (Arr [Str "company.propertyChange"; Str "company.creation";
                 Str "contact.*"; Str "deal.*"]).
    cbn [negb Broker.array_some Broker.some].
    now rewrite first_pattern_accepts. }
  split; [reflexivity|]. split; [reflexivity|].
  intros crm sink x.
  assert (Hconv : forall o, truthy o = true ->
            convertToDataboxFormat isNaN years_since full_name clock
              (Str (upper objectType)) o
            = Ok (bare (Str (upper objectType)) clock o)).
  { intros o Ho.
    rewrite MappingProperties.mapping_of_other_types.
    - now rewrite (truthy_not_nullish o Ho).
    - cbn. apply String.eqb_neq, upper_not_small.
    - cbn. apply String.eqb_neq, upper_not_small. }
  unfold processObjectSync, sendObjectToDatabox, sendToDatabox, fetchObjectFromHubSpot,
    fetch_needed, sync_object_job.
  cbn [data Sync.eventType Sync.objectType Sync.objectId Sync.properties includes bind get lookup
       String.eqb Ascii.eqb Bool.eqb].
  destruct (occurs "creation" eventType || negb (truthy properties)).
  - destruct crm as [st obj|]; cbn;
      [destruct (ok_status st); cbn;
         [destruct (truthy obj) eqn:Hobj; cbn;
            [rewrite (Hconv obj Hobj); cbn;
             destruct sink as [st' d'|]; [destruct (ok_status st')|]; cbn|]
         |destruct (st =? 404); cbn]|];
      intros Hin; members Hin; subst x; cbn; auto; split; eauto.
  - cbn [bindM ret truthy negb].
    rewrite (Hconv (Obj [("id", objectId); ("properties", properties)]) eq_refl). cbn.
    destruct sink as [st' d'|]; [destruct (ok_status st')|]; cbn;
      intros Hin; members Hin; subst x; cbn; auto; split; eauto.
Qed.

End Numbers.

Lemma simulator_events_carry_no_metrics_witness :
  Broker.matches
    (Broker.new_subscription (Sample.all_up "s1") (subscriptionPayload "webhook-sync-secret"))
    (Obj [("eventId", Str "e9");
          ("subscriptionId", Str "mock-subscription");
          ("portalId", Num 12345);
          ("appId", Num 67890);
          ("occurredAt", Num 1735689600000);
          ("eventType", Str "company.creation");
          ("objectId", Str "42");
          ("propertyName", Null);
          ("propertyValue", Null);
          ("changeSource", Str "CRM");
          ("objectType", Str "COMPANY");
          ("properties", Obj [("name", Str "Acme Ltd")])])
  = Ok true.
Proof.
  exact (proj1 (proj2
    (simulator_events_carry_no_metrics (fun _ => false) (fun v => v) (fun _ _ => "Acme")
       "2025-01-01T00:00:00.000Z"
       "http://webhook-service:3000/webhook" "e9" 1735689600000
       "company.creation" "company" (Str "42") (Obj [("name", Str "Acme Ltd")]) _
       (Sample.all_up "s1") "webhook-sync-secret" SyncSample.defaults 0 "s1" 0 [] []
       eq_refl)) eq_refl).
Defined.

End PipelineProperties.

(** * The counters of the broker *)

Module CounterProperties.

Import Broker Registry BrokerProperties.

Lemma among_In (keys : list string) (e : string * subscription) :
  among keys e = true <-> In (fst e) keys.
Proof.
  unfold among. rewrite existsb_exists. split.
  - intros [k [Hin Heq]]. apply String.eqb_eq in Heq. now subst.
  - intros Hin. exists (fst e). split; [exact Hin|apply String.eqb_refl].
Qed.

Lemma total_cons (f : subscription -> Z) (e : string * subscription) (m : registry) :
  total f (e :: m) = f (snd e) + total f m.
Proof. reflexivity. Qed.

(** The attempts of a publication are the entries of the registry that
    carry one of the attempted keys. *)
Lemma select_among (event : value) (m : registry) :
  NoDup (map fst m) ->
  filter (among (map fst (fst (select event m)))) m = fst (select event m).
Proof.
  induction m as [|[k s] m IH]; intros Hnd; [reflexivity|].
  inversion Hnd as [|? ? Hnotin Hnd']; subst.
  assert (Hskip : among (map fst (fst (select event m))) (k, s) = false).
  { destruct (among (map fst (fst (select event m))) (k, s)) eqn:E; [|reflexivity].
    apply among_In in E. cbn [fst] in E.
    apply in_map_iff in E as [[k' s'] [Hk Hin]]. cbn in Hk. subst k'.
    destruct (select_In event m _ Hin) as [Hm _].
    exfalso. apply Hnotin. change k with (fst (k, s')). now apply in_map. }
  cbn [select].
  destruct (active s); cbn [negb];
    [destruct (eventMatch s event) as [[|]|err]|].
  - destruct (select event m) as [ns thrown] eqn:Hsel. cbn [fst map filter] in *.
    unfold among at 1. cbn [fst existsb]. rewrite String.eqb_refl. cbn [orb].
    f_equal. rewrite <- (IH Hnd') at 2.
    apply filter_ext_in. intros [k' s'] Hin. unfold among. cbn [fst existsb].
    destruct (k' =? k)%string eqn:E; [|reflexivity].
    apply String.eqb_eq in E. subst k'.
    exfalso. apply Hnotin. change k with (fst (k, s')). now apply in_map.
  - cbn [filter]. rewrite Hskip. now apply IH.
  - cbn [fst map filter]. unfold among at 1. cbn [existsb].
    clear. induction m as [|e m IH]; [reflexivity|exact IH].
  - cbn [filter]. rewrite Hskip. now apply IH.
Qed.

(** What the attempts write into the registry. *)
Lemma write_back_select (io_ : io) (event : value) (m : registry) :
  NoDup (map fst m) ->
  write_back (settle io_ event (fst (select event m))) m
  = map (fun e => if among (map fst (fst (select event m))) e
                  then (fst e, snd (notifySubscriber (snd e) event (post io_ (fst e))
                                      (now io_)))
                  else e) m.
Proof.
  intros Hnd. unfold write_back. apply map_ext_in. intros [k s] Hin. cbn [fst snd].
  rewrite settled_get_settle.
  rewrite (map_get_select event m k s Hnd (In_map_get k s m Hnd Hin)).
  destruct (in_dec string_dec k (map fst (fst (select event m)))) as [Hk|Hk].
  - now rewrite (proj2 (among_In _ (k, s)) Hk).
  - destruct (among (map fst (fst (select event m))) (k, s)) eqn:E; [|reflexivity].
    apply among_In in E. contradiction.
Qed.

Lemma total_after_attempts (io_ : io) (event : value) (keys : list string) (m : registry) :
  total successCount
    (map (fun e => if among keys e
                   then (fst e, snd (notifySubscriber (snd e) event (post io_ (fst e))
                                       (now io_)))
                   else e) m)
  = total successCount m
    + Z.of_nat (List.length (filter (fun e => delivered (snd e) (post io_ (fst e)))
                               (filter (among keys) m)))
  /\ total errorCount
       (map (fun e => if among keys e
                      then (fst e, snd (notifySubscriber (snd e) event (post io_ (fst e))
                                          (now io_)))
                      else e) m)
     = total errorCount m
       + Z.of_nat (List.length
                     (filter (fun e => negb (delivered (snd e) (post io_ (fst e))))
                        (filter (among keys) m))).
Proof.
  induction m as [|[k s] m [IHs IHe]]; [now split|].
  cbn [map filter]. rewrite !total_cons, IHs, IHe. cbn [fst snd].
  destruct (among keys (k, s)); cbn [fst snd filter]; [|split; lia].
  unfold notifySubscriber.
  destruct (delivered s (post io_ k));
    cbn [snd negb filter List.length successCount errorCount]; split; lia.
Qed.

(** X18: the counters account for every attempt.  A publication of a valid
    event that can be recorded raises, over the whole registry, the success
    counts by the number of attempts that were delivered and the error
    counts by the number that failed, also when a malformed pattern ends the
    handler without an answer; together they rise by the number of attempts.
    When the answer is 200, the rises are the [notificationsSent] and
    [notificationsFailed] it reports. *)
Theorem counters_account_for_every_attempt (io_ : io) (event : value) (st : state) :
  valid event = true ->
  redisClient st = None \/ redis_up io_ = true ->
  NoDup (map fst (subscribers st)) ->
  total successCount (subscribers (snd (webhook io_ event st)))
  + total errorCount (subscribers (snd (webhook io_ event st)))
  = total successCount (subscribers st) + total errorCount (subscribers st)
    + Z.of_nat (List.length (attempted event st))
  /\ forall sent failed,
       fst (webhook io_ event st) = Sent 200 (report event sent failed) ->
       total successCount (subscribers (snd (webhook io_ event st)))
       = total successCount (subscribers st) + Z.of_nat sent
       /\ total errorCount (subscribers (snd (webhook io_ event st)))
          = total errorCount (subscribers st) + Z.of_nat failed.
Proof.
  intros Hv Hredis Hnd.
  destruct (store_event_ok io_ event st Hredis) as [rc Hstore].
  pose proof (write_back_select io_ event (subscribers st) Hnd) as Hwb.
  destruct (total_after_attempts io_ event
              (map fst (fst (select event (subscribers st)))) (subscribers st))
    as [Hs He].
  rewrite (select_among event (subscribers st) Hnd) in Hs, He.
  rewrite <- Hwb in Hs, He.
  pose proof (filter_partition_length
                (fun e => delivered (snd e) (post io_ (fst e)))
                (fst (select event (subscribers st)))) as Hpart.
  pose proof (count_fulfilled io_ event (fst (select event (subscribers st)))) as Hcf.
  pose proof (count_rejected io_ event (fst (select event (subscribers st)))) as Hcr.
  unfold attempted. rewrite length_map.
  unfold webhook, valid in *.
  apply andb_true_iff in Hv as [Hv H3]. apply andb_true_iff in Hv as [H1 H2].
  rewrite H1, H2, H3. cbn [negb orb]. rewrite Hstore.
  destruct (select event (subscribers st)) as [ns [e|]]; cbn [fst snd subscribers] in *.
  - rewrite Hs, He. split; [lia|]. intros sent failed H. discriminate H.
  - rewrite Hs, He. split; [lia|]. intros sent failed H.
    unfold report in H. injection H as Hsent Hfailed.
    rewrite Hcf in Hsent. rewrite Hcr in Hfailed. split; lia.
Qed.

Lemma counters_account_for_every_attempt_witness :
  total successCount
    (subscribers (snd (webhook (Sample.one_down "s2" "u1") Sample.company_change
                         Sample.three_subscribers)))
  + total errorCount
      (subscribers (snd (webhook (Sample.one_down "s2" "u1") Sample.company_change
                           Sample.three_subscribers)))
  = total successCount (subscribers Sample.three_subscribers)
    + total errorCount (subscribers Sample.three_subscribers)
    + Z.of_nat (List.length (attempted Sample.company_change Sample.three_subscribers)).
Proof.
  apply (counters_account_for_every_attempt (Sample.one_down "s2" "u1")
           Sample.company_change Sample.three_subscribers).
  - reflexivity.
  - now right.
  - cbn. repeat constructor; cbn; intuition discriminate.
Defined.

End CounterProperties.
